(** * Protocol Improver backend: a shallow embedding and its properties

    The development follows the Python sources under [src/backend]:

    - [text_extractor.py]: [TextExtractor.extract] and [preview_text];
    - [analyzer.py]: [ProtocolAnalyzer], in particular
      [_parse_analysis_response], [analyze_protocol],
      [generate_improved_protocol] and [quick_check];
    - [main.py]: the endpoints and the module-level [analysis_cache].

    Python values that come out of [json.loads] are an inductive type
    ([pyval]); a Python [dict] is an association list in insertion order
    with the update-in-place behaviour of [d[k] = v]; exceptions are
    explicit results ([Returns] / [Raises]); everything that touches the
    process (cache, clock, saved files, the model provider, [print]) goes
    through a state-and-exception monad [M] over a [world].  Paths are
    read as [pathlib] reads them, and the two folders answer as a POSIX
    file system does ([Posix]).

    Text is a [string] of 8-bit characters.  [len], [find], [rfind] and
    slicing act per character, as they do on a Python [str].  Resource
    limits of the interpreter (recursion depth, memory) are not modelled. *)

From Stdlib Require Import ZArith List String Ascii Bool Lia QArith.
From Stdlib Require Import Sorted Permutation.
Import ListNotations.

Local Open Scope string_scope.
Local Open Scope list_scope.
Local Open Scope Z_scope.

(* ================================================================== *)
(** * Python strings *)

(** An f-string, as the list of its literal and interpolated parts. *)
Definition fstring (parts : list string) : string :=
  String.concat EmptyString parts.

Definition chars (s : string) : list ascii := list_ascii_of_string s.
Definition text (l : list ascii) : string := string_of_list_ascii l.

(** [len(s)] *)
Definition len (s : string) : Z := Z.of_nat (String.length s).

Fixpoint index_of (c : ascii) (l : list ascii) : option nat :=
  match l with
  | [] => None
  | x :: r =>
      if Ascii.eqb x c then Some 0%nat
      else match index_of c r with Some i => Some (S i) | None => None end
  end.

Fixpoint last_index_of (c : ascii) (l : list ascii) : option nat :=
  match l with
  | [] => None
  | x :: r =>
      match last_index_of c r with
      | Some j => Some (S j)
      | None => if Ascii.eqb x c then Some 0%nat else None
      end
  end.

(** [s.find(c)] and [s.rfind(c)] for a one-character needle: the lowest
    (highest) index of [c], or [-1]. *)
Definition find (s : string) (c : ascii) : Z :=
  match index_of c (chars s) with Some i => Z.of_nat i | None => -1 end.

Definition rfind (s : string) (c : ascii) : Z :=
  match last_index_of c (chars s) with Some i => Z.of_nat i | None => -1 end.

(** Slice bounds as Python normalises them: a negative bound counts from
    the end, and both are clamped to [0 .. n]. *)
Definition slice_bound (n i : Z) : Z :=
  let i := if i <? 0 then i + n else i in
  Z.max 0 (Z.min n i).

(** [l[lo:hi]] *)
Definition slice {A : Type} (l : list A) (lo hi : Z) : list A :=
  let n := Z.of_nat (List.length l) in
  let a := slice_bound n lo in
  let b := slice_bound n hi in
  firstn (Z.to_nat (b - a)) (skipn (Z.to_nat a) l).

(** [s[lo:hi]] and [s[:hi]] *)
Definition str_slice (s : string) (lo hi : Z) : string :=
  text (slice (chars s) lo hi).

Definition str_slice_to (s : string) (hi : Z) : string := str_slice s 0 hi.

(** [str.isspace] on one character, and [s.strip()]. *)
Definition isspace (c : ascii) : bool :=
  let n := nat_of_ascii c in
  ((9 <=? n) && (n <=? 13) || (28 <=? n) && (n <=? 32)
   || (n =? 133) || (n =? 160))%nat.

Fixpoint lstrip_chars (l : list ascii) : list ascii :=
  match l with
  | c :: r => if isspace c then lstrip_chars r else l
  | [] => []
  end.

Definition strip (s : string) : string :=
  text (rev (lstrip_chars (rev (lstrip_chars (chars s))))).

(** [s.lower()] on the ASCII letters. *)
Definition lower_char (c : ascii) : ascii :=
  let n := nat_of_ascii c in
  if ((65 <=? n) && (n <=? 90))%nat then ascii_of_nat (n + 32) else c.

Definition lower (s : string) : string := text (map lower_char (chars s)).

(** Decimal rendering of a non-negative number, zero-padded to [width]
    digits ([%Y], [%m], [%d], [%H], [%M], [%S] of [strftime]). *)
Definition digit_char (d : nat) : ascii := ascii_of_nat (48 + d).

Fixpoint digits_rev (fuel n : nat) : list ascii :=
  match fuel with
  | O => []
  | S fuel' =>
      digit_char (n mod 10) ::
        (if (n / 10 =? 0)%nat then [] else digits_rev fuel' (n / 10))
  end.

Definition decimal (n : nat) : list ascii := rev (digits_rev (S n) n).

Definition zero_pad (width : nat) (n : nat) : string :=
  let d := decimal n in
  text (repeat "0"%char (width - List.length d) ++ d).

(** [str(n)] for an [int]. *)
Definition str_of_int (z : Z) : string :=
  if z <? 0 then text ("-"%char :: decimal (Z.to_nat (- z)))
  else text (decimal (Z.to_nat z)).

(* ================================================================== *)
(** * Python values and exceptions *)

Local Set Warnings "-register-all".

(** What [json.loads] builds, and what the endpoints return.  An [int] is
    unbounded; a [float] keeps the literal it was read from (no arithmetic
    is done on it anywhere in the program). *)
Inductive pyval : Type :=
| PNone
| PBool (b : bool)
| PInt (z : Z)
| PFloat (literal : string)
| PStr (s : string)
| PList (items : list pyval)
| PDict (entries : list (string * pyval)).

(** A Python [dict] with [str] keys, in insertion order. *)
Definition pydict (V : Type) : Type := list (string * V).
Definition dict : Type := pydict pyval.

(** [k in d] *)
Fixpoint dict_contains {V : Type} (d : pydict V) (k : string) : bool :=
  match d with
  | [] => false
  | (k', _) :: r => if String.eqb k' k then true else dict_contains r k
  end.

(** [d.get(k)], with [None] for Python's [None] default. *)
Fixpoint dict_get {V : Type} (d : pydict V) (k : string) : option V :=
  match d with
  | [] => None
  | (k', v) :: r => if String.eqb k' k then Some v else dict_get r k
  end.

(** [d.get(k, default)] *)
Definition dict_get_default {V : Type} (d : pydict V) (k : string) (default : V) : V :=
  match dict_get d k with Some v => v | None => default end.

(** [d[k] = v]: an existing key keeps its position, a new one goes last. *)
Fixpoint dict_set {V : Type} (d : pydict V) (k : string) (v : V) : pydict V :=
  match d with
  | [] => [(k, v)]
  | (k', v') :: r =>
      if String.eqb k' k then (k', v) :: r else (k', v') :: dict_set r k v
  end.

Definition dict_keys {V : Type} (d : pydict V) : list string := map fst d.

Inductive exn_class : Type :=
| JSONDecodeError
| TypeError
| AttributeError
| IndexError
| KeyError
| ValueError
| OSError
| APIError
| RuntimeError.

(** A raised exception: an ordinary one with its [str(e)], or FastAPI's
    [HTTPException], which is what a caller of an endpoint sees. *)
Inductive exn : Type :=
| Exn (cls : exn_class) (msg : string)
| HTTPException (status_code : Z) (detail : pyval).

(** [str(e)] *)
Definition str_of_exn (e : exn) : string :=
  match e with
  | Exn _ msg => msg
  | HTTPException _ _ => EmptyString
  end.

Inductive result (A : Type) : Type :=
| Returns (a : A)
| Raises (e : exn).
Arguments Returns {A} a.
Arguments Raises {A} e.

Definition rbind {A B : Type} (r : result A) (k : A -> result B) : result B :=
  match r with
  | Returns a => k a
  | Raises e => Raises e
  end.

Declare Scope result_scope.
Delimit Scope result_scope with result.
Notation "x <- c ;; k" := (rbind c (fun x => k))
  (at level 61, c at next level, right associativity) : result_scope.

Fixpoint mapM {A B : Type} (f : A -> result B) (l : list A) : result (list B) :=
  match l with
  | [] => Returns []
  | x :: r =>
      (y <- f x ;; ys <- mapM f r ;; Returns (y :: ys))%result
  end.

(** [type(v).__name__] *)
Definition type_name (v : pyval) : string :=
  match v with
  | PNone => "NoneType"
  | PBool _ => "bool"
  | PInt _ => "int"
  | PFloat _ => "float"
  | PStr _ => "str"
  | PList _ => "list"
  | PDict _ => "dict"
  end.

(** [len(v)] *)
Definition py_len (v : pyval) : result Z :=
  match v with
  | PStr s => Returns (len s)
  | PList l => Returns (Z.of_nat (List.length l))
  | PDict d => Returns (Z.of_nat (List.length d))
  | _ => Raises (Exn TypeError
                   (fstring ["object of type '"; type_name v; "' has no len()"]))
  end.

(** [d[k]] *)
Definition dict_getitem {V : Type} (d : pydict V) (k : string) : result V :=
  match dict_get d k with
  | Some v => Returns v
  | None => Raises (Exn KeyError (fstring ["'"; k; "'"]))
  end.

(** [l[i]] on a list: a negative index counts from the end. *)
Definition list_getitem {A : Type} (l : list A) (i : Z) : result A :=
  let n := Z.of_nat (List.length l) in
  let j := if i <? 0 then i + n else i in
  if (j <? 0) || (n <=? j) then Raises (Exn IndexError "list index out of range")
  else match nth_error l (Z.to_nat j) with
       | Some v => Returns v
       | None => Raises (Exn IndexError "list index out of range")
       end.

(** A float literal denotes zero when its mantissa has no non-zero digit. *)
Fixpoint mantissa_is_zero (l : list ascii) : bool :=
  match l with
  | [] => true
  | c :: r =>
      if Ascii.eqb c "e" || Ascii.eqb c "E" then true
      else if Ascii.eqb c "N" || Ascii.eqb c "I" then false
      else
        let n := nat_of_ascii c in
        if ((49 <=? n) && (n <=? 57))%nat then false else mantissa_is_zero r
  end.

(** Truth value of an object ([if v:], [not v]). *)
Definition truthy (v : pyval) : bool :=
  match v with
  | PNone => false
  | PBool b => b
  | PInt z => negb (z =? 0)
  | PFloat lit => negb (mantissa_is_zero (chars lit))
  | PStr s => negb (String.eqb s EmptyString)
  | PList l => match l with [] => false | _ => true end
  | PDict d => match d with [] => false | _ => true end
  end.

(** ** [list.sort(key=...)]

    The keys are computed first, one call per element in list order; an
    exception from a key call leaves the sort undone and propagates.  The
    sort itself is stable.  Stability and sortedness determine the output
    (see [stable_sort_unique]), so insertion from the right stands for the
    library's algorithm. *)
Fixpoint insert_keyed {A : Type} (kx : nat * A) (l : list (nat * A)) : list (nat * A) :=
  match l with
  | [] => [kx]
  | ky :: r =>
      if (fst kx <=? fst ky)%nat then kx :: ky :: r
      else ky :: insert_keyed kx r
  end.

Definition sort_keyed {A : Type} (l : list (nat * A)) : list (nat * A) :=
  fold_right insert_keyed [] l.

Definition list_sort {A : Type} (key : A -> result nat) (l : list A) : result (list A) :=
  (keys <- mapM key l ;;
   Returns (map snd (sort_keyed (combine keys l))))%result.

(* ================================================================== *)
(** * A decoder for JSON text

    [Json.loads] follows the grammar and the control flow of the standard
    library's decoder ([json.decoder], [json.scanner]) on 8-bit text:
    whitespace, objects (a repeated key keeps its first position and its
    last value), arrays, strings with the one-letter escapes, numbers,
    [true], [false], [null], [NaN] and the infinities.  It rejects a
    [\u] escape, which this character model cannot hold; no text below
    uses one.  The message of a [JSONDecodeError] is the library's
    without its position suffix. *)

Module Json.

Definition quote_char : ascii := ascii_of_nat 34.
Definition backslash_char : ascii := ascii_of_nat 92.

Definition decode_error {A : Type} (msg : string) : result A :=
  Raises (Exn JSONDecodeError msg).

Definition is_ws (c : ascii) : bool :=
  Ascii.eqb c " " || (nat_of_ascii c =? 9)%nat
  || (nat_of_ascii c =? 10)%nat || (nat_of_ascii c =? 13)%nat.

Fixpoint skip_ws (l : list ascii) : list ascii :=
  match l with
  | c :: r => if is_ws c then skip_ws r else l
  | [] => []
  end.

Fixpoint starts_with (p l : list ascii) : bool :=
  match p, l with
  | [], _ => true
  | _ :: _, [] => false
  | a :: p', b :: l' => Ascii.eqb a b && starts_with p' l'
  end.

Definition unescape (c : ascii) : option ascii :=
  if Ascii.eqb c quote_char then Some quote_char
  else if Ascii.eqb c backslash_char then Some backslash_char
  else if Ascii.eqb c "/" then Some "/"%char
  else if Ascii.eqb c "b" then Some (ascii_of_nat 8)
  else if Ascii.eqb c "f" then Some (ascii_of_nat 12)
  else if Ascii.eqb c "n" then Some (ascii_of_nat 10)
  else if Ascii.eqb c "r" then Some (ascii_of_nat 13)
  else if Ascii.eqb c "t" then Some (ascii_of_nat 9)
  else None.

(** [py_scanstring], from just after the opening quote, in strict mode. *)
Fixpoint scan_string (l acc : list ascii) : result (string * list ascii) :=
  match l with
  | [] => decode_error "Unterminated string starting at"
  | c :: r =>
      if Ascii.eqb c quote_char then Returns (text (rev acc), r)
      else if Ascii.eqb c backslash_char then
        match r with
        | e :: r' =>
            match unescape e with
            | Some ch => scan_string r' (ch :: acc)
            | None => decode_error "Invalid \escape"
            end
        | [] => decode_error "Unterminated string starting at"
        end
      else if (nat_of_ascii c <? 32)%nat then decode_error "Invalid control character at"
      else scan_string r (c :: acc)
  end.

Definition is_digit (c : ascii) : bool :=
  ((48 <=? nat_of_ascii c) && (nat_of_ascii c <=? 57))%nat.

Fixpoint span_digits (l : list ascii) : list ascii * list ascii :=
  match l with
  | c :: r =>
      if is_digit c then let (ds, rest) := span_digits r in (c :: ds, rest)
      else ([], l)
  | [] => ([], [])
  end.

Definition digits_value (ds : list ascii) : Z :=
  fold_left (fun acc c => 10 * acc + Z.of_nat (nat_of_ascii c - 48)) ds 0.

(** The decoder's number pattern: an optional minus sign, then a zero or
    a digit string without a leading zero; an optional fraction (a dot
    and digits); an optional exponent (e or E, a sign, digits).  A
    fraction or exponent with no digit is left unread. *)
Definition scan_number (l : list ascii) : option (pyval * list ascii) :=
  let (sign, l1) :=
    match l with
    | c :: r => if Ascii.eqb c "-" then (["-"%char], r) else ([], l)
    | [] => ([], l)
    end in
  let int_part :=
    match l1 with
    | c :: r =>
        if Ascii.eqb c "0" then Some ([c], r)
        else if is_digit c then Some (span_digits l1)
        else None
    | [] => None
    end in
  match int_part with
  | None => None
  | Some (ds, l2) =>
      let (frac, l3) :=
        match l2 with
        | c :: r =>
            if Ascii.eqb c "." then
              match span_digits r with
              | ([], _) => ([], l2)
              | (fd, rest) => (c :: fd, rest)
              end
            else ([], l2)
        | [] => ([], l2)
        end in
      let (exp, l4) :=
        match l3 with
        | c :: r =>
            if Ascii.eqb c "e" || Ascii.eqb c "E" then
              let (sg, r1) :=
                match r with
                | s :: r' =>
                    if Ascii.eqb s "-" || Ascii.eqb s "+" then ([s], r') else ([], r)
                | [] => ([], r)
                end in
              match span_digits r1 with
              | ([], _) => ([], l3)
              | (ed, rest) => (c :: sg ++ ed, rest)
              end
            else ([], l3)
        | [] => ([], l3)
        end in
      match frac, exp with
      | [], [] =>
          Some (PInt (match sign with [] => digits_value ds | _ => - digits_value ds end), l4)
      | _, _ => Some (PFloat (text (sign ++ ds ++ frac ++ exp)), l4)
      end
  end.

(** [scan_once] with the object and the array loops.  Every call consumes
    a character before it recurses, so fuel above the length of the text
    never runs out. *)
Fixpoint scan_once (fuel : nat) (l : list ascii) {struct fuel}
  : result (pyval * list ascii) :=
  match fuel with
  | O => decode_error "Expecting value"
  | S fuel' =>
      match l with
      | [] => decode_error "Expecting value"
      | c :: r =>
          if Ascii.eqb c quote_char then
            (sr <- scan_string r [] ;; Returns (PStr (fst sr), snd sr))%result
          else if Ascii.eqb c "{" then
            match skip_ws r with
            | c1 :: r1 =>
                if Ascii.eqb c1 "}" then Returns (PDict [], r1)
                else if Ascii.eqb c1 quote_char then scan_pairs fuel' r1 []
                else decode_error "Expecting property name enclosed in double quotes"
            | [] => decode_error "Expecting property name enclosed in double quotes"
            end
          else if Ascii.eqb c "[" then
            match skip_ws r with
            | c1 :: r1 =>
                if Ascii.eqb c1 "]" then Returns (PList [], r1)
                else scan_items fuel' (skip_ws r) []
            | [] => decode_error "Expecting value"
            end
          else if starts_with (chars "null") l then Returns (PNone, skipn 4 l)
          else if starts_with (chars "true") l then Returns (PBool true, skipn 4 l)
          else if starts_with (chars "false") l then Returns (PBool false, skipn 5 l)
          else
            match scan_number l with
            | Some vr => Returns vr
            | None =>
                if starts_with (chars "NaN") l then Returns (PFloat "NaN", skipn 3 l)
                else if starts_with (chars "Infinity") l
                then Returns (PFloat "Infinity", skipn 8 l)
                else if starts_with (chars "-Infinity") l
                then Returns (PFloat "-Infinity", skipn 9 l)
                else decode_error "Expecting value"
            end
      end
  end

with scan_pairs (fuel : nat) (l : list ascii) (pairs : dict) {struct fuel}
  : result (pyval * list ascii) :=
  match fuel with
  | O => decode_error "Expecting value"
  | S fuel' =>
      (kr <- scan_string l [] ;;
       match skip_ws (snd kr) with
       | c :: r =>
           if Ascii.eqb c ":" then
             vr <- scan_once fuel' (skip_ws r) ;;
             let pairs' := dict_set pairs (fst kr) (fst vr) in
             match skip_ws (snd vr) with
             | c2 :: r2 =>
                 if Ascii.eqb c2 "}" then Returns (PDict pairs', r2)
                 else if Ascii.eqb c2 "," then
                   match skip_ws r2 with
                   | c3 :: r3 =>
                       if Ascii.eqb c3 quote_char then scan_pairs fuel' r3 pairs'
                       else decode_error
                              "Expecting property name enclosed in double quotes"
                   | [] => decode_error
                             "Expecting property name enclosed in double quotes"
                   end
                 else decode_error "Expecting ',' delimiter"
             | [] => decode_error "Expecting ',' delimiter"
             end
           else decode_error "Expecting ':' delimiter"
       | [] => decode_error "Expecting ':' delimiter"
       end)%result
  end

with scan_items (fuel : nat) (l : list ascii) (items : list pyval) {struct fuel}
  : result (pyval * list ascii) :=
  match fuel with
  | O => decode_error "Expecting value"
  | S fuel' =>
      (vr <- scan_once fuel' l ;;
       match skip_ws (snd vr) with
       | c :: r =>
           if Ascii.eqb c "]" then Returns (PList (rev (fst vr :: items)), r)
           else if Ascii.eqb c "," then scan_items fuel' (skip_ws r) (fst vr :: items)
           else decode_error "Expecting ',' delimiter"
       | [] => decode_error "Expecting ',' delimiter"
       end)%result
  end.

(** [json.loads(s)] *)
Definition loads (s : string) : result pyval :=
  let l := skip_ws (chars s) in
  (vr <- scan_once (2 * List.length l + 2) l ;;
   match skip_ws (snd vr) with
   | [] => Returns (fst vr)
   | _ :: _ => decode_error "Extra data"
   end)%result.

End Json.

(** Test texts are written with a backquote where the text has a double
    quote. *)
Definition dq (s : string) : string :=
  text (map (fun c => if Ascii.eqb c "`" then Json.quote_char else c) (chars s)).

(* ================================================================== *)
(** * The process and its collaborators *)

(** [datetime.now()] *)
Record datetime : Type := {
  year : nat; month : nat; day : nat;
  hour : nat; minute : nat; second : nat; microsecond : nat }.

(** [strftime] with the two formats the program uses (four-digit years). *)
Definition strftime_Ymd_HMS (t : datetime) : string :=
  fstring [zero_pad 4 (year t); zero_pad 2 (month t); zero_pad 2 (day t); "_";
           zero_pad 2 (hour t); zero_pad 2 (minute t); zero_pad 2 (second t)].

Definition strftime_YmdHMS (t : datetime) : string :=
  fstring [zero_pad 4 (year t); zero_pad 2 (month t); zero_pad 2 (day t);
           zero_pad 2 (hour t); zero_pad 2 (minute t); zero_pad 2 (second t)].

Definition isoformat (t : datetime) : string :=
  fstring [zero_pad 4 (year t); "-"; zero_pad 2 (month t); "-"; zero_pad 2 (day t);
           "T"; zero_pad 2 (hour t); ":"; zero_pad 2 (minute t); ":";
           zero_pad 2 (second t);
           if (microsecond t =? 0)%nat then EmptyString
           else fstring ["."; zero_pad 6 (microsecond t)]].

(** The request and the response of [client.messages.create]. *)
Record request : Type := {
  req_model : string;
  req_max_tokens : Z;
  req_temperature : option Q;
  req_prompt : string }.

Record response : Type := {
  content : list string;
  input_tokens : Z;
  output_tokens : Z }.

(** What [pypdf.PdfReader] and [docx.Document] make of a file: the text of
    each page and the information dictionary; the paragraphs, the tables
    (rows of cells) and the core properties. *)
Record pdf_document : Type := {
  pdf_pages : list string;
  pdf_metadata : pydict string }.

Record docx_document : Type := {
  docx_paragraphs : list string;
  docx_tables : list (list (list string));
  docx_title : string;
  docx_author : string }.

(** The bytes of a file, as far as the program looks at them. *)
Record file_bytes : Type := {
  byte_size : Z;
  as_pdf : result pdf_document;
  as_docx : result docx_document }.

Record UploadFile : Type := {
  upload_filename : string;
  upload_file : file_bytes }.

(** What the program calls and does not define: the standard library's
    JSON decoder, the model provider, the wall clock (its successive
    readings), and [repr]: of a float or a container in a prompt, of a
    path in the message of an [OSError]. *)
Class Externals : Type := {
  json_loads : string -> result pyval;
  messages_create : request -> result response;
  clock : nat -> datetime;
  py_repr : pyval -> string }.

(** [str(v)], as an f-string renders a value. *)
Definition py_str `{Externals} (v : pyval) : string :=
  match v with
  | PStr s => s
  | PInt z => str_of_int z
  | PBool true => "True"
  | PBool false => "False"
  | PNone => "None"
  | _ => py_repr v
  end.

(** An entry of [analysis_cache]. *)
Record cache_entry : Type := {
  original_text : string;
  analysis : dict;
  filename : string;
  timestamp : string }.

Record world : Type := {
  analysis_cache : pydict cache_entry;
  upload_folder : pydict file_bytes;
  output_folder : pydict string;
  model_calls : list request;
  stdout : list string;
  clock_reads : nat }.

Definition with_analysis_cache (c : pydict cache_entry) (w : world) : world :=
  {| analysis_cache := c; upload_folder := upload_folder w;
     output_folder := output_folder w; model_calls := model_calls w;
     stdout := stdout w; clock_reads := clock_reads w |}.

Definition with_upload_folder (u : pydict file_bytes) (w : world) : world :=
  {| analysis_cache := analysis_cache w; upload_folder := u;
     output_folder := output_folder w; model_calls := model_calls w;
     stdout := stdout w; clock_reads := clock_reads w |}.

Definition with_output_folder (o : pydict string) (w : world) : world :=
  {| analysis_cache := analysis_cache w; upload_folder := upload_folder w;
     output_folder := o; model_calls := model_calls w;
     stdout := stdout w; clock_reads := clock_reads w |}.

Definition with_model_calls (m : list request) (w : world) : world :=
  {| analysis_cache := analysis_cache w; upload_folder := upload_folder w;
     output_folder := output_folder w; model_calls := m;
     stdout := stdout w; clock_reads := clock_reads w |}.

Definition with_stdout (s : list string) (w : world) : world :=
  {| analysis_cache := analysis_cache w; upload_folder := upload_folder w;
     output_folder := output_folder w; model_calls := model_calls w;
     stdout := s; clock_reads := clock_reads w |}.

Definition with_clock_reads (n : nat) (w : world) : world :=
  {| analysis_cache := analysis_cache w; upload_folder := upload_folder w;
     output_folder := output_folder w; model_calls := model_calls w;
     stdout := stdout w; clock_reads := n |}.

Definition empty_world : world :=
  {| analysis_cache := []; upload_folder := []; output_folder := [];
     model_calls := []; stdout := []; clock_reads := 0 |}.

(** Computations of the process: a state that survives an exception. *)
Definition M (A : Type) : Type := world -> result A * world.

Definition ret {A : Type} (a : A) : M A := fun w => (Returns a, w).

Definition raise {A : Type} (e : exn) : M A := fun w => (Raises e, w).

Definition bind {A B : Type} (m : M A) (k : A -> M B) : M B :=
  fun w =>
    match m w with
    | (Returns a, w') => k a w'
    | (Raises e, w') => (Raises e, w')
    end.

Definition lift {A : Type} (r : result A) : M A := fun w => (r, w).

(** [try: body  except Exception as e: handler(e)] *)
Definition try_except {A : Type} (body : M A) (handler : exn -> M A) : M A :=
  fun w =>
    match body w with
    | (Returns a, w') => (Returns a, w')
    | (Raises e, w') => handler e w'
    end.

Declare Scope M_scope.
Delimit Scope M_scope with M.
Notation "x <- c ;; k" := (bind c (fun x => k))
  (at level 61, c at next level, right associativity) : M_scope.
Notation "c ;;; k" := (bind c (fun _ => k))
  (at level 61, right associativity) : M_scope.

Definition get_world : M world := fun w => (Returns w, w).

Definition modify (f : world -> world) : M unit := fun w => (Returns tt, f w).

(** [print(line)] *)
Definition print (line : string) : M unit :=
  modify (fun w => with_stdout (stdout w ++ [line]) w).

(** [datetime.now()] *)
Definition now `{Externals} : M datetime :=
  fun w => (Returns (clock (clock_reads w)), with_clock_reads (S (clock_reads w)) w).

(** [self.client.messages.create(...)]: the call is recorded, then answered
    or failed by the provider. *)
Definition client_messages_create `{Externals} (r : request) : M response :=
  fun w => (messages_create r, with_model_calls (model_calls w ++ [r]) w).

(** [dict_del]: [del d[k]] for a key that may be absent. *)
Fixpoint dict_remove {V : Type} (d : pydict V) (k : string) : pydict V :=
  match d with
  | [] => []
  | (k', v) :: r => if String.eqb k' k then r else (k', v) :: dict_remove r k
  end.

(** config.py *)
Module settings.
Definition ANTHROPIC_MODEL : string := "claude-sonnet-4-20250514".
Definition MAX_FILE_SIZE_MB : Z := 10.
Definition ALLOWED_EXTENSIONS : list string := [".pdf"; ".docx"; ".doc"].
Definition UPLOAD_FOLDER : string := "../uploads".
Definition OUTPUT_FOLDER : string := "../outputs".
Definition MAX_TOKENS : Z := 4000.
Definition TEMPERATURE : Q := 3 # 10.

(** [Settings.validate], as a function of the key read from the
    environment.  Its last step, [os.makedirs(..., exist_ok=True)] on the
    two folders, is what makes the folders of the [world] exist. *)
Definition validate (ANTHROPIC_API_KEY : string) : result bool :=
  if String.eqb ANTHROPIC_API_KEY EmptyString then
    Raises (Exn ValueError
              "ANTHROPIC_API_KEY not found. Please add it to your .env file")
  else if negb (String.prefix "sk-ant-" ANTHROPIC_API_KEY) then
    Raises (Exn ValueError
              "ANTHROPIC_API_KEY appears to be invalid. It should start with 'sk-ant-'")
  else Returns true.
End settings.

Definition newline : string := String (ascii_of_nat 10) EmptyString.

(** [sep.join(parts)] *)
Definition join (sep : string) (parts : list string) : string :=
  String.concat sep parts.


(* ================================================================== *)
(** * Paths and the two folders

    [pathlib] and the file system, as far as the endpoints use them.  Paths
    are POSIX paths.  The two folders exist ([config] created them when it
    was imported), the process may write to them, and they hold regular
    files only, the ones the process saved: it never creates a directory.
    A name is measured in the bytes [os.fsencode] gives it, and the limits
    on names are those of Linux. *)

Module Posix.

Definition NAME_MAX : Z := 255.
Definition PATH_MAX : Z := 4096.

Definition slash : ascii := "/"%char.

(** [s.split(sep)], on characters. *)
Fixpoint split_chars (sep : ascii) (l : list ascii) : list (list ascii) :=
  match l with
  | [] => [[]]
  | c :: r =>
      if Ascii.eqb c sep then [] :: split_chars sep r
      else match split_chars sep r with
           | seg :: segs => (c :: seg) :: segs
           | [] => [[c]]
           end
  end.

(** A component [pathlib] keeps: not empty and not a single dot. *)
Definition kept (part : string) : bool :=
  negb (String.eqb part EmptyString || String.eqb part ".").

(** The components of a path below its root, as [pathlib] keeps them:
    doubled and trailing slashes and single dots go, double dots stay. *)
Definition path_parts (p : string) : list string :=
  filter kept (map text (split_chars slash (chars p))).

(** [str(Path(folder) / relative)], for a folder written in normal form
    and a relative path. *)
Definition path_str (folder relative : string) : string :=
  join "/" (folder :: path_parts relative).

Definition has_slash (s : string) : bool := existsb (Ascii.eqb slash) (chars s).

Definition has_nul (s : string) : bool := existsb (Ascii.eqb Ascii.zero) (chars s).

(** The length of [os.fsencode(s)]: UTF-8, two bytes from code point 128. *)
Definition encoded_length (s : string) : Z :=
  fold_right (fun c n => (if (nat_of_ascii c <? 128)%nat then 1 else 2) + n) 0
    (chars s).

(** What [Path(folder) / relative] leads to, given the names in the
    folder.  The system call walks the components in order: a first
    component that is missing, or is a file, ends the walk of a longer
    path.  [Elsewhere] is a path that leaves the folder: the endpoints
    build none (they put a stamp in front of a name, and the router admits
    no slash), and the model knows nothing of what is there. *)
Inductive resolution : Type :=
| Embedded_nul
| Too_long
| No_entry
| Not_a_directory
| Is_a_directory
| Elsewhere
| Entry (name : string).

Definition resolve (existing : list string) (folder relative : string) : resolution :=
  if has_nul relative then Embedded_nul
  else if String.prefix "/" relative then Elsewhere
  else if PATH_MAX <=? encoded_length (path_str folder relative) then Too_long
  else
    match path_parts relative with
    | [] => Is_a_directory
    | first :: rest =>
        if NAME_MAX <? encoded_length first then Too_long
        else if String.eqb first ".." then
          match rest with
          | [] => Is_a_directory
          | _ :: _ => Elsewhere
          end
        else
          match rest with
          | [] => Entry first
          | _ :: _ =>
              if existsb (String.eqb first) existing then Not_a_directory
              else No_entry
          end
    end.

Section Calls.
Context `{Externals}.

(** [str(e)] of an [OSError] that carries a path. *)
Definition os_error (errno : Z) (strerror path : string) : exn :=
  Exn OSError
    (fstring ["[Errno "; str_of_int errno; "] "; strerror; ": "; py_repr (PStr path)]).

(** The exception for a path that is no entry of the folder.  A process
    kept to its two folders is denied what lies elsewhere. *)
Definition refusal (folder relative : string) (r : resolution) : exn :=
  let path := path_str folder relative in
  match r with
  | Embedded_nul => Exn ValueError "embedded null byte"
  | Too_long => os_error 36 "File name too long" path
  | No_entry => os_error 2 "No such file or directory" path
  | Not_a_directory => os_error 20 "Not a directory" path
  | Is_a_directory => os_error 21 "Is a directory" path
  | Elsewhere => os_error 13 "Permission denied" path
  | Entry _ => os_error 2 "No such file or directory" path
  end.

(** [open(path, "w")]: the name under which the file is created or
    truncated, or the exception. *)
Definition create (existing : list string) (folder relative : string) : result string :=
  match resolve existing folder relative with
  | Entry name => Returns name
  | r => Raises (refusal folder relative r)
  end.

(** [path.exists()], as [pathlib] has it before Python 3.14: a missing
    entry, a path through a file and a path with a NUL count as absent,
    every other error of [stat] is raised. *)
Definition path_exists (existing : list string) (folder relative : string)
  : result bool :=
  match resolve existing folder relative with
  | Entry name => Returns (existsb (String.eqb name) existing)
  | Is_a_directory => Returns true
  | Embedded_nul | No_entry | Not_a_directory => Returns false
  | r => Raises (refusal folder relative r)
  end.

(** [path.unlink()]: the name that is removed, or the exception. *)
Definition unlink (existing : list string) (folder relative : string) : result string :=
  match resolve existing folder relative with
  | Entry name =>
      if existsb (String.eqb name) existing then Returns name
      else Raises (refusal folder relative No_entry)
  | r => Raises (refusal folder relative r)
  end.

End Calls.
End Posix.

(* ================================================================== *)
(** * text_extractor.py *)

Module TextExtractor.

(** [Path(p).name] and [Path(p).suffix] *)
Definition path_name (p : string) : string :=
  last (Posix.path_parts p) EmptyString.

Definition path_suffix (p : string) : string :=
  let name := path_name p in
  let i := rfind name "." in
  if (0 <? i) && (i <? len name - 1) then str_slice name i (len name)
  else EmptyString.

Definition nonblank (s : string) : bool :=
  negb (String.eqb (strip s) EmptyString).

(** The loop over [enumerate(pdf_reader.pages, 1)]. *)
Fixpoint pdf_text_parts (page_num : nat) (pages : list string) : list string :=
  match pages with
  | [] => []
  | page_text :: rest =>
      (if nonblank page_text
       then [fstring [newline; "--- Page "; str_of_int (Z.of_nat page_num); " ---";
                      newline];
             page_text]
       else [])
      ++ pdf_text_parts (S page_num) rest
  end.

Definition _extract_from_pdf (file : file_bytes) : result (string * dict) :=
  let body :=
    (pdf_reader <- as_pdf file ;;
     let metadata : dict :=
       [("file_type", PStr "pdf");
        ("pages", PInt (Z.of_nat (List.length (pdf_pages pdf_reader))));
        ("extraction_method", PStr "pypdf")] in
     let text_parts := pdf_text_parts 1 (pdf_pages pdf_reader) in
     let metadata :=
       match pdf_metadata pdf_reader with
       | [] => metadata
       | info =>
           dict_set
             (dict_set metadata "title"
                (PStr (dict_get_default info "/Title" EmptyString)))
             "author" (PStr (dict_get_default info "/Author" EmptyString))
       end in
     let full_text := join newline text_parts in
     if nonblank full_text then Returns (full_text, metadata)
     else Raises (Exn ValueError "No text could be extracted from the PDF"))%result in
  match body with
  | Returns r => Returns r
  | Raises e =>
      Raises (Exn ValueError
                (fstring ["Error extracting text from PDF: "; str_of_exn e]))
  end.

Definition _extract_from_docx (file : file_bytes) : result (string * dict) :=
  let body :=
    (doc <- as_docx file ;;
     let paragraphs := filter nonblank (docx_paragraphs doc) in
     let cells := filter nonblank (List.concat (List.concat (docx_tables doc))) in
     let text_parts := paragraphs ++ cells in
     let metadata : dict :=
       [("file_type", PStr "docx");
        ("paragraphs", PInt (Z.of_nat (List.length paragraphs)));
        ("extraction_method", PStr "python-docx");
        ("title", PStr (docx_title doc));
        ("author", PStr (docx_author doc))] in
     let full_text := join newline text_parts in
     if nonblank full_text then Returns (full_text, metadata)
     else Raises (Exn ValueError "No text could be extracted from the DOCX"))%result in
  match body with
  | Returns r => Returns r
  | Raises e =>
      Raises (Exn ValueError
                (fstring ["Error extracting text from DOCX: "; str_of_exn e]))
  end.

(** [extract(file_path)]: the path gives the extension, the folder gives
    the bytes stored under it. *)
Definition extract (file_path : string) (file : file_bytes) : result (string * dict) :=
  let file_extension := lower (path_suffix file_path) in
  if String.eqb file_extension ".pdf" then _extract_from_pdf file
  else if String.eqb file_extension ".docx" || String.eqb file_extension ".doc"
  then _extract_from_docx file
  else Raises (Exn ValueError
                 (fstring ["Unsupported file format: "; file_extension])).

(** [[
    def preview_text(self, text: str, max_chars: int = 500) -> str:
        if len(text) <= max_chars:
            return text
        return text[:max_chars] + "..."
    ]] *)
Definition preview_text (text : string) (max_chars : Z) : string :=
  if len text <=? max_chars then text
  else (str_slice_to text max_chars ++ "...")%string.

End TextExtractor.

(* ================================================================== *)
(** * analyzer.py *)

Module ProtocolAnalyzer.
Section Analyzer.
Context `{Externals}.

Definition model : string := settings.ANTHROPIC_MODEL.

Definition _create_analysis_prompt (protocol_text filename : string) : string :=
  fstring [
"You are an expert laboratory protocol reviewer. Analyze the following laboratory protocol and identify specific improvements.

";
    (if String.eqb filename EmptyString then EmptyString
     else ("Protocol File: " ++ filename)%string);
    dq "

For each issue you find, provide:
1. The category (safety, clarity, completeness, formatting, or best_practices)
2. The priority level (HIGH, MEDIUM, or LOW)
3. The specific location (step number or section)
4. A clear description of the issue
5. A specific, actionable suggestion for improvement

Focus on:
- **Safety Issues**: Missing warnings, hazard information, PPE requirements
- **Clarity Issues**: Ambiguous instructions, unclear measurements, vague timing
- **Completeness Issues**: Missing materials, equipment, concentrations, temperatures
- **Formatting Issues**: Poor structure, inconsistent numbering, hard to follow
- **Best Practices**: Industry standards, optimization opportunities, quality controls

Return your analysis in this exact JSON format:
{
    `summary`: `Brief overview of the protocol and overall assessment`,
    `overall_score`: `A score from 1-10`,
    `total_issues`: `Total number of issues found`,
    `suggestions`: [
        {
            `category`: `safety|clarity|completeness|formatting|best_practices`,
            `priority`: `HIGH|MEDIUM|LOW`,
            `location`: `Step 3` or `Materials section` etc,
            `issue`: `Clear description of what's wrong`,
            `suggestion`: `Specific recommendation to fix it`,
            `example`: `Optional: How it should look after the fix`
        }
    ]
}

Protocol to analyze:

";
    protocol_text;
    "

Provide your analysis in valid JSON format only, with no additional text before or after."].

(** The sort key
    [lambda x: priority_order.get(x.get('priority', 'LOW'), 3)] with
    [priority_order = {'HIGH': 0, 'MEDIUM': 1, 'LOW': 2}].  A [dict] lookup
    hashes its key: a list or a dict as the priority raises. *)
Definition priority_order_get (p : pyval) (default : nat) : result nat :=
  match p with
  | PStr s =>
      Returns (if String.eqb s "HIGH" then 0
               else if String.eqb s "MEDIUM" then 1
               else if String.eqb s "LOW" then 2
               else default)%nat
  | PList _ | PDict _ =>
      Raises (Exn TypeError (fstring ["unhashable type: '"; type_name p; "'"]))
  | _ => Returns default
  end.

Definition priority_key (x : pyval) : result nat :=
  match x with
  | PDict d => priority_order_get (dict_get_default d "priority" (PStr "LOW")) 3
  | _ => Raises (Exn AttributeError
                   (fstring ["'"; type_name x; "' object has no attribute 'get'"]))
  end.

(** [v.sort(key=priority_key)]: only a list has the method. *)
Definition sort_by_priority (v : pyval) : result pyval :=
  match v with
  | PList l => (sorted <- list_sort priority_key l ;; Returns (PList sorted))%result
  | _ => Raises (Exn AttributeError
                   (fstring ["'"; type_name v; "' object has no attribute 'sort'"]))
  end.

(** The lines under [# Ensure required fields exist]. *)
Definition ensure_required_fields (analysis : dict) : result dict :=
  let analysis :=
    if dict_contains analysis "suggestions" then analysis
    else dict_set analysis "suggestions" (PList []) in
  let analysis :=
    if dict_contains analysis "summary" then analysis
    else dict_set analysis "summary" (PStr "Analysis completed") in
  if dict_contains analysis "total_issues" then Returns analysis
  else
    (suggestions <- dict_getitem analysis "suggestions" ;;
     n <- py_len suggestions ;;
     Returns (dict_set analysis "total_issues" (PInt n)))%result.

(** The lines under [# Sort suggestions by priority]: the list held by the
    dict is sorted in place. *)
Definition sort_suggestions (analysis : dict) : result dict :=
  (suggestions <- dict_getitem analysis "suggestions" ;;
   sorted <- sort_by_priority suggestions ;;
   Returns (dict_set analysis "suggestions" sorted))%result.

(** The text between the first opening and the last closing brace, when
    the guard [json_start != -1 and json_end > json_start] holds. *)
Definition json_span (response_text : string) : option string :=
  let json_start := find response_text "{" in
  let json_end := rfind response_text "}" + 1 in
  if negb (json_start =? -1) && (json_end >? json_start)
  then Some (str_slice response_text json_start json_end)
  else None.

(** [_parse_analysis_response].  Only [json.JSONDecodeError] is caught.  A
    decoded value that is no dict fails a membership test or a subscript
    with a [TypeError]; the decoder never returns one for a text that
    starts with a brace. *)
Definition _parse_analysis_response (response_text : string) : result dict :=
  match json_span response_text with
  | Some json_text =>
      match json_loads json_text with
      | Returns (PDict analysis) =>
          (analysis <- ensure_required_fields analysis ;;
           sort_suggestions analysis)%result
      | Returns v =>
          Raises (Exn TypeError
                    (fstring ["'"; type_name v;
                              "' object does not support item assignment"]))
      | Raises (Exn JSONDecodeError msg) =>
          Returns [("error", PBool true);
                   ("message",
                    PStr (fstring ["Could not parse analysis response: "; msg]));
                   ("suggestions", PList []);
                   ("raw_response", PStr response_text)]
      | Raises e => Raises e
      end
  | None =>
      Returns [("summary",
                PStr "Analysis completed but response format was unexpected");
               ("suggestions", PList []);
               ("total_issues", PInt 0);
               ("raw_response", PStr response_text)]
  end.

(** [response.content[0].text] *)
Definition first_text (r : response) : result string :=
  match content r with
  | t :: _ => Returns t
  | [] => Raises (Exn IndexError "list index out of range")
  end.

Definition analyze_protocol (protocol_text filename : string) : M dict :=
  let prompt := _create_analysis_prompt protocol_text filename in
  try_except
    (response <- client_messages_create
                   {| req_model := model;
                      req_max_tokens := settings.MAX_TOKENS;
                      req_temperature := Some settings.TEMPERATURE;
                      req_prompt := prompt |} ;;
     response_text <- lift (first_text response) ;;
     analysis_result <- lift (_parse_analysis_response response_text) ;;
     ret (dict_set analysis_result "metadata"
            (PDict [("filename", PStr filename);
                    ("model_used", PStr model);
                    ("protocol_length", PInt (len protocol_text));
                    ("tokens_used",
                     PInt (input_tokens response + output_tokens response))])))%M
    (fun e =>
       ret [("error", PBool true);
            ("message", PStr (fstring ["Analysis failed: "; str_of_exn e]));
            ("suggestions", PList [])]).

(** [s[key]] on an accepted suggestion. *)
Definition subscript (s : pyval) (key : string) : result pyval :=
  match s with
  | PDict d => dict_getitem d key
  | PStr _ => Raises (Exn TypeError "string indices must be integers, not 'str'")
  | PList _ =>
      Raises (Exn TypeError "list indices must be integers or slices, not str")
  | _ => Raises (Exn TypeError
                   (fstring ["'"; type_name s; "' object is not subscriptable"]))
  end.

Definition suggestion_line (s : pyval) : result string :=
  (location <- subscript s "location" ;;
   suggestion <- subscript s "suggestion" ;;
   Returns (fstring ["- "; py_str location; ": "; py_str suggestion]))%result.

Definition improvement_prompt (suggestions_text original_text : string) : string :=
  fstring [
"You are a laboratory protocol editor. Please rewrite this protocol incorporating the following improvements:

";
    suggestions_text;
    "

Maintain the original structure and style, but integrate these improvements naturally. Make the protocol clearer and safer while keeping it professional.

Original Protocol:
";
    original_text;
    "

Provide the improved protocol below:"].

Definition generate_improved_protocol
  (original_text : string) (accepted_suggestions : list pyval) : M string :=
  match accepted_suggestions with
  | [] => ret original_text
  | _ :: _ =>
      (lines <- lift (mapM suggestion_line accepted_suggestions) ;;
       let suggestions_text := join newline lines in
       let prompt := improvement_prompt suggestions_text original_text in
       try_except
         (response <- client_messages_create
                        {| req_model := model;
                           req_max_tokens := settings.MAX_TOKENS;
                           req_temperature := Some (3 # 10)%Q;
                           req_prompt := prompt |} ;;
          improved_text <- lift (first_text response) ;;
          ret improved_text)
         (fun e =>
            print (fstring ["Error generating improved protocol: "; str_of_exn e]) ;;;
            ret original_text))%M
  end.

Definition quick_check : M bool :=
  try_except
    (response <- client_messages_create
                   {| req_model := model;
                      req_max_tokens := 50;
                      req_temperature := None;
                      req_prompt := "Respond with 'OK' if you can read this." |} ;;
     ret true)%M
    (fun e =>
       print (fstring ["API connection failed: "; str_of_exn e]) ;;;
       ret false)%M.

End Analyzer.
End ProtocolAnalyzer.

(* ================================================================== *)
(** * main.py

    The endpoints, as functions from the request to a computation of the
    process.  An [HTTPException] that leaves an endpoint is the error
    response the caller sees; any other exception that leaves it is the
    framework's bare status 500.  A folder maps the name of a saved file
    to what was saved; which paths lead to a name, and which are turned
    down, is [Posix.resolve].
    The body of [/api/improve] is read at its documented types: a string
    and a list of integers, each possibly absent. *)

Module Main.
Section Endpoints.
Context `{Externals}.

Definition http_error {A : Type} (status_code : Z) (detail : string) : M A :=
  raise (HTTPException status_code (PStr detail)).

(** A file that cannot be opened: the failure comes inside the reader. *)
Definition missing_file : file_bytes :=
  {| byte_size := 0;
     as_pdf := Raises (Exn OSError "No such file or directory");
     as_docx := Raises (Exn OSError "No such file or directory") |}.

(** The bytes found at a path of the upload folder. *)
Definition read_upload (w : world) (relative : string) : file_bytes :=
  match Posix.resolve (dict_keys (upload_folder w)) settings.UPLOAD_FOLDER relative with
  | Posix.Entry name =>
      match dict_get (upload_folder w) name with
      | Some f => f
      | None => missing_file
      end
  | _ => missing_file
  end.

(** [text_extractor.extract(Path(settings.UPLOAD_FOLDER) / relative)] *)
Definition extract_saved (relative : string) : M (string * dict) :=
  (w <- get_world ;;
   lift (TextExtractor.extract relative (read_upload w relative)))%M.

(** [[
    with open(file_path, "wb") as buffer:
        shutil.copyfileobj(file.file, buffer)
    ]] *)
Definition save_upload (relative : string) (file : file_bytes) : M unit :=
  (w <- get_world ;;
   name <- lift (Posix.create (dict_keys (upload_folder w))
                   settings.UPLOAD_FOLDER relative) ;;
   modify (with_upload_folder (dict_set (upload_folder w) name file)))%M.

(** [[
    if file_path.exists():
        file_path.unlink()
    ]] *)
Definition remove_upload (relative : string) : M unit :=
  (w <- get_world ;;
   present <- lift (Posix.path_exists (dict_keys (upload_folder w))
                      settings.UPLOAD_FOLDER relative) ;;
   if present then
     name <- lift (Posix.unlink (dict_keys (upload_folder w))
                     settings.UPLOAD_FOLDER relative) ;;
     modify (with_upload_folder (dict_remove (upload_folder w) name))
   else ret tt)%M.

(** [[
    with open(output_path, 'w', encoding='utf-8') as f:
        f.write(improved_text)
    ]] *)
Definition write_output (relative improved_text : string) : M unit :=
  (w <- get_world ;;
   name <- lift (Posix.create (dict_keys (output_folder w))
                   settings.OUTPUT_FOLDER relative) ;;
   modify (with_output_folder (dict_set (output_folder w) name improved_text)))%M.

(** [GET /] *)
Definition root : M dict :=
  ret [("message", PStr "Protocol Improver API is running");
       ("version", PStr "1.0.0");
       ("status", PStr "healthy")].

(** [GET /health] *)
Definition health_check : M dict :=
  (api_working <- ProtocolAnalyzer.quick_check ;;
   t <- now ;;
   ret [("status", PStr (if api_working then "healthy" else "degraded"));
        ("api_connection", PStr (if api_working then "ok" else "failed"));
        ("timestamp", PStr (isoformat t))])%M.

(** [POST /api/upload] *)
Definition upload_protocol (file : UploadFile) : M dict :=
  let file_ext := lower (TextExtractor.path_suffix (upload_filename file)) in
  if negb (existsb (String.eqb file_ext) settings.ALLOWED_EXTENSIONS) then
    (* the set is joined in the order config.py writes it *)
    http_error 400
      (fstring ["Invalid file type. Allowed: ";
                join ", " settings.ALLOWED_EXTENSIONS])
  else
    let file_size := byte_size (upload_file file) in
    if file_size >? settings.MAX_FILE_SIZE_MB * 1024 * 1024 then
      http_error 400
        (fstring ["File too large. Maximum size: ";
                  str_of_int settings.MAX_FILE_SIZE_MB; "MB"])
    else
      (t <- now ;;
       let timestamp := strftime_Ymd_HMS t in
       let safe_filename := fstring [timestamp; "_"; upload_filename file] in
       try_except
         (save_upload safe_filename (upload_file file) ;;;
          extracted <- extract_saved safe_filename ;;
          let text := fst extracted in
          let metadata := snd extracted in
          let preview := TextExtractor.preview_text text 500 in
          ret [("success", PBool true);
               ("filename", PStr safe_filename);
               ("original_filename", PStr (upload_filename file));
               ("file_size", PInt file_size);
               ("text_length", PInt (len text));
               ("preview", PStr preview);
               ("metadata", PDict metadata);
               ("message", PStr "File uploaded and processed successfully")])
         (fun e =>
            remove_upload safe_filename ;;;
            http_error 500 (fstring ["Error processing file: "; str_of_exn e])))%M.

Definition str_item (d : dict) (k : string) : string :=
  match dict_get d k with Some (PStr s) => s | _ => EmptyString end.

(** The id of an analysis:
    [f"{upload_result['filename']}_{datetime.now().strftime('%Y%m%d%H%M%S')}"] *)
Definition make_analysis_id (saved_filename : string) (t : datetime) : string :=
  fstring [saved_filename; "_"; strftime_YmdHMS t].

(** [POST /api/analyze] *)
Definition analyze_protocol (file : UploadFile) : M dict :=
  (upload_result <- upload_protocol file ;;
   if negb (truthy (dict_get_default upload_result "success" PNone)) then
     http_error 500 "Failed to process file"
   else
     let saved_filename := str_item upload_result "filename" in
     let original_filename := str_item upload_result "original_filename" in
     try_except
       (extracted <- extract_saved saved_filename ;;
        let text := fst extracted in
        analysis_result <-
          ProtocolAnalyzer.analyze_protocol text original_filename ;;
        if truthy (dict_get_default analysis_result "error" PNone) then
          raise (HTTPException 500
                   (dict_get_default analysis_result "message"
                      (PStr "Analysis failed")))
        else
          t_id <- now ;;
          let analysis_id := make_analysis_id saved_filename t_id in
          t_entry <- now ;;
          modify (fun w =>
                    with_analysis_cache
                      (dict_set (analysis_cache w) analysis_id
                         {| original_text := text;
                            analysis := analysis_result;
                            filename := original_filename;
                            timestamp := isoformat t_entry |}) w) ;;;
          ret [("success", PBool true);
               ("analysis_id", PStr analysis_id);
               ("filename", PStr original_filename);
               ("summary",
                dict_get_default analysis_result "summary" (PStr EmptyString));
               ("overall_score",
                dict_get_default analysis_result "overall_score" (PStr "N/A"));
               ("total_issues",
                dict_get_default analysis_result "total_issues" (PInt 0));
               ("suggestions",
                dict_get_default analysis_result "suggestions" (PList []));
               ("metadata",
                dict_get_default analysis_result "metadata" (PDict []))])
       (fun e =>
          match e with
          | HTTPException _ _ => raise e
          | Exn _ _ =>
              http_error 500 (fstring ["Error during analysis: "; str_of_exn e])
          end))%M.

(** The body of [POST /api/improve]. *)
Record improve_request : Type := {
  analysis_id : option string;
  accepted_indices : option (list Z) }.

(** [cached['analysis']['suggestions']], a list in every entry the analyze
    endpoint stores. *)
Definition cached_suggestions (cached : cache_entry) : result (list pyval) :=
  (v <- dict_getitem (analysis cached) "suggestions" ;;
   match v with
   | PList l => Returns l
   | _ => Raises (Exn TypeError
                    (fstring ["'"; type_name v; "' object is not a list"]))
   end)%result.

(** [[
    accepted_suggestions = [
        all_suggestions[i] for i in accepted_indices
        if i < len(all_suggestions)
    ]
    ]] *)
Fixpoint select_accepted (all_suggestions : list pyval) (indices : list Z)
  : result (list pyval) :=
  match indices with
  | [] => Returns []
  | i :: rest =>
      if i <? Z.of_nat (List.length all_suggestions) then
        (s <- list_getitem all_suggestions i ;;
         others <- select_accepted all_suggestions rest ;;
         Returns (s :: others))%result
      else select_accepted all_suggestions rest
  end.

(** [POST /api/improve] *)
Definition generate_improved_protocol (request_body : improve_request) : M dict :=
  let indices :=
    match accepted_indices request_body with Some l => l | None => [] end in
  match analysis_id request_body with
  | None => http_error 400 "analysis_id is required"
  | Some id =>
      if String.eqb id EmptyString then http_error 400 "analysis_id is required"
      else
        (w <- get_world ;;
         match dict_get (analysis_cache w) id with
         | None =>
             http_error 404 "Analysis not found. Please analyze the protocol again."
         | Some cached =>
             all_suggestions <- lift (cached_suggestions cached) ;;
             accepted_suggestions <- lift (select_accepted all_suggestions indices) ;;
             match accepted_suggestions with
             | [] =>
                 ret [("success", PBool true);
                      ("improved_protocol", PStr (original_text cached));
                      ("message",
                       PStr "No suggestions accepted, returning original protocol");
                      ("suggestions_applied", PInt 0)]
             | _ :: _ =>
                 try_except
                   (improved_text <-
                      ProtocolAnalyzer.generate_improved_protocol
                        (original_text cached) accepted_suggestions ;;
                    t <- now ;;
                    let output_filename :=
                      fstring ["improved_"; filename cached; "_";
                               strftime_Ymd_HMS t; ".txt"] in
                    write_output output_filename improved_text ;;;
                    ret [("success", PBool true);
                         ("improved_protocol", PStr improved_text);
                         ("output_filename", PStr output_filename);
                         ("suggestions_applied",
                          PInt (Z.of_nat (List.length accepted_suggestions)));
                         ("message", PStr "Protocol improved successfully")])
                   (fun e =>
                      http_error 500
                        (fstring ["Error generating improved protocol: ";
                                  str_of_exn e]))
             end
         end)%M
  end.

(** [GET /api/download/{filename}].  The route takes one segment of the
    path: for an empty name or a name with a slash no route matches.  The
    response is the text of the file; [FileResponse] raises for a path
    that is no regular file. *)
Definition download_file (name : string) : M string :=
  if String.eqb name EmptyString || Posix.has_slash name then
    http_error 404 "Not Found"
  else
    (w <- get_world ;;
     let existing := dict_keys (output_folder w) in
     present <- lift (Posix.path_exists existing settings.OUTPUT_FOLDER name) ;;
     if negb present then http_error 404 "File not found"
     else
       match Posix.resolve existing settings.OUTPUT_FOLDER name with
       | Posix.Entry saved_as =>
           match dict_get (output_folder w) saved_as with
           | Some saved => ret saved
           | None =>
               raise (Exn RuntimeError
                        (fstring ["File at path ";
                                  Posix.path_str settings.OUTPUT_FOLDER name;
                                  " does not exist."]))
           end
       | _ =>
           raise (Exn RuntimeError
                    (fstring ["File at path ";
                              Posix.path_str settings.OUTPUT_FOLDER name;
                              " is not a file."]))
       end)%M.

(** [GET /api/stats] *)
Definition get_stats : M dict :=
  (w <- get_world ;;
   ret [("total_uploads", PInt (Z.of_nat (List.length (upload_folder w))));
        ("total_analyses", PInt (Z.of_nat (List.length (analysis_cache w))));
        ("total_improved", PInt (Z.of_nat (List.length (output_folder w))));
        ("cache_size", PInt (Z.of_nat (List.length (analysis_cache w))))])%M.

End Endpoints.
End Main.

(* ================================================================== *)
(** * Concrete collaborators for closed examples *)

Module Fixture.

(** A provider that answers every request with [reply]. *)
Definition provider_replies (reply : string) (r : request) : result response :=
  Returns {| content := [reply]; input_tokens := 120; output_tokens := 80 |}.

(** A provider that is unreachable. *)
Definition provider_down (r : request) : result response :=
  Raises (Exn APIError "Connection error.").

(** A clock whose readings advance by a microsecond within one second. *)
Definition clock_within_one_second (k : nat) : datetime :=
  {| year := 2024; month := 5; day := 17;
     hour := 10; minute := 30; second := 0; microsecond := k |}.

(** A clock that advances by a second at every reading. *)
Definition clock_ticking_seconds (k : nat) : datetime :=
  {| year := 2024; month := 5; day := 17;
     hour := 10; minute := 30 + (k / 60); second := k mod 60; microsecond := 0 |}.

(** A wall clock that is set back by an hour after its third reading (the
    end of daylight saving time): the next request reads the local times
    of the previous one again.  A request reads the clock at upload, and
    twice, two seconds later, when it stores the analysis. *)
Definition clock_set_back (k : nat) : datetime :=
  {| year := 2024; month := 10; day := 27;
     hour := 2; minute := 30;
     second := if (k mod 3 =? 0)%nat then 0 else 2;
     microsecond := 1000 * k |}.

(** [repr] is only reached for floats and containers; the examples format
    strings only. *)
Definition externals (provider : request -> result response)
  (clk : nat -> datetime) : Externals :=
  {| json_loads := Json.loads;
     messages_create := provider;
     clock := clk;
     py_repr := fun v => type_name v |}.

Definition suggestion (priority location advice : string) : pyval :=
  PDict [("category", PStr "safety"); ("priority", PStr priority);
         ("location", PStr location); ("issue", PStr "unclear");
         ("suggestion", PStr advice)].

(** A cache holding one analysis with two suggestions. *)
Definition two_suggestions : list pyval :=
  [suggestion "HIGH" "Step 1" "Wear gloves";
   suggestion "LOW" "Step 4" "State the gel percentage"].

Definition cached_analysis : cache_entry :=
  {| original_text := "1. Mix all reagents";
     analysis := [("summary", PStr "ok");
                  ("suggestions", PList two_suggestions);
                  ("total_issues", PInt 2)];
     filename := "pcr.pdf";
     timestamp := "2024-05-17T10:29:00" |}.

Definition world_with_analysis : world :=
  with_analysis_cache [("a1", cached_analysis)] empty_world.

(** A one-page PDF. *)
Definition pcr_pdf : UploadFile :=
  {| upload_filename := "pcr.pdf";
     upload_file :=
       {| byte_size := 2048;
          as_pdf := Returns {| pdf_pages := ["1. Mix all reagents"];
                               pdf_metadata := [] |};
          as_docx := Raises (Exn ValueError "File is not a zip file") |} |}.

(** Collaborators for examples that do not reach the provider. *)
Definition quiet : Externals := externals provider_down clock_within_one_second.

(** A provider that answers, on a clock that stays within one second. *)
Definition answering (reply : string) : Externals :=
  externals (provider_replies reply) clock_within_one_second.

(** Model outputs. *)
Definition raw_number_for_suggestions : string := dq "{`suggestions`: 5}".

Definition raw_text_for_suggestions : string :=
  dq "{`summary`: `ok`, `total_issues`: 1, `suggestions`: `none`}".

Definition raw_text_element : string := dq "{`suggestions`: [`add a warning`]}".

Definition raw_missing_priority : string :=
  dq "{`suggestions`: [{`issue`: `no priority given`}, {`priority`: `LOW`}]}".

Definition raw_low_high_medium : string :=
  dq "Here you go: {`summary`: `s`, `suggestions`: [{`priority`: `LOW`}, {`priority`: `HIGH`}, {`priority`: `MEDIUM`}]} Done.".

Definition payload_ok : string := dq "{`summary`: `ok`, `suggestions`: []}".

Definition raw_loose : string :=
  dq "{`overall_score`: 11, `reviewer`: `x`, `suggestions`: [{`category`: `style`, `priority`: `URGENT`, `location`: 4}]}".

Definition loose_object : dict :=
  [("overall_score", PInt 11); ("reviewer", PStr "x");
   ("suggestions",
    PList [PDict [("category", PStr "style"); ("priority", PStr "URGENT");
                  ("location", PInt 4)]])].

(** A request to improve the cached analysis with the given indices. *)
Definition improve_with (indices : list Z) : Main.improve_request :=
  {| Main.analysis_id := Some "a1"; Main.accepted_indices := Some indices |}.

End Fixture.

(* ================================================================== *)
(** * Sample documents and requests *)

Module Samples.

(** Three pages, the second one blank. *)
Definition three_pages : pdf_document :=
  {| pdf_pages := ["Mix"; "  "; "Run"]; pdf_metadata := [] |}.

Definition pdf_bytes : file_bytes :=
  {| byte_size := 10; as_pdf := Returns three_pages;
     as_docx := Raises (Exn ValueError "File is not a zip file") |}.

(** Three paragraphs, one blank, and a table of two rows. *)
Definition word_document : docx_document :=
  {| docx_paragraphs := ["Title"; " "; "Step 1"];
     docx_tables := [[["Reagent"; EmptyString]; ["Taq"; "1 ul"]]];
     docx_title := "PCR"; docx_author := EmptyString |}.

Definition docx_bytes : file_bytes :=
  {| byte_size := 10; as_pdf := Raises (Exn ValueError "invalid pdf header");
     as_docx := Returns word_document |}.

(** A file neither reader opens. *)
Definition broken_bytes : file_bytes :=
  {| byte_size := 10; as_pdf := Raises (Exn ValueError "invalid pdf header");
     as_docx := Raises (Exn ValueError "File is not a zip file") |}.

(** Collaborators for examples that reach the file system: [repr] of a
    text without quotes, backslashes or unprintable characters. *)
Definition quoting : Externals :=
  {| json_loads := Json.loads;
     messages_create := Fixture.provider_down;
     clock := Fixture.clock_within_one_second;
     py_repr := fun v =>
                  match v with
                  | PStr s => ("'" ++ s ++ "'")%string
                  | _ => type_name v
                  end |}.

End Samples.

(* ================================================================== *)
(** * Vocabulary of the properties *)

(** The first [n] characters of a text; none when [n] is not positive. *)
Definition first_chars (n : Z) (s : string) : string :=
  text (firstn (Z.to_nat n) (chars s)).

(** The preview as the specification words it: the text when it is short
    enough, else its first [max_chars] characters and the marker. *)
Definition preview_spec (s : string) (max_chars : Z) : string :=
  if len s <=? max_chars then s
  else (first_chars max_chars s ++ "...")%string.

(** No opening brace stands before a later closing brace. *)
Definition no_brace_pair (raw : string) : Prop :=
  forall i j : nat,
    (i < j)%nat ->
    nth_error (chars raw) i = Some "{"%char ->
    nth_error (chars raw) j = Some "}"%char -> False.

(** [span] is the part of [raw] from its first opening brace to its last
    closing brace. *)
Definition brace_span (raw span : string) : Prop :=
  exists pre mid post,
    chars raw = pre ++ chars span ++ post /\
    chars span = "{"%char :: mid ++ ["}"%char] /\
    ~ In "{"%char pre /\ ~ In "}"%char post.

(** A value that can be a [dict] key. *)
Definition hashable (p : pyval) : bool :=
  match p with
  | PList _ | PDict _ => false
  | _ => true
  end.

(** A suggestion the sort key accepts: an object whose priority, when
    present, is hashable. *)
Definition sortable_suggestion (x : pyval) : bool :=
  match x with
  | PDict d => hashable (dict_get_default d "priority" (PStr "LOW"))
  | _ => false
  end.

(** A decoded object whose [suggestions] are absent or a list of sortable
    suggestions. *)
Definition suggestions_well_shaped (o : dict) : bool :=
  match dict_get o "suggestions" with
  | None => true
  | Some (PList l) => forallb sortable_suggestion l
  | Some _ => false
  end.

(** A response on which the parser has a result to give: no span, a span
    the decoder rejects, or a span that decodes to a well-shaped object. *)
Definition parseable `{Externals} (raw : string) : Prop :=
  match ProtocolAnalyzer.json_span raw with
  | None => True
  | Some json_text =>
      match json_loads json_text with
      | Returns (PDict o) => suggestions_well_shaped o = true
      | Returns _ => False
      | Raises (Exn JSONDecodeError _) => True
      | Raises _ => False
      end
  end.

(** The rank the sort key gives a suggestion: a missing priority counts as
    [LOW]; anything else that is not one of the three names ranks last. *)
Definition priority_rank (x : pyval) : nat :=
  match x with
  | PDict d =>
      match dict_get d "priority" with
      | None => 2
      | Some (PStr s) =>
          if String.eqb s "HIGH" then 0
          else if String.eqb s "MEDIUM" then 1
          else if String.eqb s "LOW" then 2
          else 3
      | Some _ => 3
      end
  | _ => 3
  end%nat.

(** The rank as the specification words it: HIGH 0, MEDIUM 1, LOW 2, and
    3 for anything else, a missing priority included. *)
Definition priority_rank_spec (x : pyval) : nat :=
  match x with
  | PDict d =>
      match dict_get d "priority" with
      | Some (PStr s) =>
          if String.eqb s "HIGH" then 0
          else if String.eqb s "MEDIUM" then 1
          else if String.eqb s "LOW" then 2
          else 3
      | _ => 3
      end
  | _ => 3
  end%nat.

(** Sorted by a rank, and the same elements in the same relative order
    within each rank. *)
Definition sorted_by {A : Type} (rank : A -> nat) (l : list A) : Prop :=
  Sorted le (map rank l).

Definition same_order_within_rank {A : Type} (rank : A -> nat) (l l' : list A) : Prop :=
  forall k : nat,
    filter (fun x => (rank x =? k)%nat) l' = filter (fun x => (rank x =? k)%nat) l.

(** The suggestions of a decoded object, an absent field read as empty. *)
Definition suggestions_of (o : dict) : list pyval :=
  match dict_get o "suggestions" with
  | Some (PList l) => l
  | _ => []
  end.

(** The selection the specification describes: the suggestions at the
    indices within [0, n), in the order of the indices. *)
Definition in_range {A : Type} (all_suggestions : list A) (i : Z) : bool :=
  (0 <=? i) && (i <? Z.of_nat (List.length all_suggestions)).

Definition in_range_selection {A : Type} (all_suggestions : list A) (indices : list Z)
  : list A :=
  flat_map (fun i =>
              if in_range all_suggestions i
              then match nth_error all_suggestions (Z.to_nat i) with
                   | Some s => [s]
                   | None => []
                   end
              else [])
    indices.

(** The response of [/api/improve] when nothing is applied. *)
Definition nothing_applied_response (original_text : string) : dict :=
  [("success", PBool true);
   ("improved_protocol", PStr original_text);
   ("message", PStr "No suggestions accepted, returning original protocol");
   ("suggestions_applied", PInt 0)].

(** The two fallback results of the parser. *)
Definition unexpected_format_result (raw : string) : dict :=
  [("summary", PStr "Analysis completed but response format was unexpected");
   ("suggestions", PList []);
   ("total_issues", PInt 0);
   ("raw_response", PStr raw)].

Definition decode_failure_result (msg raw : string) : dict :=
  [("error", PBool true);
   ("message", PStr (fstring ["Could not parse analysis response: "; msg]));
   ("suggestions", PList []);
   ("raw_response", PStr raw)].

(** The error flag as the endpoint tests it: [analysis_result.get('error')]. *)
Definition error_flag (r : dict) : bool :=
  truthy (dict_get_default r "error" PNone).

(** A pair of a sort key and its element, the key being the element's rank. *)
Definition keyed_by_rank {A : Type} (rank : A -> nat) (p : nat * A) : Prop :=
  fst p = rank (snd p).

(** The value under [suggestions] once the default is filled in. *)
Definition suggestions_value (o : dict) : pyval :=
  dict_get_default o "suggestions" (PList []).

(** A default for a field: set only when the key is absent. *)
Definition fill (d : dict) (k : string) (v : pyval) : dict :=
  if dict_contains d k then d else dict_set d k v.

(** The decoded object with the three defaults filled in. *)
Definition with_defaults (o : dict) : dict :=
  fill (fill (fill o "suggestions" (PList []))
          "summary" (PStr "Analysis completed"))
    "total_issues" (PInt (Z.of_nat (List.length (suggestions_of o)))).

(** The stable sort of a list of suggestions by [priority_rank]. *)
Definition sorted_suggestions (l : list pyval) : list pyval :=
  map snd (sort_keyed (combine (map priority_rank l) l)).

(** What the parser returns on a well-shaped decoded object. *)
Definition normalised (o : dict) : dict :=
  dict_set (with_defaults o) "suggestions"
    (PList (sorted_suggestions (suggestions_of o))).

Definition type_or_attribute_error (e : exn) : Prop :=
  exists msg, e = Exn TypeError msg \/ e = Exn AttributeError msg.

(** A field of the response of an endpoint, when it returned one. *)
Definition response_field (r : result dict) (k : string) : option pyval :=
  match r with
  | Returns d => dict_get d k
  | Raises _ => None
  end.

(** Two clock readings in the same second. *)
Definition same_second (t t' : datetime) : Prop :=
  year t = year t' /\ month t = month t' /\ day t = day t'
  /\ hour t = hour t' /\ minute t = minute t' /\ second t = second t'.

(** A result of the analyzer that can be cached: its [suggestions] are a
    list. *)
Definition has_suggestion_list (d : dict) : Prop :=
  exists l, dict_get d "suggestions" = Some (PList l).

(** The invariant of [analysis_cache]: every entry holds such a result. *)
Definition cache_wf (w : world) : Prop :=
  Forall (fun entry => has_suggestion_list (analysis (snd entry))) (analysis_cache w).

(** [ensures m Q]: running [m] keeps the invariant of the cache, and a
    value it returns satisfies [Q]. *)
Definition ensures {A : Type} (m : M A) (Q : A -> Prop) : Prop :=
  forall w, cache_wf w ->
    cache_wf (snd (m w)) /\ (forall a, fst (m w) = Returns a -> Q a).

(** The states of the process: it starts with an empty cache and serves
    requests one after the other. *)
Inductive reachable `{Externals} : world -> Prop :=
| reach_start : reachable empty_world
| reach_root w : reachable w -> reachable (snd (Main.root w))
| reach_health w : reachable w -> reachable (snd (Main.health_check w))
| reach_upload file w : reachable w -> reachable (snd (Main.upload_protocol file w))
| reach_analyze file w : reachable w -> reachable (snd (Main.analyze_protocol file w))
| reach_improve body w :
    reachable w -> reachable (snd (Main.generate_improved_protocol body w))
| reach_download name w : reachable w -> reachable (snd (Main.download_file name w))
| reach_stats w : reachable w -> reachable (snd (Main.get_stats w)).

(* ------------------------------------------------------------------ *)
(** ** Vocabulary for the extractor, the analyzer and the endpoints *)

(** A text with a character that is not white space. *)
Definition has_text (s : string) : Prop :=
  exists c, In c (chars s) /\ isspace c = false.

(** The marker line of a page. *)
Definition page_marker (page_num : nat) : string :=
  fstring [newline; "--- Page "; str_of_int (Z.of_nat page_num); " ---"; newline].

(** The pages with their numbers, counted from [start]. *)
Definition numbered_from {A : Type} (start : nat) (l : list A) : list (nat * A) :=
  combine (seq start (List.length l)) l.

(** The paragraphs of a document followed by the cells of its tables, row
    by row and table by table. *)
Definition docx_units (doc : docx_document) : list string :=
  docx_paragraphs doc ++ List.concat (List.concat (docx_tables doc)).

(** The three requests the analyzer sends. *)
Definition analysis_request (protocol_text name : string) : request :=
  {| req_model := ProtocolAnalyzer.model;
     req_max_tokens := settings.MAX_TOKENS;
     req_temperature := Some settings.TEMPERATURE;
     req_prompt := ProtocolAnalyzer._create_analysis_prompt protocol_text name |}.

Definition improvement_request (lines : list string) (original : string) : request :=
  {| req_model := ProtocolAnalyzer.model;
     req_max_tokens := settings.MAX_TOKENS;
     req_temperature := Some (3 # 10)%Q;
     req_prompt := ProtocolAnalyzer.improvement_prompt (join newline lines) original |}.

Definition liveness_request : request :=
  {| req_model := ProtocolAnalyzer.model;
     req_max_tokens := 50;
     req_temperature := None;
     req_prompt := "Respond with 'OK' if you can read this." |}.

(** The process after one more provider call, one more printed line, one
    more clock reading, a saved upload. *)
Definition called (r : request) (w : world) : world :=
  with_model_calls (model_calls w ++ [r]) w.

Definition printed (line : string) (w : world) : world :=
  with_stdout (stdout w ++ [line]) w.

Definition ticked (w : world) : world :=
  with_clock_reads (S (clock_reads w)) w.

Definition stored (name : string) (file : file_bytes) (w : world) : world :=
  with_upload_folder (dict_set (upload_folder w) name file) w.

Definition unstored (name : string) (w : world) : world :=
  with_upload_folder (dict_remove (upload_folder w) name) w.

(** A suggestion the revision prompt can render: an object with a
    [location] and a [suggestion]. *)
Definition renderable (s : pyval) : bool :=
  match s with
  | PDict d => dict_contains d "location" && dict_contains d "suggestion"
  | _ => false
  end.

(** The line of the revision prompt for a renderable suggestion. *)
Definition rendered_line `{Externals} (s : pyval) : string :=
  match s with
  | PDict d =>
      fstring ["- "; py_str (dict_get_default d "location" PNone); ": ";
               py_str (dict_get_default d "suggestion" PNone)]
  | _ => EmptyString
  end.

Definition is_http (e : exn) : Prop :=
  exists status_code detail, e = HTTPException status_code detail.

(** The name an upload is saved under. *)
Definition saved_name (t : datetime) (name : string) : string :=
  fstring [strftime_Ymd_HMS t; "_"; name].

(** The two checks of [/api/upload]. *)
Definition allowed_extension (name : string) : bool :=
  existsb (String.eqb (lower (TextExtractor.path_suffix name)))
    settings.ALLOWED_EXTENSIONS.

Definition max_upload_bytes : Z := settings.MAX_FILE_SIZE_MB * 1024 * 1024.

(** What the upload answers when the text was extracted. *)
Definition upload_response (file : UploadFile) (safe_filename extracted : string)
  (metadata : dict) : dict :=
  [("success", PBool true);
   ("filename", PStr safe_filename);
   ("original_filename", PStr (upload_filename file));
   ("file_size", PInt (byte_size (upload_file file)));
   ("text_length", PInt (len extracted));
   ("preview", PStr (TextExtractor.preview_text extracted 500));
   ("metadata", PDict metadata);
   ("message", PStr "File uploaded and processed successfully")].

(** A cache entry as the analyze endpoint stores them, and the ways an
    endpoint can change the cache: not at all, or by setting one such
    entry. *)
Definition entry_ok (c : cache_entry) : Prop :=
  has_suggestion_list (analysis c) /\ error_flag (analysis c) = false.

Definition cache_step (c c' : pydict cache_entry) : Prop :=
  c' = c \/ exists id entry, c' = dict_set c id entry /\ entry_ok entry.

(** The selection at natural positions: the elements found there. *)
Definition elements_at {A : Type} (l : list A) (positions : list nat) : list A :=
  flat_map (fun i => match nth_error l i with Some x => [x] | None => [] end)
    positions.

(** The two shapes of what the analyzer answers: the error-flagged result
    of a failure, and the metadata it adds to a parsed result. *)
Definition analysis_failed (e : exn) : dict :=
  [("error", PBool true);
   ("message", PStr (fstring ["Analysis failed: "; str_of_exn e]));
   ("suggestions", PList [])].

Definition analysis_metadata (protocol_text name : string) (r : response) : pyval :=
  PDict [("filename", PStr name);
         ("model_used", PStr ProtocolAnalyzer.model);
         ("protocol_length", PInt (len protocol_text));
         ("tokens_used", PInt (input_tokens r + output_tokens r))].

(** A computation that leaves the cache as it found it. *)
Definition keeps_cache {A : Type} (m : M A) : Prop :=
  forall w, analysis_cache (snd (m w)) = analysis_cache w.

(** What the analyze endpoint stores and answers for the text [extracted]
    of an upload called [name], the analyzer's result [d] and the id it
    made. *)
Definition analysis_entry `{Externals} (extracted name : string) (d : dict)
  (t : datetime) : cache_entry :=
  {| original_text := extracted; analysis := d; filename := name;
     timestamp := isoformat t |}.

Definition analyze_response (id name : string) (d : dict) : dict :=
  [("success", PBool true);
   ("analysis_id", PStr id);
   ("filename", PStr name);
   ("summary", dict_get_default d "summary" (PStr EmptyString));
   ("overall_score", dict_get_default d "overall_score" (PStr "N/A"));
   ("total_issues", dict_get_default d "total_issues" (PInt 0));
   ("suggestions", dict_get_default d "suggestions" (PList []));
   ("metadata", dict_get_default d "metadata" (PDict []))].

Definition cached (id : string) (entry : cache_entry) (w : world) : world :=
  with_analysis_cache (dict_set (analysis_cache w) id entry) w.

(** What the improve endpoint answers after a revision, and the process
    after the revision was written to the output folder. *)
Definition improve_response (improved_text output_filename : string) (applied : nat)
  : dict :=
  [("success", PBool true);
   ("improved_protocol", PStr improved_text);
   ("output_filename", PStr output_filename);
   ("suggestions_applied", PInt (Z.of_nat applied));
   ("message", PStr "Protocol improved successfully")].

Definition written (name saved_text : string) (w : world) : world :=
  with_output_folder (dict_set (output_folder w) name saved_text) w.

(** The refusals of a path that [Path.exists] reports as an absent file;
    with the others [exists] raises, or finds a directory. *)
Definition reported_absent (r : Posix.resolution) : bool :=
  match r with
  | Posix.Embedded_nul | Posix.No_entry | Posix.Not_a_directory => true
  | _ => false
  end.

(** Where the upload endpoint saves: the path it builds, and what the
    path leads to in the state [w]. *)
Definition upload_resolution (relative : string) (w : world) : Posix.resolution :=
  Posix.resolve (dict_keys (upload_folder w)) settings.UPLOAD_FOLDER relative.

Definition output_resolution (relative : string) (w : world) : Posix.resolution :=
  Posix.resolve (dict_keys (output_folder w)) settings.OUTPUT_FOLDER relative.

(** The name of a revision in the output folder. *)
Definition output_name (original_filename : string) (t : datetime) : string :=
  fstring ["improved_"; original_filename; "_"; strftime_Ymd_HMS t; ".txt"].

(** The characters of a time stamp: digits and the underscore. *)
Definition stamp_char (c : ascii) : bool :=
  ((48 <=? nat_of_ascii c) && (nat_of_ascii c <=? 57))%nat || Ascii.eqb c "_".



(* ================================================================== *)
(** * Lemmas on texts and positions *)

Lemma chars_text (l : list ascii) : chars (text l) = l.
Proof. apply list_ascii_of_string_of_list_ascii. Qed.

Lemma text_chars (s : string) : text (chars s) = s.
Proof. apply string_of_list_ascii_of_string. Qed.

Lemma chars_app (s1 s2 : string) : chars (s1 ++ s2)%string = chars s1 ++ chars s2.
Proof.
  induction s1 as [|c s1 IH]; simpl; [reflexivity|].
  unfold chars in *. simpl. now rewrite IH.
Qed.

Lemma text_app (l1 l2 : list ascii) : text (l1 ++ l2) = (text l1 ++ text l2)%string.
Proof.
  induction l1 as [|c l1 IH]; simpl; [reflexivity|].
  unfold text in *. simpl. now rewrite IH.
Qed.

Lemma length_chars (s : string) : List.length (chars s) = String.length s.
Proof.
  induction s as [|c s IH]; simpl; [reflexivity|].
  unfold chars in *. simpl. now rewrite IH.
Qed.

Lemma chars_inj (s1 s2 : string) : chars s1 = chars s2 -> s1 = s2.
Proof.
  intros E. rewrite <- (text_chars s1), <- (text_chars s2). now rewrite E.
Qed.

Lemma index_of_nth c l i : index_of c l = Some i -> nth_error l i = Some c.
Proof.
  revert i. induction l as [|x r IH]; simpl; intros i; [discriminate|].
  destruct (Ascii.eqb x c) eqn:Ex.
  - intros [= <-]. apply Ascii.eqb_eq in Ex. now subst.
  - destruct (index_of c r) as [k|]; [|discriminate].
    intros [= <-]. simpl. now apply IH.
Qed.

Lemma index_of_first c l k :
  nth_error l k = Some c -> exists i, index_of c l = Some i /\ (i <= k)%nat.
Proof.
  revert k. induction l as [|x r IH]; intros k Hk.
  - destruct k; discriminate.
  - simpl. destruct (Ascii.eqb x c) eqn:Ex.
    + exists 0%nat. split; [reflexivity|lia].
    + destruct k as [|k]; simpl in Hk.
      * injection Hk as ->. rewrite Ascii.eqb_refl in Ex. discriminate.
      * destruct (IH k Hk) as (i & Hi & Hle). rewrite Hi.
        exists (S i). split; [reflexivity|lia].
Qed.

Lemma index_of_None c l : index_of c l = None -> ~ In c l.
Proof.
  intros Hn Hin. apply In_nth_error in Hin as [k Hk].
  destruct (index_of_first c l k Hk) as (i & Hi & _). congruence.
Qed.

Lemma index_of_app c pre r :
  ~ In c pre -> index_of c (pre ++ c :: r) = Some (List.length pre).
Proof.
  induction pre as [|x pre IH]; simpl; intros Hn.
  - now rewrite Ascii.eqb_refl.
  - destruct (Ascii.eqb x c) eqn:Ex.
    + apply Ascii.eqb_eq in Ex. exfalso. apply Hn. now left.
    + rewrite IH; [reflexivity|]. intros Hin. apply Hn. now right.
Qed.

Lemma last_index_of_nth c l j : last_index_of c l = Some j -> nth_error l j = Some c.
Proof.
  revert j. induction l as [|x r IH]; simpl; intros j; [discriminate|].
  destruct (last_index_of c r) as [k|].
  - intros [= <-]. simpl. now apply IH.
  - destruct (Ascii.eqb x c) eqn:Ex; [|discriminate].
    intros [= <-]. apply Ascii.eqb_eq in Ex. now subst.
Qed.

Lemma last_index_of_last c l k :
  nth_error l k = Some c -> exists j, last_index_of c l = Some j /\ (k <= j)%nat.
Proof.
  revert k. induction l as [|x r IH]; intros k Hk.
  - destruct k; discriminate.
  - simpl. destruct k as [|k]; simpl in Hk.
    + injection Hk as ->. destruct (last_index_of c r) as [j|].
      * exists (S j). split; [reflexivity|lia].
      * rewrite Ascii.eqb_refl. exists 0%nat. split; [reflexivity|lia].
    + destruct (IH k Hk) as (j & Hj & Hle). rewrite Hj.
      exists (S j). split; [reflexivity|lia].
Qed.

Lemma last_index_of_None c l : last_index_of c l = None -> ~ In c l.
Proof.
  intros Hn Hin. apply In_nth_error in Hin as [k Hk].
  destruct (last_index_of_last c l k Hk) as (j & Hj & _). congruence.
Qed.

Lemma last_index_of_notin c l : ~ In c l -> last_index_of c l = None.
Proof.
  intros Hn. destruct (last_index_of c l) as [j|] eqn:E; [|reflexivity].
  exfalso. apply Hn. apply last_index_of_nth in E. eapply nth_error_In; eauto.
Qed.

Lemma last_index_of_app c a post :
  ~ In c post -> last_index_of c (a ++ c :: post) = Some (List.length a).
Proof.
  intros Hn. induction a as [|x a IH]; simpl.
  - rewrite (last_index_of_notin c post Hn). now rewrite Ascii.eqb_refl.
  - now rewrite IH.
Qed.

Lemma index_of_split c l i :
  index_of c l = Some i ->
  exists pre r, l = pre ++ c :: r /\ List.length pre = i /\ ~ In c pre.
Proof.
  revert i. induction l as [|x l IH]; simpl; intros i; [discriminate|].
  destruct (Ascii.eqb x c) eqn:Ex.
  - intros [= <-]. apply Ascii.eqb_eq in Ex. subst x.
    exists [], l. repeat split. intros [].
  - destruct (index_of c l) as [k|]; [|discriminate].
    intros [= <-]. destruct (IH k eq_refl) as (pre & r & -> & Hlen & Hn).
    exists (x :: pre), r. repeat split; [simpl; now rewrite Hlen|].
    intros [->|Hin]; [|now apply Hn].
    rewrite Ascii.eqb_refl in Ex. discriminate.
Qed.

Lemma last_index_of_split c l j :
  last_index_of c l = Some j ->
  exists a post, l = a ++ c :: post /\ List.length a = j /\ ~ In c post.
Proof.
  revert j. induction l as [|x l IH]; simpl; intros j; [discriminate|].
  destruct (last_index_of c l) as [k|] eqn:El.
  - intros [= <-]. destruct (IH k eq_refl) as (a & post & -> & Hlen & Hn).
    exists (x :: a), post. repeat split; [simpl; now rewrite Hlen|assumption].
  - destruct (Ascii.eqb x c) eqn:Ex; [|discriminate].
    intros [= <-]. apply Ascii.eqb_eq in Ex. subst x.
    exists [], l. repeat split. now apply last_index_of_None.
Qed.

(** A slice with bounds inside the list is the segment between them. *)
Lemma slice_segment {A : Type} (pre seg post : list A) :
  slice (pre ++ seg ++ post)
    (Z.of_nat (List.length pre))
    (Z.of_nat (List.length pre + List.length seg)) = seg.
Proof.
  unfold slice, slice_bound. rewrite !length_app.
  set (p := List.length pre). set (s := List.length seg). set (q := List.length post).
  replace (Z.of_nat p <? 0) with false by (symmetry; apply Z.ltb_ge; lia).
  replace (Z.of_nat (p + s) <? 0) with false by (symmetry; apply Z.ltb_ge; lia).
  replace (Z.max 0 (Z.min (Z.of_nat (p + (s + q))) (Z.of_nat p))) with (Z.of_nat p) by lia.
  replace (Z.max 0 (Z.min (Z.of_nat (p + (s + q))) (Z.of_nat (p + s))))
    with (Z.of_nat (p + s)) by lia.
  replace (Z.to_nat (Z.of_nat (p + s) - Z.of_nat p)) with s by lia.
  rewrite Nat2Z.id. subst p s.
  rewrite skipn_app, skipn_all, Nat.sub_diag. simpl.
  rewrite firstn_app, firstn_all, Nat.sub_diag. simpl. apply app_nil_r.
Qed.

(* ================================================================== *)
(** * The brace span *)

Lemma json_span_of_brace_span raw span :
  brace_span raw span -> ProtocolAnalyzer.json_span raw = Some span.
Proof.
  intros (pre & mid & post & Hraw & Hspan & Hpre & Hpost).
  unfold ProtocolAnalyzer.json_span, find, rfind, str_slice.
  assert (Hl1 : chars raw = pre ++ "{"%char :: (mid ++ ["}"%char] ++ post)).
  { rewrite Hraw, Hspan. simpl. now rewrite <- app_assoc. }
  assert (Hl2 : chars raw = (pre ++ "{"%char :: mid) ++ "}"%char :: post).
  { rewrite Hl1. rewrite <- app_assoc. simpl. reflexivity. }
  assert (Ei : index_of "{" (chars raw) = Some (List.length pre)).
  { rewrite Hl1. now apply index_of_app. }
  assert (Ej : last_index_of "}" (chars raw)
               = Some (List.length pre + S (List.length mid))%nat).
  { rewrite Hl2, (last_index_of_app _ _ _ Hpost), length_app. reflexivity. }
  rewrite Ei, Ej.
  replace (Z.of_nat (List.length pre) =? -1) with false
    by (symmetry; apply Z.eqb_neq; lia).
  replace (Z.of_nat (List.length pre + S (List.length mid)) + 1
           >? Z.of_nat (List.length pre)) with true
    by (symmetry; rewrite Z.gtb_ltb; apply Z.ltb_lt; lia).
  simpl. f_equal.
  replace (Z.of_nat (List.length pre + S (List.length mid)) + 1)
    with (Z.of_nat (List.length pre + List.length (chars span)))
    by (rewrite Hspan; simpl; rewrite length_app; simpl; lia).
  rewrite Hraw, slice_segment. apply text_chars.
Qed.

Lemma json_span_positions raw span :
  ProtocolAnalyzer.json_span raw = Some span ->
  exists i j,
    index_of "{" (chars raw) = Some i /\
    last_index_of "}" (chars raw) = Some j /\ (i < j)%nat.
Proof.
  unfold ProtocolAnalyzer.json_span, find, rfind.
  destruct (index_of "{" (chars raw)) as [i|] eqn:Ei; [|discriminate].
  destruct (last_index_of "}" (chars raw)) as [j|] eqn:Ej.
  - destruct (Z.of_nat j + 1 >? Z.of_nat i) eqn:G;
      [|rewrite andb_false_r; discriminate].
    intros _. exists i, j. repeat split.
    rewrite Z.gtb_ltb in G. apply Z.ltb_lt in G.
    assert (i <> j).
    { intros ->. apply index_of_nth in Ei. apply last_index_of_nth in Ej.
      rewrite Ei in Ej. discriminate. }
    lia.
  - replace (-1 + 1 >? Z.of_nat i) with false
      by (symmetry; rewrite Z.gtb_ltb; apply Z.ltb_ge; lia).
    rewrite andb_false_r. discriminate.
Qed.

Lemma json_span_brace_span raw span :
  ProtocolAnalyzer.json_span raw = Some span -> brace_span raw span.
Proof.
  intros Hs. destruct (json_span_positions raw span Hs) as (i & j & Ei & Ej & Hij).
  destruct (index_of_split _ _ _ Ei) as (pre & r1 & H1 & Hpre & Hnpre).
  destruct (last_index_of_split _ _ _ Ej) as (a & post & H2 & Ha & Hnpost).
  assert (Ha' : a = pre ++ "{"%char :: firstn (j - i - 1) r1).
  { assert (E : a = firstn j (chars raw)).
    { rewrite H2, <- Ha, firstn_app, firstn_all, Nat.sub_diag. simpl.
      now rewrite app_nil_r. }
    rewrite E, H1, firstn_app, Hpre.
    rewrite firstn_all2 by lia.
    remember (j - i - 1)%nat as m eqn:Hm.
    replace (j - i)%nat with (S m) by lia. reflexivity. }
  set (mid := firstn (j - i - 1) r1) in *.
  assert (Hraw : chars raw = pre ++ ("{"%char :: mid ++ ["}"%char]) ++ post).
  { rewrite H2, Ha'. rewrite <- !app_assoc. simpl. rewrite <- app_assoc. reflexivity. }
  assert (Hb : brace_span raw (text ("{"%char :: mid ++ ["}"%char]))).
  { unfold brace_span. exists pre, mid, post.
    rewrite (chars_text ("{"%char :: mid ++ ["}"%char])).
    repeat split; assumption. }
  apply json_span_of_brace_span in Hb.
  assert (Hspan : span = text ("{"%char :: mid ++ ["}"%char])) by congruence.
  rewrite Hspan. unfold brace_span. exists pre, mid, post.
  rewrite (chars_text ("{"%char :: mid ++ ["}"%char])).
  repeat split; assumption.
Qed.

Lemma json_span_None_iff raw :
  ProtocolAnalyzer.json_span raw = None <-> no_brace_pair raw.
Proof.
  split.
  - intros Hn i j Hij Hi Hj.
    destruct (index_of_first _ _ _ Hi) as (i' & Ei & Hi').
    destruct (last_index_of_last _ _ _ Hj) as (j' & Ej & Hj').
    unfold ProtocolAnalyzer.json_span, find, rfind in Hn. rewrite Ei, Ej in Hn.
    replace (Z.of_nat i' =? -1) with false in Hn
      by (symmetry; apply Z.eqb_neq; lia).
    replace (Z.of_nat j' + 1 >? Z.of_nat i') with true in Hn
      by (symmetry; rewrite Z.gtb_ltb; apply Z.ltb_lt; lia).
    discriminate.
  - intros Hn. destruct (ProtocolAnalyzer.json_span raw) as [span|] eqn:Hs;
      [|reflexivity].
    destruct (json_span_positions raw span Hs) as (i & j & Ei & Ej & Hij).
    exfalso. apply (Hn i j Hij).
    + now apply index_of_nth.
    + now apply last_index_of_nth.
Qed.

Lemma brace_pair_has_span raw :
  ~ no_brace_pair raw -> exists span, brace_span raw span.
Proof.
  intros Hn. destruct (ProtocolAnalyzer.json_span raw) as [span|] eqn:Hs.
  - exists span. now apply json_span_brace_span.
  - exfalso. apply Hn. now apply json_span_None_iff.
Qed.

(** Prose around a braced payload does not change the span, as long as the
    prose before it has no opening brace and the prose after it no closing
    brace. *)
Lemma json_span_embedded pre payload post mid :
  chars payload = "{"%char :: mid ++ ["}"%char] ->
  ~ In "{"%char (chars pre) -> ~ In "}"%char (chars post) ->
  ProtocolAnalyzer.json_span (pre ++ payload ++ post)%string = Some payload.
Proof.
  intros Hp Hpre Hpost. apply json_span_of_brace_span.
  exists (chars pre), mid, (chars post). rewrite !chars_app. auto.
Qed.

(* ================================================================== *)
(** * Dictionaries *)

Section DictFacts.
Context {V : Type}.
Implicit Types (d : pydict V) (k : string) (v : V).

Lemma dict_contains_get d k :
  dict_contains d k = match dict_get d k with Some _ => true | None => false end.
Proof.
  induction d as [|[k' v'] d IH]; simpl; [reflexivity|].
  now destruct (String.eqb k' k).
Qed.

Lemma dict_get_set_same d k v : dict_get (dict_set d k v) k = Some v.
Proof.
  induction d as [|[k' v'] d IH]; simpl.
  - now rewrite String.eqb_refl.
  - destruct (String.eqb k' k) eqn:E; simpl; now rewrite E.
Qed.

Lemma dict_get_set_other d k k' v :
  k <> k' -> dict_get (dict_set d k v) k' = dict_get d k'.
Proof.
  intros Hne. induction d as [|[k0 v0] d IH]; simpl.
  - apply String.eqb_neq in Hne. now rewrite Hne.
  - destruct (String.eqb k0 k) eqn:E; simpl.
    + apply String.eqb_eq in E. subst k0.
      apply String.eqb_neq in Hne. now rewrite Hne.
    + now rewrite IH.
Qed.

Lemma dict_get_keys d k : dict_get d k <> None <-> In k (dict_keys d).
Proof.
  induction d as [|[k' v'] d IH]; simpl.
  - split; [congruence|intros []].
  - destruct (String.eqb k' k) eqn:E.
    + apply String.eqb_eq in E. split; [now left|congruence].
    + apply String.eqb_neq in E. rewrite IH. split; [now right|].
      intros [?|?]; [contradiction|assumption].
Qed.

Lemma dict_keys_set d k v :
  dict_keys (dict_set d k v)
  = if dict_contains d k then dict_keys d else dict_keys d ++ [k].
Proof.
  induction d as [|[k' v'] d IH]; simpl; [reflexivity|].
  destruct (String.eqb k' k) eqn:E; simpl; [reflexivity|].
  rewrite IH. now destruct (dict_contains d k).
Qed.

Lemma dict_keys_set_incl d k v k' :
  In k' (dict_keys (dict_set d k v)) <-> In k' (dict_keys d) \/ k' = k.
Proof.
  rewrite dict_keys_set, dict_contains_get.
  destruct (dict_get d k) eqn:E.
  - split; [now left|]. intros [?| ->]; [assumption|].
    apply dict_get_keys. congruence.
  - rewrite in_app_iff. simpl. intuition.
Qed.

End DictFacts.

(* ================================================================== *)
(** * The stable sort *)

Section SortFacts.
Context {A : Type}.
Implicit Types (l : list (nat * A)) (kx : nat * A).

Lemma insert_keyed_HdRel n kx l :
  (n <= fst kx)%nat -> HdRel le n (map fst l) -> HdRel le n (map fst (insert_keyed kx l)).
Proof.
  intros Hn Hl. destruct l as [|ky r]; simpl.
  - now constructor.
  - destruct (fst kx <=? fst ky)%nat; simpl; constructor; [assumption|].
    now inversion Hl.
Qed.

Lemma insert_keyed_sorted kx l :
  Sorted le (map fst l) -> Sorted le (map fst (insert_keyed kx l)).
Proof.
  induction l as [|ky r IH]; simpl; intros Hs.
  - repeat constructor.
  - destruct (fst kx <=? fst ky)%nat eqn:E; simpl.
    + apply Nat.leb_le in E. constructor; [assumption|now constructor].
    + apply Nat.leb_gt in E. inversion Hs as [|? ? Hr Hh]; subst.
      constructor; [now apply IH|].
      apply insert_keyed_HdRel; [lia|assumption].
Qed.

Lemma sort_keyed_sorted l : Sorted le (map fst (sort_keyed l)).
Proof.
  induction l as [|kx l IH]; simpl; [constructor|].
  now apply insert_keyed_sorted.
Qed.

Lemma insert_keyed_filter k kx l :
  filter (fun p => (fst p =? k)%nat) (insert_keyed kx l)
  = filter (fun p => (fst p =? k)%nat) (kx :: l).
Proof.
  induction l as [|ky r IH]; [reflexivity|].
  simpl insert_keyed. destruct (fst kx <=? fst ky)%nat eqn:E; [reflexivity|].
  apply Nat.leb_gt in E.
  change (filter (fun p => (fst p =? k)%nat) (ky :: insert_keyed kx r))
    with (if (fst ky =? k)%nat
          then ky :: filter (fun p => (fst p =? k)%nat) (insert_keyed kx r)
          else filter (fun p => (fst p =? k)%nat) (insert_keyed kx r)).
  rewrite IH. simpl.
  destruct (fst kx =? k)%nat eqn:Ex, (fst ky =? k)%nat eqn:Ey; try reflexivity.
  apply Nat.eqb_eq in Ex, Ey. lia.
Qed.

Lemma sort_keyed_stable k l :
  filter (fun p => (fst p =? k)%nat) (sort_keyed l)
  = filter (fun p => (fst p =? k)%nat) l.
Proof.
  induction l as [|kx l IH]; [reflexivity|].
  simpl sort_keyed. rewrite insert_keyed_filter. simpl. now rewrite IH.
Qed.

Lemma insert_keyed_perm kx l : Permutation (kx :: l) (insert_keyed kx l).
Proof.
  induction l as [|ky r IH]; simpl; [reflexivity|].
  destruct (fst kx <=? fst ky)%nat; [reflexivity|].
  rewrite perm_swap. now constructor.
Qed.

Lemma sort_keyed_perm l : Permutation l (sort_keyed l).
Proof.
  induction l as [|kx l IH]; simpl; [constructor|].
  rewrite <- insert_keyed_perm. now constructor.
Qed.

Variable rank : A -> nat.

Lemma keyed_combine (xs : list A) : Forall (keyed_by_rank rank) (combine (map rank xs) xs).
Proof. induction xs; simpl; constructor; [reflexivity|assumption]. Qed.

Lemma snd_combine (xs : list A) : map snd (combine (map rank xs) xs) = xs.
Proof. induction xs; simpl; [reflexivity|now f_equal]. Qed.

Lemma keyed_sort l : Forall (keyed_by_rank rank) l -> Forall (keyed_by_rank rank) (sort_keyed l).
Proof.
  intros Hl. eapply Permutation_Forall; [apply sort_keyed_perm|assumption].
Qed.

Lemma keyed_ranks l : Forall (keyed_by_rank rank) l -> map rank (map snd l) = map fst l.
Proof.
  induction 1 as [|p l Hp _ IH]; simpl; [reflexivity|].
  now rewrite IH, Hp.
Qed.

Lemma keyed_filter k l :
  Forall (keyed_by_rank rank) l ->
  filter (fun x => (rank x =? k)%nat) (map snd l)
  = map snd (filter (fun p => (fst p =? k)%nat) l).
Proof.
  induction 1 as [|p l Hp _ IH]; simpl; [reflexivity|].
  rewrite <- Hp. destruct (fst p =? k)%nat; simpl; now rewrite IH.
Qed.

(** The three facts of a stable sort by [rank]. *)
Lemma stable_sort_sorted (xs : list A) :
  sorted_by rank (map snd (sort_keyed (combine (map rank xs) xs))).
Proof.
  unfold sorted_by. rewrite keyed_ranks by (apply keyed_sort, keyed_combine).
  apply sort_keyed_sorted.
Qed.

Lemma stable_sort_stable (xs : list A) :
  same_order_within_rank rank xs (map snd (sort_keyed (combine (map rank xs) xs))).
Proof.
  intros k. rewrite keyed_filter by (apply keyed_sort, keyed_combine).
  rewrite sort_keyed_stable.
  rewrite <- keyed_filter by apply keyed_combine.
  now rewrite snd_combine.
Qed.

Lemma stable_sort_perm (xs : list A) :
  Permutation xs (map snd (sort_keyed (combine (map rank xs) xs))).
Proof.
  rewrite <- (snd_combine xs) at 1. apply Permutation_map, sort_keyed_perm.
Qed.

(** Sortedness and stability leave one possible output. *)
Lemma stable_sort_unique (l1 l2 : list A) :
  sorted_by rank l1 -> sorted_by rank l2 ->
  (forall k, filter (fun x => (rank x =? k)%nat) l1
             = filter (fun x => (rank x =? k)%nat) l2) ->
  l1 = l2.
Proof.
  unfold sorted_by. revert l2.
  induction l1 as [|x t1 IH]; intros l2 S1 S2 Hf.
  - destruct l2 as [|y t2]; [reflexivity|].
    specialize (Hf (rank y)). simpl in Hf. rewrite Nat.eqb_refl in Hf. discriminate.
  - destruct l2 as [|y t2].
    { specialize (Hf (rank x)). simpl in Hf. rewrite Nat.eqb_refl in Hf. discriminate. }
    simpl in S1, S2.
    apply Sorted_StronglySorted in S1; [|intros a b c; apply Nat.le_trans].
    apply Sorted_StronglySorted in S2; [|intros a b c; apply Nat.le_trans].
    inversion S1 as [|? ? S1' F1]; subst. inversion S2 as [|? ? S2' F2]; subst.
    assert (Hin : forall (z : A) (l l' : list A),
               (forall k, filter (fun x => (rank x =? k)%nat) l
                          = filter (fun x => (rank x =? k)%nat) l') ->
               In z l -> In z l').
    { intros z l l' H Hz.
      assert (Hz' : In z (filter (fun x => (rank x =? rank z)%nat) l)).
      { apply filter_In. split; [assumption|apply Nat.eqb_refl]. }
      rewrite H in Hz'. now apply filter_In in Hz'. }
    assert (Hxy : rank x = rank y).
    { apply Nat.le_antisymm.
      - assert (Hy : In y (x :: t1)).
        { apply (Hin y (y :: t2) (x :: t1)); [intros k; symmetry; apply Hf|now left]. }
        destruct Hy as [->|Hy]; [lia|].
        rewrite Forall_forall in F1. apply F1. now apply in_map.
      - assert (Hx : In x (y :: t2)).
        { apply (Hin x (x :: t1) (y :: t2)); [apply Hf|now left]. }
        destruct Hx as [->|Hx]; [lia|].
        rewrite Forall_forall in F2. apply F2. now apply in_map. }
    assert (Heq : x = y).
    { specialize (Hf (rank x)). simpl in Hf.
      rewrite Nat.eqb_refl in Hf. rewrite <- Hxy, Nat.eqb_refl in Hf. congruence. }
    subst y. f_equal. apply IH.
    + now apply StronglySorted_Sorted.
    + now apply StronglySorted_Sorted.
    + intros k. specialize (Hf k). simpl in Hf.
      destruct (rank x =? k)%nat; congruence.
Qed.

End SortFacts.

(* ================================================================== *)
(** * The response parser *)

Lemma fill_get_present d key x k v :
  dict_get d k = Some v -> dict_get (fill d key x) k = Some v.
Proof.
  intros Hk. unfold fill. rewrite dict_contains_get.
  destruct (dict_get d key) eqn:E; [assumption|].
  rewrite dict_get_set_other; [assumption|congruence].
Qed.

Lemma fill_get_absent d key x :
  dict_get d key = None -> dict_get (fill d key x) key = Some x.
Proof.
  intros Hk. unfold fill. rewrite dict_contains_get, Hk. apply dict_get_set_same.
Qed.

Lemma fill_get_other d key x k :
  key <> k -> dict_get (fill d key x) k = dict_get d k.
Proof.
  intros Hne. unfold fill. destruct (dict_contains d key); [reflexivity|].
  now apply dict_get_set_other.
Qed.

Lemma fill_keys d key x k :
  In k (dict_keys (fill d key x)) <-> In k (dict_keys d) \/ k = key.
Proof.
  unfold fill. rewrite dict_contains_get.
  destruct (dict_get d key) eqn:E.
  - split; [now left|]. intros [?| ->]; [assumption|].
    apply dict_get_keys. congruence.
  - apply dict_keys_set_incl.
Qed.

Lemma filled_suggestions o :
  dict_get (fill (fill o "suggestions" (PList []))
              "summary" (PStr "Analysis completed")) "suggestions"
  = Some (suggestions_value o).
Proof.
  rewrite fill_get_other by discriminate.
  unfold suggestions_value, dict_get_default.
  destruct (dict_get o "suggestions") eqn:E.
  - now apply fill_get_present.
  - now apply fill_get_absent.
Qed.

Lemma well_shaped_value o :
  suggestions_well_shaped o = true ->
  suggestions_value o = PList (suggestions_of o)
  /\ forallb sortable_suggestion (suggestions_of o) = true.
Proof.
  unfold suggestions_well_shaped, suggestions_value, suggestions_of, dict_get_default.
  destruct (dict_get o "suggestions") as [[]|]; try discriminate; auto.
Qed.

Lemma priority_key_rank x :
  sortable_suggestion x = true ->
  ProtocolAnalyzer.priority_key x = Returns (priority_rank x).
Proof.
  destruct x as [| | | | |l|d]; try discriminate. simpl.
  unfold dict_get_default. destruct (dict_get d "priority") as [p|]; [|reflexivity].
  destruct p; simpl; try discriminate; reflexivity.
Qed.

Lemma priority_key_raises x :
  sortable_suggestion x = false ->
  exists e, ProtocolAnalyzer.priority_key x = Raises e /\ type_or_attribute_error e.
Proof.
  unfold type_or_attribute_error.
  destruct x as [| | | | |l|d]; simpl; intros Hx;
    try (eexists; split; [reflexivity|]; eexists; right; reflexivity).
  destruct (dict_get_default d "priority" (PStr "LOW")) eqn:E; simpl in *;
    try discriminate;
    (eexists; split; [reflexivity|]; eexists; left; reflexivity).
Qed.

Lemma mapM_priority_key l :
  forallb sortable_suggestion l = true ->
  mapM ProtocolAnalyzer.priority_key l = Returns (map priority_rank l).
Proof.
  induction l as [|x l IH]; simpl; [reflexivity|].
  intros Hl. apply andb_prop in Hl as [Hx Hl].
  now rewrite (priority_key_rank x Hx), (IH Hl).
Qed.

Lemma mapM_priority_key_raises l :
  forallb sortable_suggestion l = false ->
  exists e, mapM ProtocolAnalyzer.priority_key l = Raises e
            /\ type_or_attribute_error e.
Proof.
  induction l as [|x l IH]; simpl; [discriminate|].
  destruct (sortable_suggestion x) eqn:Hx; simpl; intros Hl.
  - rewrite (priority_key_rank x Hx). simpl.
    destruct (IH Hl) as (e & -> & He). now exists e.
  - destruct (priority_key_raises x Hx) as (e & -> & He). now exists e.
Qed.

Lemma sort_by_priority_sortable l :
  forallb sortable_suggestion l = true ->
  ProtocolAnalyzer.sort_by_priority (PList l) = Returns (PList (sorted_suggestions l)).
Proof.
  intros Hl. unfold ProtocolAnalyzer.sort_by_priority, list_sort.
  now rewrite (mapM_priority_key l Hl).
Qed.

Lemma sort_by_priority_raises v :
  match v with PList l => forallb sortable_suggestion l = false | _ => True end ->
  exists e, ProtocolAnalyzer.sort_by_priority v = Raises e /\ type_or_attribute_error e.
Proof.
  unfold type_or_attribute_error.
  destruct v as [| | | | |l|d]; simpl; intros Hv;
    try (eexists; split; [reflexivity|]; eexists; right; reflexivity).
  unfold list_sort. destruct (mapM_priority_key_raises l Hv) as (e & -> & He).
  now exists e.
Qed.

(** What the two normalisation steps do, in terms of the value found under
    [suggestions]. *)
Lemma ensure_required_fields_result o :
  match ProtocolAnalyzer.ensure_required_fields o with
  | Returns a =>
      dict_get a "suggestions" = Some (suggestions_value o)
      /\ (forall l, suggestions_value o = PList l ->
                    a = fill (fill (fill o "suggestions" (PList []))
                                "summary" (PStr "Analysis completed"))
                          "total_issues" (PInt (Z.of_nat (List.length l))))
  | Raises e => type_or_attribute_error e /\ forall l, suggestions_value o <> PList l
  end.
Proof.
  unfold ProtocolAnalyzer.ensure_required_fields.
  change (if dict_contains o "suggestions" then o
          else dict_set o "suggestions" (PList []))
    with (fill o "suggestions" (PList [])).
  set (o1 := fill o "suggestions" (PList [])).
  change (if dict_contains o1 "summary" then o1
          else dict_set o1 "summary" (PStr "Analysis completed"))
    with (fill o1 "summary" (PStr "Analysis completed")).
  set (o2 := fill o1 "summary" (PStr "Analysis completed")).
  assert (Hs : dict_get o2 "suggestions" = Some (suggestions_value o))
    by apply filled_suggestions.
  destruct (dict_contains o2 "total_issues") eqn:Ec.
  - split; [assumption|]. intros l _. unfold fill. now rewrite Ec.
  - unfold dict_getitem. rewrite Hs. simpl.
    destruct (suggestions_value o) as [| | | |s|l|d] eqn:Ev; simpl;
      try (split; [eexists; left; reflexivity|intros l; discriminate]).
    + split; [rewrite dict_get_set_other by discriminate; assumption|].
      intros l; discriminate.
    + split; [rewrite dict_get_set_other by discriminate; assumption|].
      intros l' [= <-]. unfold fill. now rewrite Ec.
    + split; [rewrite dict_get_set_other by discriminate; assumption|].
      intros l; discriminate.
Qed.

Lemma sort_suggestions_result a v :
  dict_get a "suggestions" = Some v ->
  ProtocolAnalyzer.sort_suggestions a
  = (sorted <- ProtocolAnalyzer.sort_by_priority v ;;
     Returns (dict_set a "suggestions" sorted))%result.
Proof.
  intros Ha. unfold ProtocolAnalyzer.sort_suggestions, dict_getitem. now rewrite Ha.
Qed.

Lemma normalise_well_shaped o :
  suggestions_well_shaped o = true ->
  (a <- ProtocolAnalyzer.ensure_required_fields o ;;
   ProtocolAnalyzer.sort_suggestions a)%result = Returns (normalised o).
Proof.
  intros Hw. destruct (well_shaped_value o Hw) as [Hv Hl].
  pose proof (ensure_required_fields_result o) as He.
  destruct (ProtocolAnalyzer.ensure_required_fields o) as [a|e].
  - destruct He as [Ha Hfill]. simpl.
    rewrite (sort_suggestions_result a _ Ha), Hv, (sort_by_priority_sortable _ Hl).
    simpl. rewrite (Hfill _ Hv). reflexivity.
  - destruct He as [_ Hn]. now apply Hn in Hv.
Qed.

Lemma normalise_ill_shaped o :
  suggestions_well_shaped o = false ->
  exists e,
    (a <- ProtocolAnalyzer.ensure_required_fields o ;;
     ProtocolAnalyzer.sort_suggestions a)%result = Raises e
    /\ type_or_attribute_error e.
Proof.
  intros Hw.
  assert (Hv : match suggestions_value o with
               | PList l => forallb sortable_suggestion l = false
               | _ => True
               end).
  { unfold suggestions_well_shaped, suggestions_value, dict_get_default in *.
    destruct (dict_get o "suggestions") as [[]|];
      try exact I; try assumption; try discriminate. }
  pose proof (ensure_required_fields_result o) as He.
  destruct (ProtocolAnalyzer.ensure_required_fields o) as [a|e].
  - destruct He as [Ha _]. simpl. rewrite (sort_suggestions_result a _ Ha).
    destruct (sort_by_priority_raises _ Hv) as (e & -> & He). now exists e.
  - exists e. split; [reflexivity|apply He].
Qed.

Section ParserFacts.
Context `{Externals}.

Lemma parse_no_span raw :
  ProtocolAnalyzer.json_span raw = None ->
  ProtocolAnalyzer._parse_analysis_response raw
  = Returns (unexpected_format_result raw).
Proof.
  intros Hs. unfold ProtocolAnalyzer._parse_analysis_response. now rewrite Hs.
Qed.

Lemma parse_decode_failure raw span msg :
  ProtocolAnalyzer.json_span raw = Some span ->
  json_loads span = Raises (Exn JSONDecodeError msg) ->
  ProtocolAnalyzer._parse_analysis_response raw
  = Returns (decode_failure_result msg raw).
Proof.
  intros Hs Hl. unfold ProtocolAnalyzer._parse_analysis_response.
  now rewrite Hs, Hl.
Qed.

Lemma parse_decoded raw span o :
  ProtocolAnalyzer.json_span raw = Some span ->
  json_loads span = Returns (PDict o) ->
  ProtocolAnalyzer._parse_analysis_response raw
  = (a <- ProtocolAnalyzer.ensure_required_fields o ;;
     ProtocolAnalyzer.sort_suggestions a)%result.
Proof.
  intros Hs Hl. unfold ProtocolAnalyzer._parse_analysis_response.
  now rewrite Hs, Hl.
Qed.

Lemma parse_well_shaped raw span o :
  ProtocolAnalyzer.json_span raw = Some span ->
  json_loads span = Returns (PDict o) ->
  suggestions_well_shaped o = true ->
  ProtocolAnalyzer._parse_analysis_response raw = Returns (normalised o).
Proof.
  intros Hs Hl Hw. rewrite (parse_decoded raw span o Hs Hl).
  now apply normalise_well_shaped.
Qed.

End ParserFacts.

(* ================================================================== *)
(** * Properties of the response parser *)

Section ParserClaims.
Context `{Externals}.

(** C1, as the code has it.  The parser returns a result exactly on the
    parseable responses: those with no brace span, those whose span the
    decoder rejects, and those whose span decodes to an object whose
    [suggestions] are absent or a list of objects with hashable
    priorities.  On every other response it raises. *)
Theorem parse_returns_iff_parseable (raw : string) :
  (exists r, ProtocolAnalyzer._parse_analysis_response raw = Returns r)
  <-> parseable raw.
Proof.
  unfold parseable.
  destruct (ProtocolAnalyzer.json_span raw) as [span|] eqn:Hs.
  - destruct (json_loads span) as [v|e] eqn:Hl.
    + destruct v as [| | | | | |o];
        try (unfold ProtocolAnalyzer._parse_analysis_response; rewrite Hs, Hl;
             split; [intros [r Hr]; discriminate|intros []]).
      destruct (suggestions_well_shaped o) eqn:Hw.
      * split; [reflexivity|]. intros _. exists (normalised o).
        now apply (parse_well_shaped raw span o).
      * rewrite (parse_decoded raw span o Hs Hl).
        destruct (normalise_ill_shaped o Hw) as (e & -> & _).
        split; [intros [r Hr]; discriminate|discriminate].
    + unfold ProtocolAnalyzer._parse_analysis_response. rewrite Hs, Hl.
      destruct e as [cls msg|code detail];
        [destruct cls|];
        first [ split; [intros [r Hr]; discriminate|intros []]
              | split; [intros _; exact I|intros _; eexists; reflexivity] ].
  - split; [trivial|]. intros _. eexists. now apply parse_no_span.
Qed.

(** When the parser raises on a decoded object, the exception is a
    [TypeError] or an [AttributeError]. *)
Lemma parse_raises_type_or_attribute raw span o :
  ProtocolAnalyzer.json_span raw = Some span ->
  json_loads span = Returns (PDict o) ->
  suggestions_well_shaped o = false ->
  exists e, ProtocolAnalyzer._parse_analysis_response raw = Raises e
            /\ type_or_attribute_error e.
Proof.
  intros Hs Hl Hw. rewrite (parse_decoded raw span o Hs Hl).
  now apply normalise_ill_shaped.
Qed.

(** The caller of the parser catches whatever it raises. *)
Lemma analyze_protocol_never_raises protocol_text name w :
  exists r w', ProtocolAnalyzer.analyze_protocol protocol_text name w = (Returns r, w').
Proof.
  unfold ProtocolAnalyzer.analyze_protocol, try_except.
  match goal with
  | |- context [match ?b with _ => _ end] => destruct b as [[a|e] w']
  end; eexists; eexists; reflexivity.
Qed.

(** C2, as the code has it.  When the span decodes to an object whose
    [suggestions] is a list of sortable suggestions, the parser returns,
    and the returned list is sorted by [priority_rank] (HIGH 0, MEDIUM 1,
    LOW or no priority 2, anything else 3) with the input order kept
    within each rank. *)
Theorem parsed_suggestions_sorted_stable (raw span : string) (o : dict) (l : list pyval) :
  ProtocolAnalyzer.json_span raw = Some span ->
  json_loads span = Returns (PDict o) ->
  dict_get o "suggestions" = Some (PList l) ->
  forallb sortable_suggestion l = true ->
  exists r l',
    ProtocolAnalyzer._parse_analysis_response raw = Returns r
    /\ dict_get r "suggestions" = Some (PList l')
    /\ sorted_by priority_rank l'
    /\ same_order_within_rank priority_rank l l'
    /\ Permutation l l'.
Proof.
  intros Hs Hl Hsug Hsort.
  assert (Hw : suggestions_well_shaped o = true).
  { unfold suggestions_well_shaped. now rewrite Hsug. }
  assert (Hof : suggestions_of o = l).
  { unfold suggestions_of. now rewrite Hsug. }
  exists (normalised o), (sorted_suggestions l). split.
  - now apply (parse_well_shaped raw span o).
  - unfold normalised. rewrite dict_get_set_same, Hof. split; [reflexivity|].
    unfold sorted_suggestions. split; [apply stable_sort_sorted|].
    split; [apply stable_sort_stable|apply stable_sort_perm].
Qed.

(** The parser's output is the only one the contract of a stable sort
    allows. *)
Lemma parsed_suggestions_determined (l l' : list pyval) :
  sorted_by priority_rank l' ->
  same_order_within_rank priority_rank l l' ->
  l' = sorted_suggestions l.
Proof.
  intros Hs Hst. apply (stable_sort_unique priority_rank); [assumption| |].
  - apply stable_sort_sorted.
  - intros k. rewrite (Hst k). symmetry. apply stable_sort_stable.
Qed.

(** C6, as the code has it.  A payload that starts with an opening brace,
    ends with a closing brace and decodes to a well-shaped object without
    an [error] field is recovered from between any prose before it that
    has no opening brace and any prose after it that has no closing
    brace: the result is the one for the payload alone, and its error
    flag is unset. *)
Theorem embedded_json_recovered (pre payload post : string) (mid : list ascii) (o : dict) :
  chars payload = "{"%char :: mid ++ ["}"%char] ->
  ~ In "{"%char (chars pre) ->
  ~ In "}"%char (chars post) ->
  json_loads payload = Returns (PDict o) ->
  suggestions_well_shaped o = true ->
  dict_get o "error" = None ->
  exists r,
    ProtocolAnalyzer._parse_analysis_response (pre ++ payload ++ post)%string
    = Returns r
    /\ ProtocolAnalyzer._parse_analysis_response payload = Returns r
    /\ dict_get r "error" = None
    /\ error_flag r = false.
Proof.
  intros Hp Hpre Hpost Hl Hw Herr.
  assert (Hget : dict_get (normalised o) "error" = None).
  { unfold normalised, with_defaults.
    rewrite dict_get_set_other by discriminate.
    rewrite !fill_get_other by discriminate. assumption. }
  exists (normalised o). split; [|split; [|split]].
  - apply (parse_well_shaped _ payload o); [|assumption|assumption].
    now apply (json_span_embedded pre payload post mid).
  - apply (parse_well_shaped _ payload o); [|assumption|assumption].
    apply json_span_of_brace_span. exists [], mid, []. simpl.
    rewrite app_nil_r. auto.
  - assumption.
  - unfold error_flag, dict_get_default. now rewrite Hget.
Qed.

(** C8.  Without an opening brace before a later closing brace the parser
    returns the placeholder result: no suggestions, the placeholder
    summary, zero issues, the raw text, and no error flag.  With a span
    that the decoder rejects it returns the failure result: the error
    flag, no suggestions, and the raw text. *)
Theorem parse_fallback_results (raw : string) :
  (no_brace_pair raw ->
   ProtocolAnalyzer._parse_analysis_response raw
   = Returns (unexpected_format_result raw)
   /\ error_flag (unexpected_format_result raw) = false)
  /\ (forall span msg,
        brace_span raw span ->
        json_loads span = Raises (Exn JSONDecodeError msg) ->
        ProtocolAnalyzer._parse_analysis_response raw
        = Returns (decode_failure_result msg raw)
        /\ error_flag (decode_failure_result msg raw) = true).
Proof.
  split.
  - intros Hn. split; [|reflexivity].
    apply parse_no_span. now apply json_span_None_iff.
  - intros span msg Hb Hl. split; [|reflexivity].
    apply (parse_decode_failure raw span msg); [|assumption].
    now apply json_span_of_brace_span.
Qed.

(** C10.  Whatever result the parser returns for a decoded object, it
    has validated nothing: every field of the object other than
    [suggestions] is returned with the value it had, the suggestions are
    returned as the same values, reordered only, a missing [suggestions],
    [summary] or [total_issues] gets its default, every key of the
    object is a key of the result, and the only keys that can be new are
    the three with defaults.  (On an object that is not well shaped
    there is no result: [parse_raises_type_or_attribute].) *)
Theorem decoded_fields_pass_through (raw span : string) (o r : dict) :
  ProtocolAnalyzer.json_span raw = Some span ->
  json_loads span = Returns (PDict o) ->
  ProtocolAnalyzer._parse_analysis_response raw = Returns r ->
  (forall k v, k <> "suggestions" -> dict_get o k = Some v -> dict_get r k = Some v)
  /\ (exists l', dict_get r "suggestions" = Some (PList l')
                 /\ Permutation (suggestions_of o) l')
  /\ (dict_get o "suggestions" = None -> dict_get r "suggestions" = Some (PList []))
  /\ (dict_get o "summary" = None ->
      dict_get r "summary" = Some (PStr "Analysis completed"))
  /\ (dict_get o "total_issues" = None ->
      dict_get r "total_issues"
      = Some (PInt (Z.of_nat (List.length (suggestions_of o)))))
  /\ (forall k, In k (dict_keys o) -> In k (dict_keys r))
  /\ (forall k, In k (dict_keys r) ->
                In k (dict_keys o)
                \/ k = "suggestions" \/ k = "summary" \/ k = "total_issues").
Proof.
  intros Hs Hl Hr.
  assert (Hw : suggestions_well_shaped o = true).
  { destruct (suggestions_well_shaped o) eqn:Hw; [reflexivity|].
    destruct (parse_raises_type_or_attribute raw span o Hs Hl Hw) as (e & He & _).
    congruence. }
  assert (Hn : r = normalised o).
  { rewrite (parse_well_shaped raw span o Hs Hl Hw) in Hr. congruence. }
  subst r. unfold normalised, with_defaults.
  split; [|split; [|split; [|split; [|split; [|split]]]]].
  - intros k v Hk Hv. rewrite dict_get_set_other by congruence.
    now repeat apply fill_get_present.
  - exists (sorted_suggestions (suggestions_of o)). split.
    + apply dict_get_set_same.
    + apply stable_sort_perm.
  - intros Hn. rewrite dict_get_set_same. unfold suggestions_of. now rewrite Hn.
  - intros Hn. rewrite dict_get_set_other by discriminate.
    apply fill_get_present, fill_get_absent.
    rewrite fill_get_other by discriminate. assumption.
  - intros Hn. rewrite dict_get_set_other by discriminate.
    apply fill_get_absent. rewrite !fill_get_other by discriminate. assumption.
  - intros k Hk. apply dict_keys_set_incl. left.
    apply fill_keys. left. apply fill_keys. left. apply fill_keys. now left.
  - intros k Hk. apply dict_keys_set_incl in Hk as [Hk| ->]; [|auto].
    apply fill_keys in Hk as [Hk| ->]; [|auto].
    apply fill_keys in Hk as [Hk| ->]; [|auto].
    apply fill_keys in Hk as [Hk| ->]; auto.
Qed.

End ParserClaims.

(** C1: a model output whose [suggestions] is a number, a string, or a
    list holding a string makes the parser raise. *)
Lemma parse_raises_on_ill_typed_suggestions :
  @ProtocolAnalyzer._parse_analysis_response Fixture.quiet
     Fixture.raw_number_for_suggestions
  = Raises (Exn TypeError "object of type 'int' has no len()")
  /\ @ProtocolAnalyzer._parse_analysis_response Fixture.quiet
       Fixture.raw_text_for_suggestions
     = Raises (Exn AttributeError "'str' object has no attribute 'sort'")
  /\ @ProtocolAnalyzer._parse_analysis_response Fixture.quiet
       Fixture.raw_text_element
     = Raises (Exn AttributeError "'str' object has no attribute 'get'").
Proof. repeat split; vm_compute; reflexivity. Qed.

(** C2: a suggestion without a priority is ranked with LOW by the sort
    key, so it stays before a later LOW suggestion; by the specification's
    ranks (3 for a missing priority, 2 for LOW) the result is not sorted. *)
Lemma missing_priority_sorts_as_low :
  let out := [PDict [("issue", PStr "no priority given")];
              PDict [("priority", PStr "LOW")]] in
  @ProtocolAnalyzer._parse_analysis_response Fixture.quiet
     Fixture.raw_missing_priority
  = Returns [("suggestions", PList out);
             ("summary", PStr "Analysis completed");
             ("total_issues", PInt 2)]
  /\ map priority_rank_spec out = [3; 2]%nat
  /\ (sorted_by priority_rank_spec out -> False).
Proof.
  cbv zeta. split; [vm_compute; reflexivity|]. split; [reflexivity|].
  unfold sorted_by. simpl. intros Hs.
  inversion Hs as [|? ? _ Hh]; subst. inversion Hh; subst. lia.
Qed.

Lemma parsed_suggestions_sorted_stable_witness :
  let l := [PDict [("priority", PStr "LOW")]; PDict [("priority", PStr "HIGH")];
            PDict [("priority", PStr "MEDIUM")]] in
  exists r l',
    @ProtocolAnalyzer._parse_analysis_response Fixture.quiet
       Fixture.raw_low_high_medium = Returns r
    /\ dict_get r "suggestions" = Some (PList l')
    /\ sorted_by priority_rank l'
    /\ same_order_within_rank priority_rank l l'
    /\ Permutation l l'.
Proof.
  cbv zeta.
  apply (@parsed_suggestions_sorted_stable Fixture.quiet
           Fixture.raw_low_high_medium
           (dq "{`summary`: `s`, `suggestions`: [{`priority`: `LOW`}, {`priority`: `HIGH`}, {`priority`: `MEDIUM`}]}")
           [("summary", PStr "s");
            ("suggestions",
             PList [PDict [("priority", PStr "LOW")];
                    PDict [("priority", PStr "HIGH")];
                    PDict [("priority", PStr "MEDIUM")]])]);
    vm_compute; reflexivity.
Defined.

(** The end-to-end scenario of the specification: LOW, HIGH, MEDIUM comes
    back as HIGH, MEDIUM, LOW. *)
Example parse_low_high_medium :
  response_field
    (@ProtocolAnalyzer._parse_analysis_response Fixture.quiet
       Fixture.raw_low_high_medium) "suggestions"
  = Some (PList [PDict [("priority", PStr "HIGH")];
                 PDict [("priority", PStr "MEDIUM")];
                 PDict [("priority", PStr "LOW")]]).
Proof. vm_compute. reflexivity. Qed.

(** C6: prose with braces of its own before a valid payload moves the
    start of the span, the decoder rejects the span, and the result has
    the error flag set, although the payload alone parses cleanly. *)
Lemma braces_in_prose_defeat_recovery :
  let raw := ("Result {v1}: " ++ Fixture.payload_ok)%string in
  let msg := "Expecting property name enclosed in double quotes" in
  @ProtocolAnalyzer._parse_analysis_response Fixture.quiet Fixture.payload_ok
  = Returns [("summary", PStr "ok"); ("suggestions", PList []);
             ("total_issues", PInt 0)]
  /\ @ProtocolAnalyzer._parse_analysis_response Fixture.quiet raw
     = Returns (decode_failure_result msg raw)
  /\ error_flag (decode_failure_result msg raw) = true.
Proof. cbv zeta. repeat split; vm_compute; reflexivity. Qed.

Lemma embedded_json_recovered_witness :
  exists r,
    @ProtocolAnalyzer._parse_analysis_response Fixture.quiet
       ("Here is the analysis: " ++ Fixture.payload_ok ++ " Let me know.")%string
    = Returns r
    /\ @ProtocolAnalyzer._parse_analysis_response Fixture.quiet Fixture.payload_ok
       = Returns r
    /\ dict_get r "error" = None
    /\ error_flag r = false.
Proof.
  apply (@embedded_json_recovered Fixture.quiet
           "Here is the analysis: " Fixture.payload_ok " Let me know."
           (chars (dq "`summary`: `ok`, `suggestions`: []"))
           [("summary", PStr "ok"); ("suggestions", PList [])]);
    try (vm_compute; reflexivity);
    apply index_of_None; vm_compute; reflexivity.
Defined.

Lemma parse_fallback_results_witness :
  (@ProtocolAnalyzer._parse_analysis_response Fixture.quiet
     "The protocol looks fine."
   = Returns (unexpected_format_result "The protocol looks fine.")
   /\ error_flag (unexpected_format_result "The protocol looks fine.") = false)
  /\ (@ProtocolAnalyzer._parse_analysis_response Fixture.quiet "{not json}"
      = Returns (decode_failure_result
                   "Expecting property name enclosed in double quotes"
                   "{not json}")
      /\ error_flag (decode_failure_result
                       "Expecting property name enclosed in double quotes"
                       "{not json}") = true).
Proof.
  split.
  - apply (proj1 (@parse_fallback_results Fixture.quiet "The protocol looks fine.")).
    apply json_span_None_iff. vm_compute. reflexivity.
  - apply (proj2 (@parse_fallback_results Fixture.quiet "{not json}") "{not json}").
    + apply json_span_brace_span. vm_compute. reflexivity.
    + vm_compute. reflexivity.
Defined.

Lemma decoded_fields_pass_through_witness :
  let o := Fixture.loose_object in
  let r := [("overall_score", PInt 11); ("reviewer", PStr "x");
            ("suggestions",
             PList [PDict [("category", PStr "style");
                           ("priority", PStr "URGENT");
                           ("location", PInt 4)]]);
            ("summary", PStr "Analysis completed");
            ("total_issues", PInt 1)] in
  (forall k v, k <> "suggestions" -> dict_get o k = Some v -> dict_get r k = Some v)
  /\ (exists l', dict_get r "suggestions" = Some (PList l')
                 /\ Permutation (suggestions_of o) l')
  /\ (dict_get o "suggestions" = None -> dict_get r "suggestions" = Some (PList []))
  /\ (dict_get o "summary" = None ->
      dict_get r "summary" = Some (PStr "Analysis completed"))
  /\ (dict_get o "total_issues" = None ->
      dict_get r "total_issues"
      = Some (PInt (Z.of_nat (List.length (suggestions_of o)))))
  /\ (forall k, In k (dict_keys o) -> In k (dict_keys r))
  /\ (forall k, In k (dict_keys r) ->
                In k (dict_keys o)
                \/ k = "suggestions" \/ k = "summary" \/ k = "total_issues").
Proof.
  cbv zeta.
  apply (@decoded_fields_pass_through Fixture.quiet
           Fixture.raw_loose Fixture.raw_loose Fixture.loose_object);
    vm_compute; reflexivity.
Defined.

(** The loose object comes back with its out-of-enum values and its extra
    fields, and with the two missing defaults added. *)
Example parse_loose_object :
  @ProtocolAnalyzer._parse_analysis_response Fixture.quiet Fixture.raw_loose
  = Returns [("overall_score", PInt 11); ("reviewer", PStr "x");
             ("suggestions",
              PList [PDict [("category", PStr "style");
                            ("priority", PStr "URGENT");
                            ("location", PInt 4)]]);
             ("summary", PStr "Analysis completed");
             ("total_issues", PInt 1)].
Proof. vm_compute. reflexivity. Qed.

(* ================================================================== *)
(** * The preview *)

Lemma length_text (l : list ascii) : String.length (text l) = List.length l.
Proof. now rewrite <- length_chars, chars_text. Qed.

Lemma str_slice_to_nonneg (s : string) (m : Z) :
  0 <= m -> str_slice_to s m = first_chars m s.
Proof.
  intros Hm. unfold str_slice_to, str_slice, first_chars, slice, slice_bound.
  set (l := chars s). set (n := Z.of_nat (List.length l)).
  replace (m <? 0) with false by (symmetry; apply Z.ltb_ge; lia).
  change (0 <? 0) with false. cbv beta iota zeta.
  replace (Z.max 0 (Z.min n 0)) with 0 by lia.
  rewrite Z.sub_0_r. change (Z.to_nat 0) with 0%nat. rewrite skipn_O.
  f_equal. destruct (Z.le_gt_cases m n).
  - now replace (Z.max 0 (Z.min n m)) with m by lia.
  - replace (Z.max 0 (Z.min n m)) with n by lia.
    rewrite !firstn_all2; [reflexivity|lia|lia].
Qed.

Lemma str_slice_to_negative (s : string) (m : Z) :
  m < 0 -> str_slice_to s m = first_chars (len s + m) s.
Proof.
  intros Hm. unfold str_slice_to, str_slice, first_chars, slice, slice_bound, len.
  rewrite <- length_chars.
  set (l := chars s). set (n := Z.of_nat (List.length l)).
  replace (m <? 0) with true by (symmetry; apply Z.ltb_lt; lia).
  change (0 <? 0) with false. cbv beta iota zeta.
  replace (Z.max 0 (Z.min n 0)) with 0 by lia.
  rewrite Z.sub_0_r. change (Z.to_nat 0) with 0%nat. rewrite skipn_O.
  f_equal. f_equal. lia.
Qed.

(** C9, amended to [max_chars >= 0].  For every text and every integer
    [max_chars], the preview is the text itself when the text has at most
    [max_chars] characters.  For [max_chars >= 0] it is otherwise exactly
    the first [max_chars] characters of the text followed by the three-dot
    marker, as the specification words it.  (For a negative [max_chars]
    the slice cuts from the end, and the text of the claim fails.) *)
Theorem preview_text_spec (s : string) (max_chars : Z) :
  (len s <= max_chars -> TextExtractor.preview_text s max_chars = s)
  /\ (0 <= max_chars ->
      TextExtractor.preview_text s max_chars = preview_spec s max_chars
      /\ (max_chars < len s ->
          TextExtractor.preview_text s max_chars
          = (first_chars max_chars s ++ "...")%string
          /\ len (first_chars max_chars s) = max_chars)).
Proof.
  unfold TextExtractor.preview_text, preview_spec. split.
  - intros Hle. apply Z.leb_le in Hle. now rewrite Hle.
  - intros Hm. rewrite (str_slice_to_nonneg s _ Hm). split; [reflexivity|].
    intros Hlt. replace (len s <=? max_chars) with false
      by (symmetry; apply Z.leb_gt; lia).
    split; [reflexivity|].
    unfold first_chars, len in *. rewrite length_text, length_firstn, length_chars.
    lia.
Qed.

Lemma preview_text_spec_witness :
  TextExtractor.preview_text "Mix all reagents" 7 = "Mix all..."
  /\ TextExtractor.preview_text "Mix all reagents" 16 = "Mix all reagents".
Proof.
  split.
  - destruct (preview_text_spec "Mix all reagents" 7) as (_ & Hcut).
    destruct Hcut as (_ & Hcut); [lia|].
    destruct Hcut as [Hcut _]; [vm_compute; reflexivity|]. exact Hcut.
  - destruct (preview_text_spec "Mix all reagents" 16) as (Hid & _).
    apply Hid. vm_compute. discriminate.
Defined.

(** The preview is the identity whenever [max_chars] is at least the
    length, whatever its sign. *)
Lemma preview_text_identity (s : string) (max_chars : Z) :
  len s <= max_chars -> TextExtractor.preview_text s max_chars = s.
Proof.
  intros Hle. unfold TextExtractor.preview_text. apply Z.leb_le in Hle.
  now rewrite Hle.
Qed.

(** A negative [max_chars] cuts from the end of the text. *)
Lemma preview_text_negative (s : string) (max_chars : Z) :
  max_chars < 0 ->
  TextExtractor.preview_text s max_chars
  = (first_chars (len s + max_chars) s ++ "...")%string.
Proof.
  intros Hm. unfold TextExtractor.preview_text.
  replace (len s <=? max_chars) with false
    by (symmetry; apply Z.leb_gt; unfold len; lia).
  now rewrite (str_slice_to_negative s max_chars Hm).
Qed.

(** C9: the claim as it stands, for every [max_chars], fails at a
    negative one.  With [max_chars = -2] the text [hello] is longer than
    [max_chars], and its preview keeps the first three letters, where the
    first [max_chars] characters followed by the marker are the marker
    alone. *)
Lemma preview_text_negative_max_chars :
  TextExtractor.preview_text "hello" (-2) = "hel..."
  /\ preview_spec "hello" (-2) = "..."
  /\ (TextExtractor.preview_text "hello" (-2) = preview_spec "hello" (-2) -> False).
Proof. repeat split. vm_compute. discriminate. Qed.

(* ================================================================== *)
(** * Selecting the accepted suggestions *)

Section Selection.
Context {A : Type}.
Implicit Types (l : list A) (i : Z).

Lemma list_getitem_in_range l i :
  in_range l i = true ->
  exists x, nth_error l (Z.to_nat i) = Some x /\ list_getitem l i = Returns x.
Proof.
  unfold in_range, list_getitem. intros Hi.
  apply andb_prop in Hi as [H0 Hn]. apply Z.leb_le in H0. apply Z.ltb_lt in Hn.
  replace (i <? 0) with false by (symmetry; apply Z.ltb_ge; lia).
  replace (i <? 0) with false by (symmetry; apply Z.ltb_ge; lia).
  replace (Z.of_nat (List.length l) <=? i) with false
    by (symmetry; apply Z.leb_gt; lia).
  simpl. destruct (nth_error l (Z.to_nat i)) as [x|] eqn:E.
  - now exists x.
  - apply nth_error_None in E. lia.
Qed.

(** An index in [-n, 0) reads from the end of the list. *)
Lemma list_getitem_from_end l i :
  - Z.of_nat (List.length l) <= i < 0 ->
  exists x, nth_error l (Z.to_nat (Z.of_nat (List.length l) + i)) = Some x
            /\ list_getitem l i = Returns x.
Proof.
  intros Hi. unfold list_getitem.
  replace (i <? 0) with true by (symmetry; apply Z.ltb_lt; lia).
  replace (i + Z.of_nat (List.length l) <? 0) with false
    by (symmetry; apply Z.ltb_ge; lia).
  replace (Z.of_nat (List.length l) <=? i + Z.of_nat (List.length l)) with false
    by (symmetry; apply Z.leb_gt; lia).
  simpl. rewrite (Z.add_comm i).
  destruct (nth_error l (Z.to_nat (Z.of_nat (List.length l) + i))) as [x|] eqn:E.
  - now exists x.
  - apply nth_error_None in E. lia.
Qed.

(** An index below [-n] is an [IndexError]. *)
Lemma list_getitem_below l i :
  i < - Z.of_nat (List.length l) ->
  list_getitem l i = Raises (Exn IndexError "list index out of range").
Proof.
  intros Hi. unfold list_getitem.
  replace (i <? 0) with true by (symmetry; apply Z.ltb_lt; lia).
  replace (i + Z.of_nat (List.length l) <? 0) with true
    by (symmetry; apply Z.ltb_lt; lia).
  reflexivity.
Qed.

End Selection.

(** With no negative index the comprehension is the in-range selection. *)
Lemma select_accepted_nonneg (all_suggestions : list pyval) (indices : list Z) :
  Forall (fun i => 0 <= i) indices ->
  Main.select_accepted all_suggestions indices
  = Returns (in_range_selection all_suggestions indices).
Proof.
  induction 1 as [|i rest Hi _ IH]; simpl; [reflexivity|].
  unfold in_range at 1.
  replace (0 <=? i) with true by (symmetry; apply Z.leb_le; lia). simpl.
  destruct (i <? Z.of_nat (List.length all_suggestions)) eqn:Hn.
  - destruct (list_getitem_in_range all_suggestions i) as (x & Hx & ->).
    { unfold in_range. rewrite Hn.
      replace (0 <=? i) with true by (symmetry; apply Z.leb_le; lia). reflexivity. }
    simpl. now rewrite IH, Hx.
  - assumption.
Qed.

(** Indices at or above the length select nothing. *)
Lemma select_accepted_above (all_suggestions : list pyval) (indices : list Z) :
  Forall (fun i => Z.of_nat (List.length all_suggestions) <= i) indices ->
  Main.select_accepted all_suggestions indices = Returns [].
Proof.
  induction 1 as [|i rest Hi _ IH]; simpl; [reflexivity|].
  replace (i <? Z.of_nat (List.length all_suggestions)) with false
    by (symmetry; apply Z.ltb_ge; lia).
  assumption.
Qed.

(** A negative index passes the guard: from [-n] on it selects from the
    end, below [-n] the comprehension raises. *)
Lemma select_accepted_negative (all_suggestions : list pyval) (i : Z) (rest : list Z) :
  i < 0 ->
  Main.select_accepted all_suggestions (i :: rest)
  = (s <- list_getitem all_suggestions i ;;
     others <- Main.select_accepted all_suggestions rest ;;
     Returns (s :: others))%result.
Proof.
  intros Hi. simpl.
  replace (i <? Z.of_nat (List.length all_suggestions)) with true
    by (symmetry; apply Z.ltb_lt; lia).
  reflexivity.
Qed.

(* ================================================================== *)
(** * The endpoints and the provider *)

Section EndpointFacts.
Context `{Externals}.

(** When no suggestion is selected, [/api/improve] answers with the
    original text and leaves the process as it was: no model call, no
    file, no clock reading. *)
Lemma improve_nothing_selected id cached all_suggestions indices w :
  id <> EmptyString ->
  dict_get (analysis_cache w) id = Some cached ->
  Main.cached_suggestions cached = Returns all_suggestions ->
  Main.select_accepted all_suggestions indices = Returns [] ->
  Main.generate_improved_protocol
    {| Main.analysis_id := Some id; Main.accepted_indices := Some indices |} w
  = (Returns (nothing_applied_response (original_text cached)), w).
Proof.
  intros Hid Hc Hs Hsel. unfold Main.generate_improved_protocol. simpl.
  apply String.eqb_neq in Hid. rewrite Hid.
  unfold bind, get_world, lift. rewrite Hc, Hs, Hsel. reflexivity.
Qed.

Lemma improve_empty_indices id cached all_suggestions w :
  id <> EmptyString ->
  dict_get (analysis_cache w) id = Some cached ->
  Main.cached_suggestions cached = Returns all_suggestions ->
  Main.generate_improved_protocol
    {| Main.analysis_id := Some id; Main.accepted_indices := Some [] |} w
  = (Returns (nothing_applied_response (original_text cached)), w).
Proof.
  intros Hid Hc Hs.
  now apply (improve_nothing_selected id cached all_suggestions []).
Qed.

(** With no negative index, whatever [/api/improve] returns reports as
    applied the number of indices within [0, n). *)
Lemma improve_counts_in_range id cached all_suggestions indices w d :
  id <> EmptyString ->
  dict_get (analysis_cache w) id = Some cached ->
  Main.cached_suggestions cached = Returns all_suggestions ->
  Forall (fun i => 0 <= i) indices ->
  fst (Main.generate_improved_protocol
         {| Main.analysis_id := Some id; Main.accepted_indices := Some indices |} w)
  = Returns d ->
  dict_get d "suggestions_applied"
  = Some (PInt (Z.of_nat (List.length (in_range_selection all_suggestions indices)))).
Proof.
  intros Hid Hc Hs Hnn. unfold Main.generate_improved_protocol. simpl.
  apply String.eqb_neq in Hid. rewrite Hid.
  unfold bind at 1. unfold get_world. rewrite Hc.
  unfold bind at 1. unfold lift at 1. rewrite Hs.
  unfold bind at 1. unfold lift at 1.
  rewrite (select_accepted_nonneg all_suggestions indices Hnn).
  destruct (in_range_selection all_suggestions indices) as [|x accepted].
  - intros [= <-]. reflexivity.
  - unfold try_except, bind.
    destruct (ProtocolAnalyzer.generate_improved_protocol _ _ w) as [[a|e] w'];
      [|simpl; discriminate].
    unfold now, Main.write_output, bind, get_world, lift, modify. cbv beta.
    destruct (Posix.create _ _ _) as [name|e]; simpl; [|discriminate].
    intros [= <-]. reflexivity.
Qed.

(** A provider failure inside [generate_improved_protocol] is printed and
    answered with the original text. *)
Lemma generate_improved_protocol_swallows original x accepted lines e w :
  mapM ProtocolAnalyzer.suggestion_line (x :: accepted) = Returns lines ->
  (forall r, messages_create r = Raises e) ->
  exists w',
    ProtocolAnalyzer.generate_improved_protocol original (x :: accepted) w
    = (Returns original, w')
    /\ stdout w'
       = stdout w ++ [fstring ["Error generating improved protocol: "; str_of_exn e]]
    /\ List.length (model_calls w') = S (List.length (model_calls w)).
Proof.
  intros Hl Hf. unfold ProtocolAnalyzer.generate_improved_protocol.
  unfold bind, lift, try_except, client_messages_create. rewrite Hl, Hf.
  eexists. split; [reflexivity|]. simpl. split; [reflexivity|].
  rewrite length_app. simpl. lia.
Qed.

(** The same failure inside [analyze_protocol] becomes an error-flagged
    result, and inside [quick_check] the boolean [False]. *)
Lemma analyze_protocol_flags_failure protocol_text name e w :
  (forall r, messages_create r = Raises e) ->
  fst (ProtocolAnalyzer.analyze_protocol protocol_text name w)
  = Returns [("error", PBool true);
             ("message", PStr (fstring ["Analysis failed: "; str_of_exn e]));
             ("suggestions", PList [])].
Proof.
  intros Hf. unfold ProtocolAnalyzer.analyze_protocol.
  unfold bind, lift, try_except, client_messages_create. rewrite Hf. reflexivity.
Qed.

Lemma quick_check_false_on_failure e w :
  (forall r, messages_create r = Raises e) ->
  fst (ProtocolAnalyzer.quick_check w) = Returns false.
Proof.
  intros Hf. unfold ProtocolAnalyzer.quick_check.
  unfold bind, try_except, client_messages_create. rewrite Hf. reflexivity.
Qed.

(** Readings in the same second format alike, so the id of an analysis is
    a function of the file name and of the seconds of two readings. *)
Lemma strftime_same_second t t' :
  same_second t t' ->
  strftime_Ymd_HMS t = strftime_Ymd_HMS t' /\ strftime_YmdHMS t = strftime_YmdHMS t'.
Proof.
  destruct t, t'. unfold same_second, strftime_Ymd_HMS, strftime_YmdHMS. simpl.
  intros (-> & -> & -> & -> & -> & ->). split; reflexivity.
Qed.

Lemma analysis_id_same_second name t_upload t_upload' t_id t_id' :
  same_second t_upload t_upload' ->
  same_second t_id t_id' ->
  Main.make_analysis_id (fstring [strftime_Ymd_HMS t_upload; "_"; name]) t_id
  = Main.make_analysis_id (fstring [strftime_Ymd_HMS t_upload'; "_"; name]) t_id'.
Proof.
  intros Hu Hi. unfold Main.make_analysis_id.
  destruct (strftime_same_second _ _ Hu) as [-> _].
  destruct (strftime_same_second _ _ Hi) as [_ ->]. reflexivity.
Qed.

End EndpointFacts.

(* ================================================================== *)
(** * The invariant of the cache *)

Section CacheInvariant.
Context `{Externals}.

Lemma ensures_ret {A : Type} (a : A) (Q : A -> Prop) : Q a -> ensures (ret a) Q.
Proof. intros Ha w Hw. split; [assumption|]. simpl. now intros ? [= <-]. Qed.

Lemma ensures_raise {A : Type} (e : exn) (Q : A -> Prop) : ensures (raise e) Q.
Proof. intros w Hw. split; [assumption|]. simpl. discriminate. Qed.

Lemma ensures_lift {A : Type} (r : result A) :
  ensures (lift r) (fun a => r = Returns a).
Proof. intros w Hw. split; [assumption|]. simpl. auto. Qed.

Lemma ensures_bind {A B : Type} (m : M A) (k : A -> M B) (P : A -> Prop) (Q : B -> Prop) :
  ensures m P -> (forall a, P a -> ensures (k a) Q) -> ensures (bind m k) Q.
Proof.
  intros Hm Hk w Hw. unfold bind. destruct (Hm w Hw) as [Hw' Hp].
  destruct (m w) as [[a|e] w']; simpl in *.
  - apply (Hk a (Hp a eq_refl) w' Hw').
  - split; [assumption|discriminate].
Qed.

Lemma ensures_try {A : Type} (body : M A) (handler : exn -> M A) (Q : A -> Prop) :
  ensures body Q -> (forall e, ensures (handler e) Q) -> ensures (try_except body handler) Q.
Proof.
  intros Hb Hh w Hw. unfold try_except. destruct (Hb w Hw) as [Hw' Hq].
  destruct (body w) as [[a|e] w']; simpl in *.
  - split; [assumption|]. intros ? [= <-]. now apply Hq.
  - apply (Hh e w' Hw').
Qed.

Lemma ensures_weaken {A : Type} (m : M A) (P Q : A -> Prop) :
  ensures m P -> (forall a, P a -> Q a) -> ensures m Q.
Proof.
  intros Hm Hpq w Hw. destruct (Hm w Hw) as [Hw' Hp]. split; [assumption|].
  intros a Ha. apply Hpq, Hp, Ha.
Qed.

Lemma ensures_get_world : ensures get_world cache_wf.
Proof. intros w Hw. split; [assumption|]. simpl. now intros ? [= <-]. Qed.

Lemma ensures_modify (f : world -> world) :
  (forall w, analysis_cache (f w) = analysis_cache w) ->
  ensures (modify f) (fun _ => True).
Proof.
  intros Hf w Hw. split; [|trivial]. unfold cache_wf in *. simpl. now rewrite Hf.
Qed.

Lemma ensures_print (line : string) : ensures (print line) (fun _ => True).
Proof. now apply ensures_modify. Qed.

Lemma ensures_now : ensures now (fun _ => True).
Proof. intros w Hw. split; [exact Hw|trivial]. Qed.

Lemma ensures_client (r : request) :
  ensures (client_messages_create r) (fun _ => True).
Proof. intros w Hw. split; [exact Hw|trivial]. Qed.

Lemma dict_get_In {V : Type} (d : pydict V) (k : string) (v : V) :
  dict_get d k = Some v -> In (k, v) d.
Proof.
  induction d as [|[k' v'] d IH]; simpl; [discriminate|].
  destruct (String.eqb k' k) eqn:E.
  - apply String.eqb_eq in E. intros [= <-]. left. now subst.
  - intros Hd. right. now apply IH.
Qed.

Lemma dict_set_Forall {V : Type} (P : string * V -> Prop) (d : pydict V) k v :
  (forall k', P (k', v)) -> Forall P d -> Forall P (dict_set d k v).
Proof.
  intros Hv. induction 1 as [|[k' v'] d Hp Hd IH]; simpl.
  - constructor; [apply Hv|constructor].
  - destruct (String.eqb k' k); constructor;
      [apply Hv|assumption|assumption|exact IH].
Qed.

(** Storing a result with a suggestion list keeps the invariant. *)
Lemma ensures_store (id : string) (entry : cache_entry) :
  has_suggestion_list (analysis entry) ->
  ensures (modify (fun w =>
                     with_analysis_cache (dict_set (analysis_cache w) id entry) w))
    (fun _ => True).
Proof.
  intros He w Hw. split; [|trivial]. unfold cache_wf in *. simpl.
  apply dict_set_Forall; [intros k'; exact He|assumption].
Qed.

(** Every result of the parser has a list under [suggestions]. *)
Lemma parse_result_has_list raw r :
  ProtocolAnalyzer._parse_analysis_response raw = Returns r -> has_suggestion_list r.
Proof.
  unfold ProtocolAnalyzer._parse_analysis_response.
  destruct (ProtocolAnalyzer.json_span raw) as [span|].
  - destruct (json_loads span) as [v|e] eqn:Hl.
    + destruct v as [| | | | | |o]; try discriminate.
      destruct (suggestions_well_shaped o) eqn:Hw.
      * rewrite (normalise_well_shaped o Hw). intros [= <-].
        eexists. unfold normalised. apply dict_get_set_same.
      * destruct (normalise_ill_shaped o Hw) as (e & -> & _). discriminate.
    + destruct e as [cls msg|code detail]; [destruct cls|]; try discriminate.
      intros [= <-]. now exists [].
  - intros [= <-]. now exists [].
Qed.

(** So has every result of the analyzer, the error-flagged one included. *)
Lemma ensures_analyzer protocol_text name :
  ensures (ProtocolAnalyzer.analyze_protocol protocol_text name) has_suggestion_list.
Proof.
  unfold ProtocolAnalyzer.analyze_protocol. apply ensures_try.
  - eapply ensures_bind; [apply ensures_client|intros response _].
    eapply ensures_bind; [apply ensures_lift|intros response_text _].
    eapply ensures_bind; [apply ensures_lift|intros analysis_result Hr].
    apply ensures_ret. destruct (parse_result_has_list _ _ Hr) as [l Hl].
    exists l. rewrite dict_get_set_other by discriminate. assumption.
  - intros e. apply ensures_ret. now exists [].
Qed.

Lemma ensures_improver original accepted :
  ensures (ProtocolAnalyzer.generate_improved_protocol original accepted)
    (fun _ => True).
Proof.
  unfold ProtocolAnalyzer.generate_improved_protocol.
  destruct accepted as [|x accepted]; [now apply ensures_ret|].
  eapply ensures_bind; [apply ensures_lift|intros lines _].
  apply ensures_try.
  - eapply ensures_bind; [apply ensures_client|intros response _].
    eapply ensures_bind; [apply ensures_lift|intros improved_text _].
    now apply ensures_ret.
  - intros e. eapply ensures_bind; [apply ensures_print|intros _ _].
    now apply ensures_ret.
Qed.

Lemma ensures_quick_check : ensures ProtocolAnalyzer.quick_check (fun _ => True).
Proof.
  unfold ProtocolAnalyzer.quick_check. apply ensures_try.
  - eapply ensures_bind; [apply ensures_client|intros response _].
    now apply ensures_ret.
  - intros e. eapply ensures_bind; [apply ensures_print|intros _ _].
    now apply ensures_ret.
Qed.

Lemma ensures_extract_saved name : ensures (Main.extract_saved name) (fun _ => True).
Proof.
  unfold Main.extract_saved.
  eapply ensures_bind; [apply ensures_get_world|intros w _].
  eapply ensures_weaken; [apply ensures_lift|trivial].
Qed.

Lemma ensures_save_upload relative file :
  ensures (Main.save_upload relative file) (fun _ => True).
Proof.
  unfold Main.save_upload.
  eapply ensures_bind; [apply ensures_get_world|intros w _].
  eapply ensures_bind; [apply ensures_lift|intros name _].
  now apply ensures_modify.
Qed.

Lemma ensures_remove_upload relative :
  ensures (Main.remove_upload relative) (fun _ => True).
Proof.
  unfold Main.remove_upload.
  eapply ensures_bind; [apply ensures_get_world|intros w _].
  eapply ensures_bind; [apply ensures_lift|intros present _].
  destruct present; [|now apply ensures_ret].
  eapply ensures_bind; [apply ensures_lift|intros name _].
  now apply ensures_modify.
Qed.

Lemma ensures_write_output relative improved_text :
  ensures (Main.write_output relative improved_text) (fun _ => True).
Proof.
  unfold Main.write_output.
  eapply ensures_bind; [apply ensures_get_world|intros w _].
  eapply ensures_bind; [apply ensures_lift|intros name _].
  now apply ensures_modify.
Qed.

Lemma ensures_upload file : ensures (Main.upload_protocol file) (fun _ => True).
Proof.
  unfold Main.upload_protocol, Main.http_error.
  destruct (negb _); [apply ensures_raise|].
  destruct (_ >? _); [apply ensures_raise|].
  eapply ensures_bind; [apply ensures_now|intros t _]. cbv zeta.
  apply ensures_try.
  - eapply ensures_bind; [apply ensures_save_upload|intros _ _].
    eapply ensures_bind; [apply ensures_extract_saved|intros extracted _].
    now apply ensures_ret.
  - intros e. eapply ensures_bind; [apply ensures_remove_upload|intros _ _].
    apply ensures_raise.
Qed.

Lemma ensures_analyze file : ensures (Main.analyze_protocol file) (fun _ => True).
Proof.
  unfold Main.analyze_protocol, Main.http_error.
  eapply ensures_bind; [apply ensures_upload|intros upload_result _].
  destruct (negb _); [apply ensures_raise|]. cbv zeta.
  apply ensures_try.
  - eapply ensures_bind; [apply ensures_extract_saved|intros extracted _].
    eapply ensures_bind; [apply ensures_analyzer|intros analysis_result Hl].
    destruct (truthy _); [apply ensures_raise|].
    eapply ensures_bind; [apply ensures_now|intros t_id _].
    eapply ensures_bind; [apply ensures_now|intros t_entry _].
    eapply ensures_bind; [now apply ensures_store|intros _ _].
    now apply ensures_ret.
  - intros e. destruct e; apply ensures_raise.
Qed.

Lemma ensures_improve body :
  ensures (Main.generate_improved_protocol body) (fun _ => True).
Proof.
  unfold Main.generate_improved_protocol, Main.http_error.
  destruct (Main.analysis_id body) as [id|]; [|apply ensures_raise].
  destruct (String.eqb id EmptyString); [apply ensures_raise|].
  eapply ensures_bind; [apply ensures_get_world|intros w _].
  destruct (dict_get (analysis_cache w) id) as [cached|]; [|apply ensures_raise].
  eapply ensures_bind; [apply ensures_lift|intros all_suggestions _].
  eapply ensures_bind; [apply ensures_lift|intros accepted _].
  destruct accepted as [|x accepted]; [now apply ensures_ret|].
  apply ensures_try.
  - eapply ensures_bind; [apply ensures_improver|intros improved_text _].
    eapply ensures_bind; [apply ensures_now|intros t _]. cbv zeta.
    eapply ensures_bind; [apply ensures_write_output|intros _ _].
    now apply ensures_ret.
  - intros e. apply ensures_raise.
Qed.

(** In every state the process reaches, every cached analysis holds a
    list of suggestions. *)
Lemma reachable_cache_wf w : reachable w -> cache_wf w.
Proof.
  induction 1 as [|w _ IH|w _ IH|file w _ IH|file w _ IH|body w _ IH|name w _ IH|w _ IH].
  - constructor.
  - exact IH.
  - refine (proj1 ((_ : ensures Main.health_check (fun _ => True)) w IH)).
    unfold Main.health_check.
    eapply ensures_bind; [apply ensures_quick_check|intros api_working _].
    eapply ensures_bind; [apply ensures_now|intros t _]. now apply ensures_ret.
  - exact (proj1 (ensures_upload file w IH)).
  - exact (proj1 (ensures_analyze file w IH)).
  - exact (proj1 (ensures_improve body w IH)).
  - refine (proj1 ((_ : ensures (Main.download_file name) (fun _ => True)) w IH)).
    unfold Main.download_file, Main.http_error.
    destruct (_ || _); [apply ensures_raise|].
    eapply ensures_bind; [apply ensures_get_world|intros w0 _]. cbv zeta.
    eapply ensures_bind; [apply ensures_lift|intros present _].
    destruct (negb present); [apply ensures_raise|].
    destruct (Posix.resolve _ _ _); try apply ensures_raise.
    destruct (dict_get _ _); [now apply ensures_ret|apply ensures_raise].
  - exact IH.
Qed.

(** So reading the cached suggestions never fails in [/api/improve]. *)
Lemma cached_suggestions_total w id cached :
  reachable w ->
  dict_get (analysis_cache w) id = Some cached ->
  exists l, Main.cached_suggestions cached = Returns l.
Proof.
  intros Hr Hc. apply reachable_cache_wf in Hr. unfold cache_wf in Hr.
  rewrite Forall_forall in Hr. destruct (Hr _ (dict_get_In _ _ _ Hc)) as [l Hl].
  exists l. unfold Main.cached_suggestions, dict_getitem. simpl in Hl.
  now rewrite Hl.
Qed.

End CacheInvariant.

(** C3: the guard [i < len(all_suggestions)] lets negative indices
    through.  With two cached suggestions, index [-1] selects the last
    one; of the indices [0, -1, 5, -2] three are applied where one lies
    within [0, 2); index [-3] ends the request with an [IndexError]. *)
Theorem improve_selects_by_negative_index :
  let improve indices :=
    @Main.generate_improved_protocol (Fixture.answering "Improved text")
      (Fixture.improve_with indices) Fixture.world_with_analysis in
  let first := Fixture.suggestion "HIGH" "Step 1" "Wear gloves" in
  let last := Fixture.suggestion "LOW" "Step 4" "State the gel percentage" in
  Main.select_accepted Fixture.two_suggestions [-1] = Returns [last]
  /\ in_range_selection Fixture.two_suggestions [-1] = []
  /\ Main.select_accepted Fixture.two_suggestions [0; -1; 5; -2]
     = Returns [first; last; first]
  /\ in_range_selection Fixture.two_suggestions [0; -1; 5; -2] = [first]
  /\ response_field (fst (improve [0; -1; 5; -2])) "suggestions_applied"
     = Some (PInt 3)
  /\ fst (improve [-3]) = Raises (Exn IndexError "list index out of range").
Proof. cbv zeta. repeat split; vm_compute; reflexivity. Qed.

(** C7: the indices [[-1]] have no member within [0, 2), yet the endpoint
    calls the model once and answers with the model's text, reporting one
    suggestion applied. *)
Theorem improve_negative_index_invokes_model :
  let run :=
    @Main.generate_improved_protocol (Fixture.answering "Improved text")
      (Fixture.improve_with [-1]) Fixture.world_with_analysis in
  in_range_selection Fixture.two_suggestions [-1] = []
  /\ response_field (fst run) "improved_protocol" = Some (PStr "Improved text")
  /\ response_field (fst run) "suggestions_applied" = Some (PInt 1)
  /\ response_field (fst run) "message" = Some (PStr "Protocol improved successfully")
  /\ List.length (model_calls (snd run)) = 1%nat.
Proof. cbv zeta. repeat split; vm_compute; reflexivity. Qed.

(** With an empty list, or with indices at or above the number of
    suggestions only, the endpoint answers as C7 says. *)
Example improve_without_selection :
  @Main.generate_improved_protocol (Fixture.answering "Improved text")
    (Fixture.improve_with []) Fixture.world_with_analysis
  = (Returns (nothing_applied_response "1. Mix all reagents"),
     Fixture.world_with_analysis)
  /\ @Main.generate_improved_protocol (Fixture.answering "Improved text")
       (Fixture.improve_with [2; 7]) Fixture.world_with_analysis
     = (Returns (nothing_applied_response "1. Mix all reagents"),
        Fixture.world_with_analysis).
Proof. split; vm_compute; reflexivity. Qed.

(** C4: with the provider unreachable, [/api/improve] answers as a success
    whose improved protocol is the original text; the failure only reaches
    the standard output of the process.  The same failure makes
    [/api/analyze] raise status 500 and [/health] report [degraded]. *)
Theorem improve_reports_success_when_model_fails :
  let down := Fixture.externals Fixture.provider_down Fixture.clock_within_one_second in
  let run :=
    @Main.generate_improved_protocol down (Fixture.improve_with [0])
      Fixture.world_with_analysis in
  fst run
  = Returns [("success", PBool true);
             ("improved_protocol", PStr "1. Mix all reagents");
             ("output_filename", PStr "improved_pcr.pdf_20240517_103000.txt");
             ("suggestions_applied", PInt 1);
             ("message", PStr "Protocol improved successfully")]
  /\ stdout (snd run) = ["Error generating improved protocol: Connection error."]
  /\ List.length (model_calls (snd run)) = 1%nat
  /\ fst (@Main.analyze_protocol down Fixture.pcr_pdf empty_world)
     = Raises (HTTPException 500 (PStr "Analysis failed: Connection error."))
  /\ response_field (fst (@Main.health_check down empty_world)) "status"
     = Some (PStr "degraded").
Proof. cbv zeta. repeat split; vm_compute; reflexivity. Qed.

(** C5: two analyses of a file of the same name, with every clock reading
    of both inside one second, get the same id; the second entry replaces
    the first in the cache. *)
Theorem analyze_twice_within_a_second_one_id :
  let E := Fixture.answering Fixture.payload_ok in
  let first := @Main.analyze_protocol E Fixture.pcr_pdf empty_world in
  let second := @Main.analyze_protocol E Fixture.pcr_pdf (snd first) in
  response_field (fst first) "analysis_id"
  = Some (PStr "20240517_103000_pcr.pdf_20240517103000")
  /\ response_field (fst second) "analysis_id"
     = Some (PStr "20240517_103000_pcr.pdf_20240517103000")
  /\ response_field (fst first) "success" = Some (PBool true)
  /\ response_field (fst second) "success" = Some (PBool true)
  /\ clock_reads (snd second) = 6%nat
  /\ List.length (model_calls (snd second)) = 2%nat
  /\ List.length (analysis_cache (snd second)) = 1%nat
  /\ response_field (fst (Main.get_stats (snd second))) "total_analyses"
     = Some (PInt 1).
Proof. cbv zeta. repeat split; vm_compute; reflexivity. Qed.

(** The same with two requests an hour apart, on a wall clock that was
    set back by an hour in between. *)
Example analyze_twice_across_a_clock_change :
  let E := Fixture.externals (Fixture.provider_replies Fixture.payload_ok)
             Fixture.clock_set_back in
  let first := @Main.analyze_protocol E Fixture.pcr_pdf empty_world in
  let second := @Main.analyze_protocol E Fixture.pcr_pdf (snd first) in
  response_field (fst first) "analysis_id"
  = Some (PStr "20241027_023000_pcr.pdf_20241027023002")
  /\ response_field (fst second) "analysis_id"
     = Some (PStr "20241027_023000_pcr.pdf_20241027023002")
  /\ List.length (analysis_cache (snd second)) = 1%nat.
Proof. cbv zeta. repeat split; vm_compute; reflexivity. Qed.

(** On a clock that has moved to another second between the two analyses
    the ids differ and both entries are kept. *)
Example analyze_twice_in_different_seconds :
  let E := Fixture.externals (Fixture.provider_replies Fixture.payload_ok)
             Fixture.clock_ticking_seconds in
  let first := @Main.analyze_protocol E Fixture.pcr_pdf empty_world in
  let second := @Main.analyze_protocol E Fixture.pcr_pdf (snd first) in
  response_field (fst first) "analysis_id"
  = Some (PStr "20240517_103000_pcr.pdf_20240517103001")
  /\ response_field (fst second) "analysis_id"
     = Some (PStr "20240517_103003_pcr.pdf_20240517103004")
  /\ List.length (analysis_cache (snd second)) = 2%nat.
Proof. cbv zeta. repeat split; vm_compute; reflexivity. Qed.

(* ================================================================== *)
(** * The text extractor *)

Lemma lstrip_chars_nil l : lstrip_chars l = [] <-> forallb isspace l = true.
Proof.
  induction l as [|c r IH]; simpl; [tauto|].
  destruct (isspace c); simpl; [exact IH|]. split; discriminate.
Qed.

Lemma lstrip_chars_spaces l :
  forallb isspace (lstrip_chars l) = true -> forallb isspace l = true.
Proof.
  induction l as [|c r IH]; simpl; [trivial|].
  destruct (isspace c) eqn:E; simpl; [exact IH|].
  rewrite E. simpl. trivial.
Qed.

Lemma forallb_rev {A : Type} (f : A -> bool) (l : list A) :
  forallb f (rev l) = forallb f l.
Proof.
  induction l as [|x l IH]; simpl; [reflexivity|].
  rewrite forallb_app, IH. simpl. rewrite andb_true_r. apply andb_comm.
Qed.

Lemma text_nil l : text l = EmptyString <-> l = [].
Proof.
  split; [|now intros ->]. intros E.
  rewrite <- (chars_text l), E. reflexivity.
Qed.

Lemma strip_empty s : strip s = EmptyString <-> forallb isspace (chars s) = true.
Proof.
  unfold strip. rewrite text_nil. split.
  - intros E. apply (f_equal (@rev ascii)) in E. rewrite rev_involutive in E.
    simpl in E. apply lstrip_chars_nil in E. rewrite forallb_rev in E.
    now apply lstrip_chars_spaces.
  - intros E. apply lstrip_chars_nil in E. now rewrite E.
Qed.

Lemma nonblank_has_text s : TextExtractor.nonblank s = true <-> has_text s.
Proof.
  unfold TextExtractor.nonblank, has_text. rewrite negb_true_iff, String.eqb_neq.
  rewrite strip_empty. split.
  - intros Hn. destruct (forallb isspace (chars s)) eqn:E; [congruence|].
    assert (Hex : existsb (fun c => negb (isspace c)) (chars s) = true).
    { clear Hn. induction (chars s) as [|c r IH]; simpl in *; [discriminate|].
      destruct (isspace c); simpl in *; auto. }
    apply existsb_exists in Hex as (c & Hc & Hs). exists c.
    now rewrite negb_true_iff in Hs.
  - intros (c & Hc & Hs) E. rewrite forallb_forall in E.
    rewrite (E c Hc) in Hs. discriminate.
Qed.

Lemma nonblank_blank s : TextExtractor.nonblank s = false <-> ~ has_text s.
Proof.
  rewrite <- nonblank_has_text. destruct (TextExtractor.nonblank s); split;
    congruence.
Qed.

Lemma chars_join_cons sep x xs :
  chars (join sep (x :: xs))
  = chars x ++ match xs with
               | [] => []
               | _ :: _ => chars sep ++ chars (join sep xs)
               end.
Proof.
  unfold join. destruct xs as [|y ys]; simpl.
  - now rewrite app_nil_r.
  - now rewrite !chars_app.
Qed.

Lemma join_has_text sep x l : In x l -> has_text x -> has_text (join sep l).
Proof.
  intros Hx (c & Hc & Hs). exists c. split; [|assumption].
  induction l as [|y ys IH]; [destruct Hx|].
  rewrite chars_join_cons. apply in_or_app. destruct Hx as [->|Hx]; [now left|].
  right. destruct ys as [|z zs]; [destruct Hx|].
  apply in_or_app. right. now apply IH.
Qed.

Lemma join_newline_blank l :
  Forall (fun x => ~ has_text x) l -> ~ has_text (join newline l).
Proof.
  intros Hl (c & Hc & Hs). induction Hl as [|x xs Hx _ IH]; [destruct Hc|].
  rewrite chars_join_cons in Hc. apply in_app_or in Hc as [Hc|Hc].
  - apply Hx. now exists c.
  - destruct xs as [|y ys]; [destruct Hc|].
    apply in_app_or in Hc as [Hc|Hc]; [|now apply IH].
    destruct Hc as [<-|[]]. vm_compute in Hs. discriminate.
Qed.

Lemma numbered_from_cons {A : Type} (start : nat) (x : A) (l : list A) :
  numbered_from start (x :: l) = (start, x) :: numbered_from (S start) l.
Proof. reflexivity. Qed.

Lemma page_marker_has_text n : has_text (page_marker n).
Proof.
  exists "-"%char. split; [|reflexivity].
  unfold page_marker, fstring, newline. simpl. right. now left.
Qed.

Lemma pdf_text_parts_cons start page rest :
  TextExtractor.pdf_text_parts start (page :: rest)
  = (if TextExtractor.nonblank page then [page_marker start; page] else [])
    ++ TextExtractor.pdf_text_parts (S start) rest.
Proof. reflexivity. Qed.

(** X1.  The parts of the text of a PDF are, for each page with text in
    page order, the marker of the page and the text of the page; a page
    without text contributes nothing, and a later page keeps the number
    of its position in the file. *)
Theorem pdf_markers_keep_page_numbers (start : nat) (pages : list string) :
  TextExtractor.pdf_text_parts start pages
  = flat_map (fun p => [page_marker (fst p); snd p])
      (filter (fun p => TextExtractor.nonblank (snd p)) (numbered_from start pages)).
Proof.
  revert start. induction pages as [|page rest IH]; intros start; [reflexivity|].
  rewrite numbered_from_cons, pdf_text_parts_cons, IH.
  cbn [filter flat_map fst snd].
  destruct (TextExtractor.nonblank page); reflexivity.
Qed.

Lemma pdf_text_parts_blank start pages :
  Forall (fun p => ~ has_text p) pages -> TextExtractor.pdf_text_parts start pages = [].
Proof.
  intros Hp. revert start. induction Hp as [|page rest Hpage _ IH]; intros start;
    [reflexivity|].
  rewrite pdf_text_parts_cons. apply nonblank_blank in Hpage. rewrite Hpage.
  apply IH.
Qed.

Lemma pdf_text_parts_has_text start pages :
  Exists has_text pages ->
  has_text (join newline (TextExtractor.pdf_text_parts start pages)).
Proof.
  intros Hp. revert start. induction Hp as [page rest Hpage|page rest _ IH];
    intros start; rewrite pdf_text_parts_cons.
  - apply nonblank_has_text in Hpage. rewrite Hpage.
    eapply join_has_text; [now left|].
    apply (page_marker_has_text start).
  - destruct (TextExtractor.nonblank page).
    + eapply join_has_text; [now left|]. apply (page_marker_has_text start).
    + apply IH.
Qed.

(** X2.  A PDF the reader opens yields its text exactly when some page has
    text: then the text is the parts joined by newlines, it has text, and
    the metadata counts every page, blank ones included; when no page has
    text the extraction raises a [ValueError]. *)
Theorem pdf_extraction_outcome (file : file_bytes) (pdf : pdf_document) :
  as_pdf file = Returns pdf ->
  (Exists has_text (pdf_pages pdf) ->
   exists metadata,
     TextExtractor._extract_from_pdf file
     = Returns (join newline (TextExtractor.pdf_text_parts 1 (pdf_pages pdf)), metadata)
     /\ has_text (join newline (TextExtractor.pdf_text_parts 1 (pdf_pages pdf)))
     /\ dict_get metadata "pages"
        = Some (PInt (Z.of_nat (List.length (pdf_pages pdf))))
     /\ dict_get metadata "file_type" = Some (PStr "pdf"))
  /\ (Forall (fun p => ~ has_text p) (pdf_pages pdf) ->
      TextExtractor._extract_from_pdf file
      = Raises (Exn ValueError
                  "Error extracting text from PDF: No text could be extracted from the PDF")).
Proof.
  intros Hpdf. unfold TextExtractor._extract_from_pdf. rewrite Hpdf. simpl. split.
  - intros Hex. pose proof (pdf_text_parts_has_text 1 _ Hex) as Ht.
    apply nonblank_has_text in Ht as Hn. rewrite Hn.
    eexists. split; [reflexivity|]. split; [assumption|].
    destruct (pdf_metadata pdf); split; reflexivity.
  - intros Hall. rewrite (pdf_text_parts_blank 1 _ Hall).
    reflexivity.
Qed.

Lemma pdf_extraction_outcome_witness :
  let pdf := Samples.three_pages in
  exists metadata,
    TextExtractor._extract_from_pdf Samples.pdf_bytes
    = Returns (join newline (TextExtractor.pdf_text_parts 1 (pdf_pages pdf)), metadata)
    /\ has_text (join newline (TextExtractor.pdf_text_parts 1 (pdf_pages pdf)))
    /\ dict_get metadata "pages" = Some (PInt (Z.of_nat (List.length (pdf_pages pdf))))
    /\ dict_get metadata "file_type" = Some (PStr "pdf").
Proof.
  cbv zeta.
  apply (proj1 (pdf_extraction_outcome Samples.pdf_bytes Samples.three_pages eq_refl)).
  apply Exists_cons_hd. exists "M"%char. split; [now left|reflexivity].
Defined.

(** The scenario of a three-page file with text on pages 1 and 3. *)
Example pdf_pages_one_and_three :
  TextExtractor.pdf_text_parts 1 ["Mix"; "  "; "Run"]
  = [page_marker 1; "Mix"; page_marker 3; "Run"].
Proof. vm_compute. reflexivity. Qed.

Lemma filter_nonblank_blank l :
  Forall (fun x => ~ has_text x) l -> filter TextExtractor.nonblank l = [].
Proof.
  induction 1 as [|x xs Hx _ IH]; [reflexivity|].
  simpl. apply nonblank_blank in Hx. now rewrite Hx.
Qed.

Lemma filter_nonblank_has_text l :
  Exists has_text l -> has_text (join newline (filter TextExtractor.nonblank l)).
Proof.
  induction 1 as [x xs Hx|x xs _ IH]; simpl.
  - pose proof Hx as Hn. apply nonblank_has_text in Hn. rewrite Hn.
    eapply join_has_text; [now left|assumption].
  - destruct (TextExtractor.nonblank x) eqn:E; [|assumption].
    apply nonblank_has_text in E. eapply join_has_text; [now left|assumption].
Qed.

(** X3.  A document the DOCX reader opens yields its text exactly when a
    paragraph or a table cell has text: then the text is the paragraphs
    with text, in order, followed by the cells with text, row by row and
    table by table, joined by newlines, and the metadata counts the
    paragraphs with text only; otherwise the extraction raises a
    [ValueError]. *)
Theorem docx_extraction_outcome (file : file_bytes) (doc : docx_document) :
  as_docx file = Returns doc ->
  (Exists has_text (docx_units doc) ->
   exists metadata,
     TextExtractor._extract_from_docx file
     = Returns (join newline
                  (filter TextExtractor.nonblank (docx_paragraphs doc)
                   ++ filter TextExtractor.nonblank
                        (List.concat (List.concat (docx_tables doc)))),
                metadata)
     /\ dict_get metadata "paragraphs"
        = Some (PInt (Z.of_nat
                        (List.length
                           (filter TextExtractor.nonblank (docx_paragraphs doc)))))
     /\ dict_get metadata "file_type" = Some (PStr "docx"))
  /\ (Forall (fun u => ~ has_text u) (docx_units doc) ->
      TextExtractor._extract_from_docx file
      = Raises (Exn ValueError
                  "Error extracting text from DOCX: No text could be extracted from the DOCX")).
Proof.
  intros Hdoc. unfold TextExtractor._extract_from_docx. rewrite Hdoc. simpl.
  rewrite <- filter_app. fold (docx_units doc). split.
  - intros Hex. pose proof (filter_nonblank_has_text _ Hex) as Ht.
    apply nonblank_has_text in Ht. rewrite Ht.
    eexists. split; [reflexivity|]. split; reflexivity.
  - intros Hall. rewrite (filter_nonblank_blank _ Hall). reflexivity.
Qed.

Lemma docx_extraction_outcome_witness :
  let doc := Samples.word_document in
  exists metadata,
    TextExtractor._extract_from_docx Samples.docx_bytes
    = Returns (join newline
                 (filter TextExtractor.nonblank (docx_paragraphs doc)
                  ++ filter TextExtractor.nonblank
                       (List.concat (List.concat (docx_tables doc)))),
               metadata)
    /\ dict_get metadata "paragraphs"
       = Some (PInt (Z.of_nat
                       (List.length
                          (filter TextExtractor.nonblank (docx_paragraphs doc)))))
    /\ dict_get metadata "file_type" = Some (PStr "docx").
Proof.
  cbv zeta.
  apply (proj1 (docx_extraction_outcome Samples.docx_bytes Samples.word_document
                  eq_refl)).
  apply Exists_cons_hd. exists "T"%char. split; [now left|reflexivity].
Defined.

(** The paragraphs come first, the cells after them, blank units dropped. *)
Example docx_paragraphs_then_cells :
  filter TextExtractor.nonblank (docx_units Samples.word_document)
  = ["Title"; "Step 1"; "Reagent"; "Taq"; "1 ul"].
Proof. vm_compute. reflexivity. Qed.

Lemma extract_from_pdf_result file :
  match TextExtractor._extract_from_pdf file with
  | Returns (extracted, _) => has_text extracted
  | Raises e =>
      exists msg,
        e = Exn ValueError (fstring ["Error extracting text from PDF: "; msg])
  end.
Proof.
  unfold TextExtractor._extract_from_pdf, rbind.
  destruct (as_pdf file) as [pdf|e]; [|now exists (str_of_exn e)].
  cbv zeta.
  destruct (TextExtractor.nonblank
              (join newline (TextExtractor.pdf_text_parts 1 (pdf_pages pdf)))) eqn:E.
  - now apply nonblank_has_text.
  - eexists. reflexivity.
Qed.

Lemma extract_from_docx_result file :
  match TextExtractor._extract_from_docx file with
  | Returns (extracted, _) => has_text extracted
  | Raises e =>
      exists msg,
        e = Exn ValueError (fstring ["Error extracting text from DOCX: "; msg])
  end.
Proof.
  unfold TextExtractor._extract_from_docx, rbind.
  destruct (as_docx file) as [doc|e]; [|now exists (str_of_exn e)].
  cbv zeta.
  match goal with
  | |- context [TextExtractor.nonblank ?t] =>
      destruct (TextExtractor.nonblank t) eqn:E
  end.
  - now apply nonblank_has_text.
  - eexists. reflexivity.
Qed.

Lemma extract_result file_path file :
  match TextExtractor.extract file_path file with
  | Returns (extracted, _) => has_text extracted
  | Raises e => exists msg, e = Exn ValueError msg
  end.
Proof.
  unfold TextExtractor.extract.
  destruct (String.eqb _ ".pdf").
  - pose proof (extract_from_pdf_result file) as Hr.
    destruct (TextExtractor._extract_from_pdf file) as [[t md]|e]; [assumption|].
    destruct Hr as [msg ->]. eexists. reflexivity.
  - destruct (_ || _).
    + pose proof (extract_from_docx_result file) as Hr.
      destruct (TextExtractor._extract_from_docx file) as [[t md]|e]; [assumption|].
      destruct Hr as [msg ->]. eexists. reflexivity.
    + eexists. reflexivity.
Qed.

(** X4.  Whatever [extract] returns has a character that is not white
    space, and whatever it raises is a [ValueError]: the failures of the
    two readers are wrapped, none escapes as it was raised. *)
Theorem extract_returns_text_or_value_error (file_path : string) (file : file_bytes) :
  match TextExtractor.extract file_path file with
  | Returns (extracted, _) => has_text extracted
  | Raises e => exists msg, e = Exn ValueError msg
  end.
Proof. apply extract_result. Qed.

(** X6.  For a character count [max_chars], a preview has at most
    [max_chars + 3] characters, and its first [max_chars] characters are
    those of the text. *)
Theorem preview_text_bounded (s : string) (max_chars : nat) :
  len (TextExtractor.preview_text s (Z.of_nat max_chars)) <= Z.of_nat max_chars + 3
  /\ first_chars (Z.of_nat max_chars)
       (TextExtractor.preview_text s (Z.of_nat max_chars))
     = first_chars (Z.of_nat max_chars) s.
Proof.
  unfold TextExtractor.preview_text.
  destruct (len s <=? Z.of_nat max_chars) eqn:E.
  - apply Z.leb_le in E. split; [lia|reflexivity].
  - apply Z.leb_gt in E. rewrite str_slice_to_nonneg by lia.
    assert (Hlen : List.length (firstn max_chars (chars s)) = max_chars).
    { rewrite length_firstn, length_chars. unfold len in E. lia. }
    unfold first_chars. rewrite Nat2Z.id. split.
    + unfold len. rewrite <- length_chars, chars_app, length_app, chars_text, Hlen.
      simpl. lia.
    + rewrite chars_app, chars_text, firstn_app, Hlen, Nat.sub_diag.
      rewrite firstn_all2 by lia. simpl. now rewrite app_nil_r.
Qed.

(** X7.  A negative [max_chars] is not refused: the preview then drops
    the last [-max_chars] characters of the text (all of them when the
    text is shorter) and appends the marker. *)
Theorem preview_text_cuts_from_end (s : string) (max_chars : Z) :
  max_chars < 0 ->
  TextExtractor.preview_text s max_chars
  = (first_chars (len s + max_chars) s ++ "...")%string
  /\ len (TextExtractor.preview_text s max_chars) = Z.max 0 (len s + max_chars) + 3.
Proof.
  intros Hm. rewrite (preview_text_negative s max_chars Hm). split; [reflexivity|].
  unfold len, first_chars.
  rewrite <- length_chars, chars_app, length_app, chars_text, length_firstn,
    length_chars.
  simpl. lia.
Qed.

Lemma preview_text_cuts_from_end_witness :
  TextExtractor.preview_text "Mix all reagents" (-9) = "Mix all..."
  /\ len (TextExtractor.preview_text "Mix all reagents" (-9)) = 10.
Proof. apply (preview_text_cuts_from_end "Mix all reagents" (-9)). lia. Defined.

(* ================================================================== *)
(** * More on the analyzer *)

(** X8.  The span the parser hands to the decoder is the part of the text
    from its first opening brace to its last closing brace, and there is
    one exactly when an opening brace stands before a closing one. *)
Theorem json_span_iff_brace_span (raw span : string) :
  (ProtocolAnalyzer.json_span raw = Some span <-> brace_span raw span)
  /\ (ProtocolAnalyzer.json_span raw = None <-> no_brace_pair raw).
Proof.
  split; [split|].
  - apply json_span_brace_span.
  - apply json_span_of_brace_span.
  - apply json_span_None_iff.
Qed.

Lemma fill_get_some d key x : dict_get (fill d key x) key <> None.
Proof.
  destruct (dict_get d key) as [v|] eqn:E.
  - rewrite (fill_get_present d key x key v E). discriminate.
  - rewrite (fill_get_absent d key x E). discriminate.
Qed.

Lemma normalised_has_summary o : dict_get (normalised o) "summary" <> None.
Proof.
  unfold normalised, with_defaults.
  rewrite dict_get_set_other by discriminate.
  rewrite fill_get_other by discriminate. apply fill_get_some.
Qed.

Section AnalyzerFacts.
Context `{Externals}.

(** X9.  Every result of the parser has a list under [suggestions], and a
    [summary] unless it is the error-flagged result of a decode failure;
    and a [JSONDecodeError] never leaves the parser. *)
Theorem parser_result_shape (raw : string) :
  match ProtocolAnalyzer._parse_analysis_response raw with
  | Returns r =>
      has_suggestion_list r
      /\ (dict_get r "summary" <> None \/ dict_get r "error" = Some (PBool true))
  | Raises e => forall msg, e <> Exn JSONDecodeError msg
  end.
Proof.
  unfold ProtocolAnalyzer._parse_analysis_response.
  destruct (ProtocolAnalyzer.json_span raw) as [span|].
  - destruct (json_loads span) as [v|e] eqn:Hl.
    + destruct v as [| | | | | |o]; try (intros msg; discriminate).
      destruct (suggestions_well_shaped o) eqn:Hw.
      * rewrite (normalise_well_shaped o Hw). split.
        -- eexists. unfold normalised. apply dict_get_set_same.
        -- left. apply normalised_has_summary.
      * destruct (normalise_ill_shaped o Hw) as (e & -> & [m [-> | ->]]);
          intros msg; discriminate.
    + destruct e as [cls msg|code detail]; [destruct cls|];
        try (intros m; discriminate).
      split; [now exists []|now right].
  - split; [now exists []|left; discriminate].
Qed.

End AnalyzerFacts.

Lemma forallb_perm {A : Type} (f : A -> bool) (l l' : list A) :
  Permutation l l' -> forallb f l = forallb f l'.
Proof.
  induction 1 as [|x l l' _ IH|x y l|l l' l'' _ IH1 _ IH2]; simpl.
  - reflexivity.
  - now rewrite IH.
  - rewrite !andb_assoc. now rewrite (andb_comm (f y)).
  - congruence.
Qed.

(** X10.  Sorting is idempotent: what [sort_by_priority] returns for a list
    it returns again when given its own output, and a list that is
    already in rank order comes back as it is. *)
Theorem sort_by_priority_idempotent (l l' : list pyval) :
  ProtocolAnalyzer.sort_by_priority (PList l) = Returns (PList l') ->
  ProtocolAnalyzer.sort_by_priority (PList l') = Returns (PList l')
  /\ (sorted_by priority_rank l -> l' = l).
Proof.
  intros Hs.
  assert (Hl : forallb sortable_suggestion l = true).
  { destruct (forallb sortable_suggestion l) eqn:E; [reflexivity|].
    destruct (sort_by_priority_raises (PList l) E) as (e & He & _). congruence. }
  rewrite (sort_by_priority_sortable l Hl) in Hs. injection Hs as <-.
  assert (Hl' : forallb sortable_suggestion (sorted_suggestions l) = true).
  { rewrite <- (forallb_perm _ l); [assumption|apply stable_sort_perm]. }
  split.
  - rewrite (sort_by_priority_sortable _ Hl'). do 2 f_equal.
    symmetry. apply parsed_suggestions_determined.
    + apply stable_sort_sorted.
    + intros k. reflexivity.
  - intros Hsorted. symmetry. apply parsed_suggestions_determined;
      [assumption|intros k; reflexivity].
Qed.

Lemma sort_by_priority_idempotent_witness :
  let l := [PDict [("priority", PStr "LOW")]; PDict [("priority", PStr "HIGH")]] in
  let l' := [PDict [("priority", PStr "HIGH")]; PDict [("priority", PStr "LOW")]] in
  ProtocolAnalyzer.sort_by_priority (PList l') = Returns (PList l')
  /\ (sorted_by priority_rank l -> l' = l).
Proof.
  cbv zeta.
  apply (sort_by_priority_idempotent
           [PDict [("priority", PStr "LOW")]; PDict [("priority", PStr "HIGH")]]).
  vm_compute. reflexivity.
Defined.

Section AnalyzerCalls.
Context `{Externals}.

(** What the analyzer answers, case by case. *)
Lemma analyze_protocol_run protocol_text name w :
  ProtocolAnalyzer.analyze_protocol protocol_text name w
  = (Returns
       match messages_create (analysis_request protocol_text name) with
       | Raises e => analysis_failed e
       | Returns resp =>
           match content resp with
           | [] => analysis_failed (Exn IndexError "list index out of range")
           | response_text :: _ =>
               match ProtocolAnalyzer._parse_analysis_response response_text with
               | Returns r =>
                   dict_set r "metadata" (analysis_metadata protocol_text name resp)
               | Raises e => analysis_failed e
               end
           end
       end,
     called (analysis_request protocol_text name) w).
Proof.
  unfold ProtocolAnalyzer.analyze_protocol, try_except, bind,
    client_messages_create, lift, ret, called.
  change {| req_model := ProtocolAnalyzer.model;
            req_max_tokens := settings.MAX_TOKENS;
            req_temperature := Some settings.TEMPERATURE;
            req_prompt := ProtocolAnalyzer._create_analysis_prompt protocol_text name |}
    with (analysis_request protocol_text name).
  destruct (messages_create (analysis_request protocol_text name)) as [resp|e];
    [|reflexivity].
  unfold ProtocolAnalyzer.first_text.
  destruct (content resp) as [|response_text rest]; [reflexivity|].
  destruct (ProtocolAnalyzer._parse_analysis_response response_text); reflexivity.
Qed.

Lemma analyze_protocol_answer protocol_text name w :
  exists d,
    ProtocolAnalyzer.analyze_protocol protocol_text name w
    = (Returns d, called (analysis_request protocol_text name) w)
    /\ has_suggestion_list d
    /\ (dict_get d "metadata" <> None
        \/ (error_flag d = true /\ dict_get d "suggestions" = Some (PList []))).
Proof.
  rewrite analyze_protocol_run. eexists. split; [reflexivity|].
  destruct (messages_create (analysis_request protocol_text name)) as [resp|e].
  - destruct (content resp) as [|response_text rest].
    + split; [now exists []|right; split; reflexivity].
    + destruct (ProtocolAnalyzer._parse_analysis_response response_text) as [r|e]
        eqn:Hp.
      * split.
        -- destruct (parse_result_has_list _ _ Hp) as [l Hl]. exists l.
           rewrite dict_get_set_other by discriminate. assumption.
        -- left. rewrite dict_get_set_same. discriminate.
      * split; [now exists []|right; split; reflexivity].
  - split; [now exists []|right; split; reflexivity].
Qed.

(** X11.  The analyzer never raises.  It calls the provider exactly once,
    prints nothing, and answers either with the parsed result plus its
    metadata or with an error-flagged result without suggestions; either
    way the answer has a list under [suggestions]. *)
Theorem analyzer_answers_once (protocol_text name : string) (w : world) :
  exists d,
    ProtocolAnalyzer.analyze_protocol protocol_text name w
    = (Returns d, called (analysis_request protocol_text name) w)
    /\ has_suggestion_list d
    /\ (dict_get d "metadata" <> None
        \/ (error_flag d = true /\ dict_get d "suggestions" = Some (PList []))).
Proof. apply analyze_protocol_answer. Qed.

(** X12.  Each failure on the way reaches the caller of the analyzer as
    the message "Analysis failed: " followed by the text of the
    exception: a failure of the provider, a response without a content
    block, and an exception of the parser. *)
Theorem analyzer_failure_messages (protocol_text name : string) (w : world) :
  let run := ProtocolAnalyzer.analyze_protocol protocol_text name w in
  let req := analysis_request protocol_text name in
  (forall e, messages_create req = Raises e ->
             fst run = Returns (analysis_failed e))
  /\ (forall resp, messages_create req = Returns resp -> content resp = [] ->
                   fst run
                   = Returns (analysis_failed
                                (Exn IndexError "list index out of range")))
  /\ (forall resp response_text rest e,
        messages_create req = Returns resp ->
        content resp = response_text :: rest ->
        ProtocolAnalyzer._parse_analysis_response response_text = Raises e ->
        fst run = Returns (analysis_failed e))
  /\ (forall resp response_text rest r,
        messages_create req = Returns resp ->
        content resp = response_text :: rest ->
        ProtocolAnalyzer._parse_analysis_response response_text = Returns r ->
        fst run
        = Returns (dict_set r "metadata"
                     (analysis_metadata protocol_text name resp))).
Proof.
  cbv zeta. rewrite analyze_protocol_run. simpl fst.
  repeat split.
  - intros e ->. reflexivity.
  - intros resp -> ->. reflexivity.
  - intros resp response_text rest e -> -> ->. reflexivity.
  - intros resp response_text rest r -> -> ->. reflexivity.
Qed.

End AnalyzerCalls.

Lemma analyzer_failure_messages_witness :
  fst (@ProtocolAnalyzer.analyze_protocol Fixture.quiet "1. Mix" "pcr.pdf" empty_world)
  = Returns (analysis_failed (Exn APIError "Connection error."))
  /\ fst (@ProtocolAnalyzer.analyze_protocol
            (Fixture.answering Fixture.raw_text_element) "1. Mix" "pcr.pdf" empty_world)
     = Returns (analysis_failed
                  (Exn AttributeError "'str' object has no attribute 'get'")).
Proof.
  split.
  - apply (proj1 (@analyzer_failure_messages Fixture.quiet "1. Mix" "pcr.pdf"
                    empty_world)).
    reflexivity.
  - destruct (@analyzer_failure_messages (Fixture.answering Fixture.raw_text_element)
                "1. Mix" "pcr.pdf" empty_world) as (_ & _ & Hparse & _).
    eapply Hparse; vm_compute; reflexivity.
Defined.

Section ImproverFacts.
Context `{Externals}.

Lemma suggestion_line_renderable s :
  renderable s = true -> ProtocolAnalyzer.suggestion_line s = Returns (rendered_line s).
Proof.
  destruct s as [| | | | | |d]; try discriminate.
  unfold renderable. rewrite !dict_contains_get.
  unfold ProtocolAnalyzer.suggestion_line, ProtocolAnalyzer.subscript,
    dict_getitem, rendered_line, dict_get_default, rbind.
  destruct (dict_get d "location"); [|discriminate].
  destruct (dict_get d "suggestion"); [|discriminate].
  reflexivity.
Qed.

Lemma suggestion_line_unrenderable s :
  renderable s = false ->
  exists e msg, ProtocolAnalyzer.suggestion_line s = Raises e
                /\ (e = Exn KeyError msg \/ e = Exn TypeError msg).
Proof.
  unfold ProtocolAnalyzer.suggestion_line, ProtocolAnalyzer.subscript,
    dict_getitem, rbind.
  destruct s as [| | | | | |d]; intros Hr;
    try (eexists; eexists; split; [reflexivity|right; reflexivity]).
  unfold renderable in Hr. rewrite !dict_contains_get in Hr.
  destruct (dict_get d "location").
  - destruct (dict_get d "suggestion"); [discriminate|].
    eexists; eexists; split; [reflexivity|left; reflexivity].
  - eexists; eexists; split; [reflexivity|left; reflexivity].
Qed.

Lemma suggestion_lines_renderable l :
  forallb renderable l = true ->
  mapM ProtocolAnalyzer.suggestion_line l = Returns (map rendered_line l).
Proof.
  induction l as [|s l IH]; simpl; [reflexivity|].
  intros Hl. apply andb_prop in Hl as [Hs Hl].
  now rewrite (suggestion_line_renderable s Hs), (IH Hl).
Qed.

Lemma suggestion_lines_unrenderable l :
  forallb renderable l = false ->
  exists e msg, mapM ProtocolAnalyzer.suggestion_line l = Raises e
                /\ (e = Exn KeyError msg \/ e = Exn TypeError msg).
Proof.
  induction l as [|s l IH]; simpl; [discriminate|].
  destruct (renderable s) eqn:Hs; simpl; intros Hl.
  - rewrite (suggestion_line_renderable s Hs). simpl.
    destruct (IH Hl) as (e & msg & -> & He). now exists e, msg.
  - destruct (suggestion_line_unrenderable s Hs) as (e & msg & -> & He).
    now exists e, msg.
Qed.

(** What [generate_improved_protocol] does once its lines are built. *)
Lemma generate_improved_protocol_run original x accepted w :
  forallb renderable (x :: accepted) = true ->
  let req := improvement_request (map rendered_line (x :: accepted)) original in
  ProtocolAnalyzer.generate_improved_protocol original (x :: accepted) w
  = match messages_create req with
    | Returns resp =>
        match content resp with
        | improved_text :: _ => (Returns improved_text, called req w)
        | [] =>
            (Returns original,
             printed "Error generating improved protocol: list index out of range"
               (called req w))
        end
    | Raises e =>
        (Returns original,
         printed (fstring ["Error generating improved protocol: "; str_of_exn e])
           (called req w))
    end.
Proof.
  intros Hl. cbv zeta. unfold ProtocolAnalyzer.generate_improved_protocol.
  rewrite (suggestion_lines_renderable _ Hl).
  unfold bind, lift, try_except, client_messages_create, print, modify, ret,
    called, printed.
  change {| req_model := ProtocolAnalyzer.model;
            req_max_tokens := settings.MAX_TOKENS;
            req_temperature := Some (3 # 10)%Q;
            req_prompt :=
              ProtocolAnalyzer.improvement_prompt
                (join newline (map rendered_line (x :: accepted))) original |}
    with (improvement_request (map rendered_line (x :: accepted)) original).
  destruct (messages_create _) as [resp|e]; [|reflexivity].
  unfold ProtocolAnalyzer.first_text.
  destruct (content resp); reflexivity.
Qed.

(** X13.  [generate_improved_protocol] raises exactly when an accepted
    suggestion is not an object with a [location] and a [suggestion]:
    then the exception is a [KeyError] or a [TypeError] and the provider
    has not been called.  In every other case it returns a text. *)
Theorem improver_raises_iff_unrenderable (original : string) (accepted : list pyval)
  (w : world) :
  (forallb renderable accepted = true ->
   exists improved w',
     ProtocolAnalyzer.generate_improved_protocol original accepted w
     = (Returns improved, w'))
  /\ (forallb renderable accepted = false ->
      exists e msg,
        ProtocolAnalyzer.generate_improved_protocol original accepted w
        = (Raises e, w)
        /\ (e = Exn KeyError msg \/ e = Exn TypeError msg)).
Proof.
  split.
  - intros Hl. destruct accepted as [|x accepted].
    + now exists original, w.
    + rewrite (generate_improved_protocol_run original x accepted w Hl).
      destruct (messages_create _) as [resp|e]; [destruct (content resp)|];
        eexists; eexists; reflexivity.
  - intros Hl. destruct accepted as [|x accepted]; [discriminate|].
    destruct (suggestion_lines_unrenderable _ Hl) as (e & msg & Hm & He).
    exists e, msg. split; [|assumption].
    unfold ProtocolAnalyzer.generate_improved_protocol, bind, lift.
    now rewrite Hm.
Qed.

(** X14.  With renderable suggestions the provider is called once, with a
    prompt that lists the suggestions in the order given.  The result is
    the first text of the response; when the call fails, or the response
    has no content, it is the original text, and the only trace of the
    failure is a printed line. *)
Theorem improver_outcome (original : string) (x : pyval) (accepted : list pyval)
  (w : world) :
  forallb renderable (x :: accepted) = true ->
  let req := improvement_request (map rendered_line (x :: accepted)) original in
  ProtocolAnalyzer.generate_improved_protocol original (x :: accepted) w
  = match messages_create req with
    | Returns resp =>
        match content resp with
        | improved_text :: _ => (Returns improved_text, called req w)
        | [] =>
            (Returns original,
             printed "Error generating improved protocol: list index out of range"
               (called req w))
        end
    | Raises e =>
        (Returns original,
         printed (fstring ["Error generating improved protocol: "; str_of_exn e])
           (called req w))
    end.
Proof. apply generate_improved_protocol_run. Qed.

(** X15.  The health check never raises: it calls the provider once and
    reads the clock once, and its status is [healthy] exactly when the
    provider answered and [degraded] exactly when the call failed. *)
Theorem health_check_outcome (w : world) :
  exists d w',
    Main.health_check w = (Returns d, w')
    /\ (dict_get d "status" = Some (PStr "healthy")
        <-> exists r, messages_create liveness_request = Returns r)
    /\ (dict_get d "status" = Some (PStr "degraded")
        <-> exists e, messages_create liveness_request = Raises e)
    /\ model_calls w' = model_calls w ++ [liveness_request]
    /\ clock_reads w' = S (clock_reads w)
    /\ analysis_cache w' = analysis_cache w.
Proof.
  unfold Main.health_check, ProtocolAnalyzer.quick_check, bind, try_except,
    client_messages_create, print, modify, now, ret.
  change {| req_model := ProtocolAnalyzer.model;
            req_max_tokens := 50;
            req_temperature := None;
            req_prompt := "Respond with 'OK' if you can read this." |}
    with liveness_request.
  destruct (messages_create liveness_request) as [r|e]; simpl;
    eexists; eexists; (split; [reflexivity|]); simpl.
  - repeat split; try discriminate; eauto.
    + intros [e He]. discriminate.
  - repeat split; try discriminate; eauto.
    + intros [r Hr]. discriminate.
Qed.

End ImproverFacts.

Lemma improver_outcome_witness :
  @ProtocolAnalyzer.generate_improved_protocol Fixture.quiet "1. Mix all reagents"
     Fixture.two_suggestions empty_world
  = (Returns "1. Mix all reagents",
     printed "Error generating improved protocol: Connection error."
       (called (@improvement_request
                  ["- Step 1: Wear gloves"; "- Step 4: State the gel percentage"]
                  "1. Mix all reagents")
          empty_world)).
Proof.
  apply (@improver_outcome Fixture.quiet "1. Mix all reagents"
           (Fixture.suggestion "HIGH" "Step 1" "Wear gloves")
           [Fixture.suggestion "LOW" "Step 4" "State the gel percentage"]
           empty_world).
  reflexivity.
Defined.


(* ================================================================== *)
(** * Paths *)

Lemma split_chars_cons sep l : exists seg segs, Posix.split_chars sep l = seg :: segs.
Proof.
  induction l as [|c l IH]; simpl; [now exists [], []|].
  destruct (Ascii.eqb c sep); [now eexists; eexists|].
  destruct IH as (seg & segs & ->). now eexists; eexists.
Qed.

Lemma split_chars_no_sep sep l :
  existsb (Ascii.eqb sep) l = false -> Posix.split_chars sep l = [l].
Proof.
  induction l as [|c l IH]; simpl; [reflexivity|].
  intros Hl. apply orb_false_elim in Hl as [Hc Hl].
  rewrite Ascii.eqb_sym, Hc, (IH Hl). reflexivity.
Qed.

Lemma split_chars_sep sep l :
  existsb (Ascii.eqb sep) l = true ->
  exists seg seg' segs, Posix.split_chars sep l = seg :: seg' :: segs.
Proof.
  induction l as [|c l IH]; simpl; [discriminate|].
  rewrite (Ascii.eqb_sym c sep). destruct (Ascii.eqb sep c); simpl.
  - intros _. destruct (split_chars_cons sep l) as (seg & segs & ->).
    now exists [], seg, segs.
  - intros Hl. destruct (IH Hl) as (seg & seg' & segs & ->).
    now exists (c :: seg), seg', segs.
Qed.

(** The first segment of a text that begins with a text free of the
    separator begins with it. *)
Lemma split_chars_head sep a l :
  existsb (Ascii.eqb sep) a = false ->
  exists seg segs,
    Posix.split_chars sep (a ++ l) = (a ++ seg) :: segs
    /\ Posix.split_chars sep l = seg :: segs.
Proof.
  induction a as [|c a IH]; simpl.
  - intros _. destruct (split_chars_cons sep l) as (seg & segs & ->).
    now exists seg, segs.
  - intros Ha. apply orb_false_elim in Ha as [Hc Ha].
    rewrite Ascii.eqb_sym, Hc. destruct (IH Ha) as (seg & segs & -> & Hl).
    now exists seg, segs.
Qed.

(** A text free of the separator, put at the end, joins the last
    segment. *)
Lemma split_chars_app sep l b :
  existsb (Ascii.eqb sep) b = false ->
  Posix.split_chars sep (l ++ b)
  = removelast (Posix.split_chars sep l) ++ [last (Posix.split_chars sep l) [] ++ b].
Proof.
  intros Hb. induction l as [|c l IH]; simpl.
  - now rewrite (split_chars_no_sep sep b Hb).
  - destruct (split_chars_cons sep l) as (s2 & t2 & E2). rewrite E2 in *.
    destruct (Ascii.eqb c sep).
    + rewrite IH. reflexivity.
    + rewrite IH. destruct t2 as [|s t2]; reflexivity.
Qed.

Lemma split_chars_last sep l b :
  existsb (Ascii.eqb sep) b = false ->
  last (Posix.split_chars sep (l ++ b)) [] = last (Posix.split_chars sep l) [] ++ b.
Proof.
  intros Hb. rewrite (split_chars_app sep l b Hb). apply last_last.
Qed.

Lemma kept_long s : (2 <= String.length s)%nat -> Posix.kept s = true.
Proof.
  destruct s as [|c [|c' s]]; simpl; try lia. intros _.
  unfold Posix.kept. simpl. now destruct (Ascii.eqb c ".").
Qed.

Lemma last_map {A B : Type} (f : A -> B) (l : list A) (d : A) :
  last (map f l) (f d) = f (last l d).
Proof.
  induction l as [|a l IH]; [reflexivity|].
  destruct l as [|b l]; [reflexivity|]. exact IH.
Qed.

Lemma filter_first_and_last {A : Type} (f : A -> bool) (a b : A) (t : list A) (d : A) :
  f a = true -> f (last (b :: t) d) = true ->
  (2 <= List.length (filter f (a :: b :: t)))%nat.
Proof.
  intros Ha Hl.
  assert (Hin : In (last (b :: t) d) (filter f (b :: t))).
  { apply filter_In. split; [|exact Hl].
    destruct (exists_last (l := b :: t)) as (l' & x & E); [discriminate|].
    rewrite E, last_last. apply in_or_app. right. now left. }
  change (filter f (a :: b :: t))
    with (if f a then a :: filter f (b :: t) else filter f (b :: t)).
  rewrite Ha. destruct (filter f (b :: t)); [destruct Hin|simpl; lia].
Qed.

(** A path with one component, whose text begins and ends with texts that
    make any segment a component, has no slash: it is its component. *)
Lemma single_part_no_slash (p x s : list ascii) (k : string) :
  existsb (Ascii.eqb Posix.slash) p = false ->
  existsb (Ascii.eqb Posix.slash) s = false ->
  (forall y, Posix.kept (text (p ++ y)) = true) ->
  (forall y, Posix.kept (text (y ++ s)) = true) ->
  Posix.path_parts (text (p ++ x ++ s)) = [k] ->
  Posix.has_slash (text (p ++ x ++ s)) = false /\ k = text (p ++ x ++ s).
Proof.
  intros Hp Hs Kp Ks. unfold Posix.path_parts, Posix.has_slash. rewrite chars_text.
  destruct (existsb (Ascii.eqb Posix.slash) (p ++ x ++ s)) eqn:E.
  - intros Hk. exfalso.
    destruct (split_chars_head Posix.slash p (x ++ s) Hp) as (seg & segs & E1 & _).
    destruct (split_chars_sep Posix.slash _ E) as (s0 & s1 & rest & E2).
    rewrite E1 in E2. injection E2 as _ ->.
    assert (Hl : last (s1 :: rest) [] = last (Posix.split_chars Posix.slash (p ++ x)) [] ++ s).
    { rewrite <- (split_chars_last Posix.slash (p ++ x) s Hs), <- app_assoc, E1.
      reflexivity. }
    rewrite E1 in Hk.
    pose proof (filter_first_and_last Posix.kept (text (p ++ seg)) (text s1)
                  (map text rest) (text []) (Kp seg)) as Hlen.
    change (text s1 :: map text rest) with (map text (s1 :: rest)) in Hlen.
    rewrite last_map, Hl in Hlen. specialize (Hlen (Ks _)).
    cbn [map] in Hk, Hlen. rewrite Hk in Hlen. simpl in Hlen. lia.
  - rewrite (split_chars_no_sep _ _ E). cbn [map filter]. rewrite Kp.
    intros [= <-]. split; reflexivity.
Qed.

Lemma resolve_entry_existing existing existing' folder relative name :
  Posix.resolve existing folder relative = Posix.Entry name ->
  Posix.resolve existing' folder relative = Posix.Entry name.
Proof.
  unfold Posix.resolve. destruct (Posix.has_nul _); [discriminate|].
  destruct (String.prefix _ _); [discriminate|].
  destruct (_ <=? _); [discriminate|].
  destruct (Posix.path_parts relative) as [|first rest]; [discriminate|].
  destruct (_ <? _); [discriminate|].
  destruct (String.eqb first ".."); [destruct rest; discriminate|].
  destruct rest; [trivial|]. destruct (existsb _ _); discriminate.
Qed.

Lemma resolve_entry_parts existing folder relative name :
  Posix.resolve existing folder relative = Posix.Entry name ->
  Posix.path_parts relative = [name].
Proof.
  unfold Posix.resolve. destruct (Posix.has_nul _); [discriminate|].
  destruct (String.prefix _ _); [discriminate|].
  destruct (_ <=? _); [discriminate|].
  destruct (Posix.path_parts relative) as [|first rest]; [discriminate|].
  destruct (_ <? _); [discriminate|].
  destruct (String.eqb first ".."); [destruct rest; discriminate|].
  destruct rest; [now intros [= ->]|]. destruct (existsb _ _); discriminate.
Qed.

Lemma existsb_key_set {V : Type} (d : pydict V) (k : string) (v : V) :
  existsb (String.eqb k) (dict_keys (dict_set d k v)) = true.
Proof.
  apply existsb_exists. exists k. split; [|apply String.eqb_refl].
  apply dict_keys_set_incl. now right.
Qed.

(* ================================================================== *)
(** * More on the endpoints *)

Lemma dict_remove_get_absent {V : Type} (d : pydict V) (k : string) :
  NoDup (dict_keys d) -> dict_get (dict_remove d k) k = None.
Proof.
  induction d as [|[k' v'] d IH]; simpl; intros Hn; [reflexivity|].
  inversion Hn as [|? ? Hnotin Hd]; subst.
  destruct (String.eqb k' k) eqn:E.
  - apply String.eqb_eq in E. subst k'.
    destruct (dict_get d k) eqn:G; [|reflexivity].
    exfalso. apply Hnotin. apply dict_get_keys. congruence.
  - simpl. rewrite E. now apply IH.
Qed.

Lemma dict_set_NoDup {V : Type} (d : pydict V) (k : string) (v : V) :
  NoDup (dict_keys d) -> NoDup (dict_keys (dict_set d k v)).
Proof.
  intros Hn. rewrite dict_keys_set, dict_contains_get.
  destruct (dict_get d k) eqn:E; [assumption|].
  apply NoDup_app; [assumption|repeat constructor; intros []|].
  intros x Hx [<-|[]]. apply dict_get_keys in Hx. congruence.
Qed.

Section UploadFacts.
Context `{Externals}.

(** What [/api/upload] does, case by case. *)
Lemma upload_protocol_run file w :
  let name := upload_filename file in
  let safe := saved_name (clock (clock_reads w)) name in
  Main.upload_protocol file w
  = if negb (allowed_extension name) then
      (Raises (HTTPException 400
                 (PStr "Invalid file type. Allowed: .pdf, .docx, .doc")), w)
    else if byte_size (upload_file file) >? max_upload_bytes then
      (Raises (HTTPException 400 (PStr "File too large. Maximum size: 10MB")), w)
    else
      match upload_resolution safe w with
      | Posix.Entry saved_as =>
          match TextExtractor.extract safe (upload_file file) with
          | Returns (extracted, metadata) =>
              (Returns (upload_response file safe extracted metadata),
               stored saved_as (upload_file file) (ticked w))
          | Raises e =>
              (Raises (HTTPException 500
                         (PStr (fstring ["Error processing file: "; str_of_exn e]))),
               unstored saved_as (stored saved_as (upload_file file) (ticked w)))
          end
      | r =>
          (Raises
             (if reported_absent r then
                HTTPException 500
                  (PStr (fstring ["Error processing file: ";
                                  str_of_exn (Posix.refusal settings.UPLOAD_FOLDER safe r)]))
              else Posix.refusal settings.UPLOAD_FOLDER safe r),
           ticked w)
      end.
Proof.
  cbv zeta. unfold Main.upload_protocol.
  fold (allowed_extension (upload_filename file)).
  destruct (negb (allowed_extension (upload_filename file))); [reflexivity|].
  fold max_upload_bytes.
  destruct (byte_size (upload_file file) >? max_upload_bytes); [reflexivity|].
  unfold bind at 1. unfold now. cbv zeta.
  fold (saved_name (clock (clock_reads w)) (upload_filename file)).
  set (safe := saved_name (clock (clock_reads w)) (upload_filename file)).
  fold (ticked w).
  unfold upload_resolution.
  change (upload_folder w) with (upload_folder (ticked w)).
  unfold Main.save_upload, Main.remove_upload, Main.extract_saved, Main.read_upload,
    Main.http_error.
  unfold try_except, bind, modify, get_world, lift, raise, ret. cbv beta.
  unfold Posix.create, Posix.path_exists, Posix.unlink.
  destruct (Posix.resolve (dict_keys (upload_folder (ticked w))) settings.UPLOAD_FOLDER safe)
    as [| | | | | |saved_as] eqn:Hr.
  7: { cbn [fst snd upload_folder with_upload_folder].
       rewrite (resolve_entry_existing _
                  (dict_keys (dict_set (upload_folder (ticked w)) saved_as
                                (upload_file file)))
                  _ _ _ Hr).
       rewrite dict_get_set_same.
       fold (stored saved_as (upload_file file) (ticked w)).
       destruct (TextExtractor.extract safe (upload_file file)) as [[t md]|e];
         [reflexivity|].
       cbn [fst snd upload_folder with_upload_folder stored].
       rewrite (resolve_entry_existing _
                  (dict_keys (dict_set (upload_folder (ticked w)) saved_as
                                (upload_file file)))
                  _ _ _ Hr).
       rewrite existsb_key_set. reflexivity. }
  all: cbn [reported_absent fst snd]; try rewrite Hr; reflexivity.
Qed.

End UploadFacts.

Lemma prefix_iff_append (p s : string) :
  String.prefix p s = true <-> exists rest, s = (p ++ rest)%string.
Proof.
  revert s. induction p as [|c p IH]; intros s.
  - split; [intros _; now exists s|intros _; destruct s; reflexivity].
  - destruct s as [|c' s].
    + split; [discriminate|intros [rest Hr]; discriminate].
    + cbn [String.prefix append]. destruct (Ascii.ascii_dec c c') as [->|Hne].
      * rewrite IH. split; intros [rest Hr]; exists rest; congruence.
      * split; [discriminate|intros [rest Hr]; congruence].
Qed.

Lemma text_two (c : ascii) (l : list ascii) :
  l <> [] -> (2 <= String.length (text (c :: l)))%nat.
Proof.
  intros Hl. destruct l as [|c' l]; [now destruct Hl|].
  unfold text. cbn [string_of_list_ascii String.length]. lia.
Qed.

(** ** Stamped names *)

(** A digit or an underscore: what a time stamp is made of. *)
Lemma digit_char_stamp d :
  (d < 10)%nat -> stamp_char (digit_char d) = true.
Proof.
  intros Hd. do 10 (destruct d as [|d]; [reflexivity|]). lia.
Qed.

Lemma digits_rev_stamp fuel n : forallb stamp_char (digits_rev fuel n) = true.
Proof.
  revert n. induction fuel as [|fuel IH]; intros n; cbn [digits_rev forallb];
    [reflexivity|].
  rewrite digit_char_stamp by (apply Nat.mod_upper_bound; lia). cbn [andb].
  destruct (n / 10 =? 0)%nat; [reflexivity|apply IH].
Qed.

Lemma forallb_rev_stamp l : forallb stamp_char l = true -> forallb stamp_char (rev l) = true.
Proof.
  rewrite !forallb_forall. intros Hl c Hc. apply Hl. now apply in_rev.
Qed.

Lemma zero_pad_stamp width n : forallb stamp_char (chars (zero_pad width n)) = true.
Proof.
  unfold zero_pad, decimal. rewrite chars_text, forallb_app. apply andb_true_intro. split.
  - apply forallb_forall. intros c Hc. apply repeat_spec in Hc. now subst c.
  - apply forallb_rev_stamp, digits_rev_stamp.
Qed.

Lemma zero_pad_nonempty width n : zero_pad width n <> EmptyString.
Proof.
  intros E. apply (f_equal chars) in E. unfold zero_pad in E.
  rewrite chars_text in E. change (chars EmptyString) with (@nil ascii) in E.
  apply app_eq_nil in E as [_ E]. unfold decimal in E.
  cbn [digits_rev rev] in E. apply app_eq_nil in E as [_ E]. discriminate.
Qed.

Lemma strftime_stamp t : forallb stamp_char (chars (strftime_Ymd_HMS t)) = true.
Proof.
  unfold strftime_Ymd_HMS, fstring. cbn [String.concat].
  rewrite !chars_app, !forallb_app, !zero_pad_stamp. reflexivity.
Qed.

Lemma strftime_first_char t :
  exists c rest, chars (strftime_Ymd_HMS t) = c :: rest /\ stamp_char c = true.
Proof.
  pose proof (strftime_stamp t) as Hs.
  destruct (chars (strftime_Ymd_HMS t)) as [|c rest] eqn:E.
  - exfalso. unfold strftime_Ymd_HMS, fstring in E. cbn [String.concat] in E.
    rewrite chars_app in E. apply app_eq_nil in E as [E _].
    apply (zero_pad_nonempty 4 (year t)). rewrite <- (text_chars (zero_pad 4 (year t))).
    now rewrite E.
  - exists c, rest. split; [reflexivity|]. cbn [forallb] in Hs.
    now apply andb_prop in Hs.
Qed.

Lemma stamp_chars_no_slash l :
  forallb stamp_char l = true -> existsb (Ascii.eqb Posix.slash) l = false.
Proof.
  induction l as [|c l IH]; cbn [existsb forallb]; [reflexivity|].
  intros Hl. apply andb_prop in Hl as [Hc Hl]. rewrite (IH Hl), orb_false_r.
  destruct (Ascii.eqb Posix.slash c) eqn:E; [|reflexivity].
  apply Ascii.eqb_eq in E. subst c. discriminate.
Qed.

Lemma stamp_chars_no_nul l :
  forallb stamp_char l = true -> existsb (Ascii.eqb Ascii.zero) l = false.
Proof.
  induction l as [|c l IH]; cbn [existsb forallb]; [reflexivity|].
  intros Hl. apply andb_prop in Hl as [Hc Hl]. rewrite (IH Hl), orb_false_r.
  destruct (Ascii.eqb Ascii.zero c) eqn:E; [|reflexivity].
  apply Ascii.eqb_eq in E. subst c. discriminate.
Qed.

(** A path that begins with a text of two characters or more, free of
    slashes and beginning with neither a slash nor a dot, stays in the
    folder and is not the folder. *)
Lemma resolve_prefixed existing folder (c : ascii) (p x : list ascii) :
  c <> Posix.slash -> c <> "."%char -> p <> [] ->
  existsb (Ascii.eqb Posix.slash) p = false ->
  let r := Posix.resolve existing folder (text (c :: p ++ x)) in
  r <> Posix.Is_a_directory /\ r <> Posix.Elsewhere.
Proof.
  intros Hc Hd Hp Hs. cbv zeta. unfold Posix.resolve.
  destruct (Posix.has_nul _); [split; discriminate|].
  destruct (String.prefix "/" (text (c :: p ++ x))) eqn:Ep.
  { exfalso. apply prefix_iff_append in Ep as [r Er]. unfold text in Er.
    cbn [string_of_list_ascii append] in Er. injection Er as Ec _. now destruct Hc. }
  destruct (_ <=? _); [split; discriminate|].
  unfold Posix.path_parts. rewrite chars_text.
  assert (Hcs : existsb (Ascii.eqb Posix.slash) (c :: p) = false).
  { cbn [existsb]. rewrite Hs, orb_false_r. apply Ascii.eqb_neq. congruence. }
  destruct (split_chars_head Posix.slash (c :: p) x Hcs) as (seg & segs & E & _).
  change (c :: p ++ x) with ((c :: p) ++ x). rewrite E. cbn [map filter].
  rewrite kept_long.
  2: { change ((c :: p) ++ seg) with (c :: (p ++ seg)). apply text_two.
       intros En. apply app_eq_nil in En as [En _]. now destruct Hp. }
  destruct (_ <? _); [split; discriminate|].
  replace (String.eqb (text ((c :: p) ++ seg)) "..") with false.
  2: { symmetry. apply String.eqb_neq. unfold text.
       cbn [app string_of_list_ascii]. intros Er. injection Er as Ec _.
       now destruct Hd. }
  destruct (filter _ _); [split; intros Er; discriminate Er|].
  destruct (existsb (String.eqb _) existing); split; intros Er; discriminate Er.
Qed.

Lemma saved_name_chars t name :
  exists c p,
    saved_name t name = text (c :: p ++ chars name)
    /\ stamp_char c = true /\ p <> []
    /\ existsb (Ascii.eqb Posix.slash) p = false
    /\ existsb (Ascii.eqb Ascii.zero) (c :: p) = false.
Proof.
  destruct (strftime_first_char t) as (c & rest & E & Hc).
  pose proof (strftime_stamp t) as Hs. rewrite E in Hs.
  exists c, (rest ++ ["_"%char]). split; [|split; [exact Hc|split]].
  - apply chars_inj. rewrite chars_text. unfold saved_name, fstring.
    cbn [String.concat]. rewrite !chars_app, E.
    change (chars EmptyString) with (@nil ascii).
    change (chars "_") with ["_"%char]. cbn [app]. now rewrite <- app_assoc.
  - now destruct rest.
  - assert (Hall : forallb stamp_char (c :: rest ++ ["_"%char]) = true).
    { change (c :: rest ++ ["_"%char]) with ((c :: rest) ++ ["_"%char]).
      rewrite forallb_app, Hs. reflexivity. }
    split.
    + cbn [forallb] in Hall. apply andb_prop in Hall as [_ Hall].
      now apply stamp_chars_no_slash.
    + now apply stamp_chars_no_nul.
Qed.

(** The path of an upload never leaves the upload folder. *)
Lemma upload_resolution_stamped t name w :
  upload_resolution (saved_name t name) w <> Posix.Is_a_directory
  /\ upload_resolution (saved_name t name) w <> Posix.Elsewhere.
Proof.
  destruct (saved_name_chars t name) as (c & p & -> & Hc & Hp & Hs & _).
  apply resolve_prefixed; try assumption.
  - intros ->. discriminate.
  - intros ->. discriminate.
Qed.

(** So the one refusal that [exists] does not report as absent is the
    name that is too long. *)
Lemma upload_resolution_escapes t name w :
  (forall saved_as, upload_resolution (saved_name t name) w <> Posix.Entry saved_as) ->
  reported_absent (upload_resolution (saved_name t name) w) = false ->
  upload_resolution (saved_name t name) w = Posix.Too_long.
Proof.
  destruct (upload_resolution_stamped t name w) as [Hd He].
  destruct (upload_resolution _ _) as [| | | | | |k]; intros Hn Ha;
    try discriminate; try reflexivity; try congruence;
    try (now destruct (Hn k)).
Qed.


Lemma encoded_length_nonneg a : 0 <= Posix.encoded_length a.
Proof.
  unfold Posix.encoded_length.
  induction (chars a) as [|c l IH]; cbn [fold_right]; [lia|].
  destruct (_ <? _)%nat; lia.
Qed.



Section UploadClaims.
Context `{Externals}.

(** X16.  An upload with a suffix outside [.pdf], [.docx], [.doc] (case
    ignored) or with more than 10 MiB is refused with status 400 before
    anything happens: nothing is saved, the clock is not read, the
    process is as it was. *)
Theorem upload_rejections_change_nothing (file : UploadFile) (w : world) :
  allowed_extension (upload_filename file) = false
  \/ byte_size (upload_file file) > max_upload_bytes ->
  exists detail, Main.upload_protocol file w = (Raises (HTTPException 400 detail), w).
Proof.
  intros Hr. rewrite upload_protocol_run. cbv zeta.
  destruct (allowed_extension (upload_filename file)); cbn [negb].
  - destruct Hr as [Hr|Hr]; [discriminate|].
    replace (byte_size (upload_file file) >? max_upload_bytes) with true
      by (symmetry; rewrite Z.gtb_ltb; apply Z.ltb_lt; lia).
    eexists. reflexivity.
  - eexists. reflexivity.
Qed.

(** X17.  An upload that passes the two checks (a file of exactly 10 MiB
    does) reads the clock once and builds its path from the time of that
    reading and the client's name; the cache and the provider are not
    touched.  When the path leads to a name of the folder the file is
    saved under it: it stays when the text is extracted, and when
    extraction fails the answer is status 500 and nothing is left under
    that name.  When the path is turned down (a name with a slash, a NUL,
    a name too long) nothing is saved and the folder is as it was: the
    answer is status 500 with the message of the error, except that the
    error which [exists] does not take for an absent file leaves the
    endpoint as it is. *)
Theorem upload_saves_iff_extracted (file : UploadFile) (w : world) :
  NoDup (dict_keys (upload_folder w)) ->
  allowed_extension (upload_filename file) = true ->
  byte_size (upload_file file) <= max_upload_bytes ->
  let safe := saved_name (clock (clock_reads w)) (upload_filename file) in
  let r := upload_resolution safe w in
  let run := Main.upload_protocol file w in
  clock_reads (snd run) = S (clock_reads w)
  /\ analysis_cache (snd run) = analysis_cache w
  /\ model_calls (snd run) = model_calls w
  /\ (forall saved_as extracted metadata,
        r = Posix.Entry saved_as ->
        TextExtractor.extract safe (upload_file file) = Returns (extracted, metadata) ->
        fst run = Returns (upload_response file safe extracted metadata)
        /\ dict_get (upload_folder (snd run)) saved_as = Some (upload_file file))
  /\ (forall saved_as e,
        r = Posix.Entry saved_as ->
        TextExtractor.extract safe (upload_file file) = Raises e ->
        fst run
        = Raises (HTTPException 500
                    (PStr (fstring ["Error processing file: "; str_of_exn e])))
        /\ dict_get (upload_folder (snd run)) saved_as = None)
  /\ ((forall saved_as, r <> Posix.Entry saved_as) ->
      upload_folder (snd run) = upload_folder w
      /\ fst run
         = Raises
             (if reported_absent r then
                HTTPException 500
                  (PStr (fstring ["Error processing file: ";
                                  str_of_exn (Posix.refusal settings.UPLOAD_FOLDER safe r)]))
              else Posix.refusal settings.UPLOAD_FOLDER safe Posix.Too_long)).
Proof.
  intros Hn Hext Hsize. cbv zeta. rewrite upload_protocol_run. cbv zeta.
  rewrite Hext.
  replace (byte_size (upload_file file) >? max_upload_bytes) with false
    by (symmetry; rewrite Z.gtb_ltb; apply Z.ltb_ge; lia).
  cbn [negb].
  set (safe := saved_name (clock (clock_reads w)) (upload_filename file)).
  pose proof (upload_resolution_escapes (clock (clock_reads w)) (upload_filename file) w)
    as Hesc. fold safe in Hesc.
  destruct (upload_resolution safe w) as [| | | | | |saved_as] eqn:Hr.
  7: { destruct (TextExtractor.extract safe (upload_file file)) as [[t md]|e];
         cbn [fst snd]; (split; [reflexivity|split; [reflexivity|split; [reflexivity|]]]).
       - split; [|split].
         + intros k extracted metadata [= <-] [= <- <-]. split; [reflexivity|].
           unfold stored. cbn [upload_folder with_upload_folder]. apply dict_get_set_same.
         + intros k e _. discriminate.
         + intros Hno. now destruct (Hno saved_as).
       - split; [|split].
         + intros k extracted metadata _. discriminate.
         + intros k e' [= <-] [= <-]. split; [reflexivity|].
           unfold unstored, stored.
           cbn [upload_folder with_upload_folder ticked with_clock_reads].
           apply dict_remove_get_absent. now apply dict_set_NoDup.
         + intros Hno. now destruct (Hno saved_as). }
  all: cbn [fst snd]; (split; [reflexivity|split; [reflexivity|split; [reflexivity|]]]);
    (split; [intros k extracted metadata; discriminate|]);
    (split; [intros k e; discriminate|]);
    intros Hno; (split; [reflexivity|]); try reflexivity.
  all: exfalso; specialize (Hesc Hno eq_refl); discriminate.
Qed.

End UploadClaims.




Lemma upload_rejections_change_nothing_witness :
  exists detail,
    @Main.upload_protocol Fixture.quiet
       {| upload_filename := "protocol.txt"; upload_file := Samples.pdf_bytes |}
       empty_world
    = (Raises (HTTPException 400 detail), empty_world).
Proof.
  apply (@upload_rejections_change_nothing Fixture.quiet).
  left. vm_compute. reflexivity.
Defined.

Lemma upload_saves_iff_extracted_witness :
  let file := {| upload_filename := "pcr.PDF"; upload_file := Samples.pdf_bytes |} in
  let safe := "20240517_103000_pcr.PDF" in
  let run := @Main.upload_protocol Fixture.quiet file empty_world in
  clock_reads (snd run) = 1%nat
  /\ dict_get (upload_folder (snd run)) safe = Some Samples.pdf_bytes
  /\ response_field (fst run) "text_length" = Some (PInt 41).
Proof.
  cbv zeta.
  destruct (@upload_saves_iff_extracted Fixture.quiet
              {| upload_filename := "pcr.PDF"; upload_file := Samples.pdf_bytes |}
              empty_world)
    as (Hclock & _ & _ & Hok & _).
  - constructor.
  - vm_compute. reflexivity.
  - vm_compute. discriminate.
  - split; [exact Hclock|].
    destruct (Hok "20240517_103000_pcr.PDF"
                (join newline (TextExtractor.pdf_text_parts 1 ["Mix"; "  "; "Run"]))
                [("file_type", PStr "pdf"); ("pages", PInt 3);
                 ("extraction_method", PStr "pypdf")]) as [Hr Hs].
    + vm_compute. reflexivity.
    + vm_compute. reflexivity.
    + split; [exact Hs|]. rewrite Hr. vm_compute. reflexivity.
Defined.


(** A name with a folder in front is not saved: the folder does not
    exist.  A trailing slash is dropped, and the file saved. *)
Example upload_into_a_missing_folder :
  let file := {| upload_filename := "sub/pcr.pdf"; upload_file := Samples.pdf_bytes |} in
  @Main.upload_protocol Samples.quoting file empty_world
  = (Raises
       (HTTPException 500
          (PStr "Error processing file: [Errno 2] No such file or directory: '../uploads/20240517_103000_sub/pcr.pdf'")),
     ticked empty_world).
Proof. vm_compute. reflexivity. Qed.

Example upload_with_trailing_slash :
  let file := {| upload_filename := "pcr.pdf/"; upload_file := Samples.pdf_bytes |} in
  let run := @Main.upload_protocol Samples.quoting file empty_world in
  response_field (fst run) "filename" = Some (PStr "20240517_103000_pcr.pdf/")
  /\ dict_keys (upload_folder (snd run)) = ["20240517_103000_pcr.pdf"].
Proof. vm_compute. split; reflexivity. Qed.

Lemma fstring_nonempty a b rest : fstring (a :: String b EmptyString :: rest) <> EmptyString.
Proof.
  unfold fstring. simpl. destruct a; destruct rest; simpl; discriminate.
Qed.

Lemma make_analysis_id_nonempty saved t : Main.make_analysis_id saved t <> EmptyString.
Proof. unfold Main.make_analysis_id. apply fstring_nonempty. Qed.

Section AnalyzeEndpoint.
Context `{Externals}.

Lemma upload_response_success file safe extracted metadata :
  truthy (dict_get_default (upload_response file safe extracted metadata) "success" PNone)
  = true.
Proof. reflexivity. Qed.

Lemma upload_response_filename file safe extracted metadata :
  Main.str_item (upload_response file safe extracted metadata) "filename" = safe.
Proof. reflexivity. Qed.

Lemma upload_response_original file safe extracted metadata :
  Main.str_item (upload_response file safe extracted metadata) "original_filename"
  = upload_filename file.
Proof. reflexivity. Qed.

(** What the upload does once its two checks are passed. *)
Lemma upload_protocol_checked file w :
  let safe := saved_name (clock (clock_reads w)) (upload_filename file) in
  allowed_extension (upload_filename file) = true ->
  byte_size (upload_file file) <= max_upload_bytes ->
  Main.upload_protocol file w
  = match upload_resolution safe w with
    | Posix.Entry saved_as =>
        match TextExtractor.extract safe (upload_file file) with
        | Returns (extracted, metadata) =>
            (Returns (upload_response file safe extracted metadata),
             stored saved_as (upload_file file) (ticked w))
        | Raises e =>
            (Raises (HTTPException 500
                       (PStr (fstring ["Error processing file: "; str_of_exn e]))),
             unstored saved_as (stored saved_as (upload_file file) (ticked w)))
        end
    | r =>
        (Raises
           (if reported_absent r then
              HTTPException 500
                (PStr (fstring ["Error processing file: ";
                                str_of_exn (Posix.refusal settings.UPLOAD_FOLDER safe r)]))
            else Posix.refusal settings.UPLOAD_FOLDER safe r),
         ticked w)
    end.
Proof.
  intros safe Hext Hsize. rewrite upload_protocol_run. cbv zeta. rewrite Hext.
  replace (byte_size (upload_file file) >? max_upload_bytes) with false
    by (symmetry; rewrite Z.gtb_ltb; apply Z.ltb_ge; lia).
  reflexivity.
Qed.

(** The analyze endpoint once the upload went through. *)
Lemma analyze_endpoint_run file w saved_as extracted metadata :
  let name := upload_filename file in
  let safe := saved_name (clock (clock_reads w)) name in
  let w1 := stored saved_as (upload_file file) (ticked w) in
  let w2 := called (analysis_request extracted name) w1 in
  allowed_extension name = true ->
  byte_size (upload_file file) <= max_upload_bytes ->
  upload_resolution safe w = Posix.Entry saved_as ->
  TextExtractor.extract safe (upload_file file) = Returns (extracted, metadata) ->
  exists d,
    ProtocolAnalyzer.analyze_protocol extracted name w1 = (Returns d, w2)
    /\ has_suggestion_list d
    /\ Main.analyze_protocol file w
       = if error_flag d then
           (Raises (HTTPException 500
                      (dict_get_default d "message" (PStr "Analysis failed"))), w2)
         else
           let id := Main.make_analysis_id safe (clock (clock_reads w2)) in
           (Returns (analyze_response id name d),
            cached id (analysis_entry extracted name d (clock (S (clock_reads w2))))
              (ticked (ticked w2))).
Proof.
  intros name safe w1 w2 Hext Hsize Hr Hex.
  destruct (analyze_protocol_answer extracted name w1) as (d & Hrun & Hlist & _).
  exists d. split; [exact Hrun|]. split; [exact Hlist|].
  unfold Main.analyze_protocol. unfold bind at 1.
  rewrite (upload_protocol_checked file w Hext Hsize). fold name. fold safe.
  rewrite Hr, Hex.
  rewrite upload_response_success, upload_response_filename, upload_response_original.
  cbn [negb]. fold name. fold w1.
  unfold Main.extract_saved, Main.read_upload.
  unfold try_except, bind, get_world, lift.
  cbv beta.
  replace (Posix.resolve (dict_keys (upload_folder w1)) settings.UPLOAD_FOLDER safe)
    with (Posix.Entry saved_as)
    by (symmetry; exact (resolve_entry_existing _ _ _ _ _ Hr)).
  replace (dict_get (upload_folder w1) saved_as) with (Some (upload_file file))
    by (symmetry; unfold w1, stored; cbn [upload_folder with_upload_folder];
        apply dict_get_set_same).
  rewrite Hex. cbn [fst]. rewrite Hrun. unfold error_flag.
  destruct (truthy (dict_get_default d "error" PNone)); reflexivity.
Qed.

Lemma analyze_endpoint_upload_failed file w e w' :
  Main.upload_protocol file w = (Raises e, w') ->
  Main.analyze_protocol file w = (Raises e, w').
Proof. intros Hu. unfold Main.analyze_protocol, bind. now rewrite Hu. Qed.

(** The three ways [/api/analyze] ends. *)
Lemma analyze_endpoint_cases file w :
  let name := upload_filename file in
  let safe := saved_name (clock (clock_reads w)) name in
  let run := Main.analyze_protocol file w in
  (exists status_code detail,
      fst run = Raises (HTTPException status_code detail)
      /\ analysis_cache (snd run) = analysis_cache w
      /\ output_folder (snd run) = output_folder w)
  \/ (upload_resolution safe w = Posix.Too_long
      /\ fst run = Raises (Posix.refusal settings.UPLOAD_FOLDER safe Posix.Too_long)
      /\ analysis_cache (snd run) = analysis_cache w
      /\ output_folder (snd run) = output_folder w)
  \/ (exists saved_as extracted metadata d id t,
        upload_resolution safe w = Posix.Entry saved_as
        /\ TextExtractor.extract safe (upload_file file) = Returns (extracted, metadata)
        /\ has_text extracted
        /\ has_suggestion_list d /\ error_flag d = false
        /\ id <> EmptyString
        /\ fst run = Returns (analyze_response id name d)
        /\ analysis_cache (snd run)
           = dict_set (analysis_cache w) id (analysis_entry extracted name d t)
        /\ model_calls (snd run) = model_calls w ++ [analysis_request extracted name]
        /\ clock_reads (snd run) = S (S (S (clock_reads w)))
        /\ output_folder (snd run) = output_folder w).
Proof.
  cbv zeta.
  set (safe := saved_name (clock (clock_reads w)) (upload_filename file)).
  destruct (allowed_extension (upload_filename file)) eqn:Hext.
  2: { left. erewrite analyze_endpoint_upload_failed
         by (rewrite upload_protocol_run; cbv zeta; rewrite Hext; reflexivity).
       eexists; eexists. repeat split. }
  destruct (byte_size (upload_file file) >? max_upload_bytes) eqn:Hsize.
  { left. erewrite analyze_endpoint_upload_failed
      by (rewrite upload_protocol_run; cbv zeta; rewrite Hext, Hsize; reflexivity).
    eexists; eexists. repeat split. }
  rewrite Z.gtb_ltb in Hsize. apply Z.ltb_ge in Hsize.
  pose proof (upload_protocol_checked file w Hext Hsize) as Hup. cbv zeta in Hup.
  fold safe in Hup.
  pose proof (upload_resolution_escapes (clock (clock_reads w)) (upload_filename file) w)
    as Hesc. fold safe in Hesc.
  destruct (upload_resolution safe w) as [| | | | | |saved_as] eqn:Hr.
  7: { destruct (TextExtractor.extract safe (upload_file file)) as [[t md]|e] eqn:Hex.
       - destruct (analyze_endpoint_run file w saved_as t md Hext Hsize Hr Hex)
           as (d & _ & Hlist & ->).
         destruct (error_flag d) eqn:Herr.
         + left. cbn [fst snd]. eexists; eexists. repeat split.
         + right. right. pose proof (extract_result safe (upload_file file)) as Ht.
           rewrite Hex in Ht. cbv zeta. cbn [fst snd].
           exists saved_as, t, md, d. eexists. eexists.
           split; [reflexivity|]. split; [reflexivity|].
           split; [exact Ht|]. split; [exact Hlist|]. split; [exact Herr|].
           split; [apply make_analysis_id_nonempty|]. repeat split.
       - left. rewrite (analyze_endpoint_upload_failed _ _ _ _ Hup).
         eexists; eexists. repeat split. }
  all: try (left; rewrite (analyze_endpoint_upload_failed _ _ _ _ Hup);
            eexists; eexists; repeat split; fail).
  all: right; left; rewrite (analyze_endpoint_upload_failed _ _ _ _ Hup);
    (assert (Hno : forall k, Posix.resolve (dict_keys (upload_folder w))
                                settings.UPLOAD_FOLDER safe <> Posix.Entry k)
       by (intros k; fold (upload_resolution safe w); rewrite Hr; discriminate));
    try (specialize (Hesc ltac:(intros k; discriminate) eq_refl); discriminate);
    repeat split.
Qed.

End AnalyzeEndpoint.

Section AnalyzeClaims.
Context `{Externals}.

(** X18.  [/api/analyze] ends in one of two ways.  It raises, and leaves
    the cache as it was: an [HTTPException], or, for a name too long for
    the file system, the [OSError] of the clean-up after the failed save,
    which no handler turns into a response.  Or it answers with an id that
    is not empty and has put under that id one entry: the extracted text
    (which has a visible character), the upload's name, and an analysis
    without error flag whose suggestion list is the one in the answer.  On
    that path the provider was called once, with the prompt for that text,
    and the clock was read three times. *)
Theorem analyze_endpoint_outcome (file : UploadFile) (w : world) :
  let safe := saved_name (clock (clock_reads w)) (upload_filename file) in
  let run := Main.analyze_protocol file w in
  match fst run with
  | Raises e =>
      (is_http e
       \/ (upload_resolution safe w = Posix.Too_long
           /\ e = Posix.refusal settings.UPLOAD_FOLDER safe Posix.Too_long))
      /\ analysis_cache (snd run) = analysis_cache w
  | Returns d =>
      exists id entry,
        dict_get d "analysis_id" = Some (PStr id) /\ id <> EmptyString
        /\ analysis_cache (snd run) = dict_set (analysis_cache w) id entry
        /\ entry_ok entry
        /\ has_text (original_text entry)
        /\ filename entry = upload_filename file
        /\ dict_get d "suggestions" = dict_get (analysis entry) "suggestions"
        /\ model_calls (snd run)
           = model_calls w
             ++ [analysis_request (original_text entry) (upload_filename file)]
        /\ clock_reads (snd run) = S (S (S (clock_reads w)))
  end.
Proof.
  cbv zeta.
  destruct (analyze_endpoint_cases file w)
    as [(status_code & detail & -> & Hc & _)
       |[(Hr & -> & Hc & _)
        |(k & t & md & d & id & ts & _ & _ & Ht & Hl & He & Hid & -> & Hc & Hm & Hk & _)]].
  - split; [left; now exists status_code, detail|exact Hc].
  - split; [right; split; [exact Hr|reflexivity]|exact Hc].
  - exists id, (analysis_entry t (upload_filename file) d ts).
    split; [reflexivity|]. split; [exact Hid|]. split; [exact Hc|].
    split; [split; assumption|]. split; [exact Ht|]. split; [reflexivity|].
    split; [|split; assumption].
    destruct Hl as [l Hl]. cbn [analysis analysis_entry].
    unfold analyze_response, dict_get_default. rewrite Hl. reflexivity.
Qed.

(** X19.  Round trip: the id [/api/analyze] answers with is accepted by
    [/api/improve] at once.  With no index accepted (an empty list, or
    none sent) the improve endpoint gives back the very text the extractor
    returned for the upload, says that nothing was applied, and changes
    nothing. *)
Theorem analyze_then_improve (file : UploadFile) (w : world) (d : dict) (id : string)
  (accepted : option (list Z)) :
  fst (Main.analyze_protocol file w) = Returns d ->
  dict_get d "analysis_id" = Some (PStr id) ->
  accepted = None \/ accepted = Some [] ->
  let safe := saved_name (clock (clock_reads w)) (upload_filename file) in
  let after := snd (Main.analyze_protocol file w) in
  exists extracted metadata,
    TextExtractor.extract safe (upload_file file) = Returns (extracted, metadata)
    /\ Main.generate_improved_protocol
         {| Main.analysis_id := Some id; Main.accepted_indices := accepted |} after
       = (Returns (nothing_applied_response extracted), after).
Proof.
  intros Hd Hid Hacc. cbv zeta.
  destruct (analyze_endpoint_cases file w)
    as [(status_code & detail & Hr & _)
       |[(_ & Hr & _)
        |(k & t & md & d0 & id0 & ts & _ & Hex & _ & Hl & _ & Hne & Hr & Hc & _)]];
    rewrite Hr in Hd; try discriminate.
  injection Hd as <-. injection Hid as <-.
  exists t, md. split; [exact Hex|].
  destruct Hl as [l Hl].
  unfold Main.generate_improved_protocol. cbn [Main.analysis_id Main.accepted_indices].
  apply String.eqb_neq in Hne. rewrite Hne.
  unfold bind, get_world, lift. rewrite Hc, dict_get_set_same.
  unfold Main.cached_suggestions, dict_getitem. cbn [analysis analysis_entry].
  rewrite Hl. cbn [rbind].
  destruct Hacc as [-> | ->]; reflexivity.
Qed.

(** X20.  When the upload went through (it was saved, and its text
    extracted) and the analyzer, run on that text in the state the upload
    left, answers with an error flag (the provider failed, or its reply
    could not be decoded), [/api/analyze] raises status 500 with the
    analyzer's message.  Nothing is cached, and the upload stays in the
    upload folder: only a failed extraction removes it. *)
Theorem analyze_failure_keeps_upload (file : UploadFile) (w : world)
  (saved_as extracted : string) (metadata upload_result d : dict) :
  let name := upload_filename file in
  let safe := saved_name (clock (clock_reads w)) name in
  fst (Main.upload_protocol file w) = Returns upload_result ->
  upload_resolution safe w = Posix.Entry saved_as ->
  TextExtractor.extract safe (upload_file file) = Returns (extracted, metadata) ->
  fst (ProtocolAnalyzer.analyze_protocol extracted name
         (snd (Main.upload_protocol file w))) = Returns d ->
  error_flag d = true ->
  let run := Main.analyze_protocol file w in
  fst run
  = Raises (HTTPException 500 (dict_get_default d "message" (PStr "Analysis failed")))
  /\ analysis_cache (snd run) = analysis_cache w
  /\ dict_get (upload_folder (snd run)) saved_as = Some (upload_file file).
Proof.
  intros name safe Hup Hr Hex Hd Herr. cbv zeta.
  assert (Hext : allowed_extension name = true).
  { destruct (allowed_extension name) eqn:E; [reflexivity|].
    rewrite upload_protocol_run in Hup. cbv zeta in Hup. fold name in Hup.
    rewrite E in Hup. discriminate. }
  assert (Hsize : byte_size (upload_file file) <= max_upload_bytes).
  { destruct (byte_size (upload_file file) >? max_upload_bytes) eqn:E.
    - rewrite upload_protocol_run in Hup. cbv zeta in Hup. fold name in Hup.
      rewrite Hext, E in Hup. discriminate.
    - rewrite Z.gtb_ltb in E. now apply Z.ltb_ge in E. }
  rewrite (upload_protocol_checked file w Hext Hsize) in Hd. fold name safe in Hd.
  rewrite Hr, Hex in Hd. cbn [snd] in Hd.
  destruct (analyze_endpoint_run file w saved_as extracted metadata Hext Hsize Hr Hex)
    as (d0 & Hrun & _ & ->).
  fold name in Hrun. fold safe in Hrun. rewrite Hrun in Hd. injection Hd as ->.
  rewrite Herr. cbn [fst snd]. split; [reflexivity|]. split; [reflexivity|].
  unfold called, stored. cbn [upload_folder with_model_calls with_upload_folder].
  apply dict_get_set_same.
Qed.

End AnalyzeClaims.

Lemma analyze_then_improve_witness :
  let E := Fixture.answering Fixture.raw_low_high_medium in
  let file := {| upload_filename := "pcr.pdf"; upload_file := Samples.pdf_bytes |} in
  let after := snd (@Main.analyze_protocol E file empty_world) in
  exists extracted metadata,
    TextExtractor.extract "20240517_103000_pcr.pdf" Samples.pdf_bytes
    = Returns (extracted, metadata)
    /\ @Main.generate_improved_protocol E
         {| Main.analysis_id := Some "20240517_103000_pcr.pdf_20240517103000";
            Main.accepted_indices := None |} after
       = (Returns (nothing_applied_response extracted), after).
Proof.
  cbv zeta.
  apply (@analyze_then_improve (Fixture.answering Fixture.raw_low_high_medium)
           {| upload_filename := "pcr.pdf"; upload_file := Samples.pdf_bytes |}
           empty_world
           (match fst (@Main.analyze_protocol
                         (Fixture.answering Fixture.raw_low_high_medium)
                         {| upload_filename := "pcr.pdf";
                            upload_file := Samples.pdf_bytes |} empty_world) with
            | Returns d => d
            | Raises _ => []
            end)).
  - vm_compute. reflexivity.
  - vm_compute. reflexivity.
  - now left.
Defined.

Lemma analyze_failure_keeps_upload_witness :
  let file := {| upload_filename := "pcr.pdf"; upload_file := Samples.pdf_bytes |} in
  let run := @Main.analyze_protocol Fixture.quiet file empty_world in
  fst run
  = Raises (HTTPException 500 (PStr "Analysis failed: Connection error."))
  /\ analysis_cache (snd run) = []
  /\ dict_get (upload_folder (snd run)) "20240517_103000_pcr.pdf"
     = Some Samples.pdf_bytes.
Proof.
  cbv zeta.
  apply (@analyze_failure_keeps_upload Fixture.quiet
           {| upload_filename := "pcr.pdf"; upload_file := Samples.pdf_bytes |}
           empty_world "20240517_103000_pcr.pdf"
           (join newline (TextExtractor.pdf_text_parts 1 ["Mix"; "  "; "Run"]))
           [("file_type", PStr "pdf"); ("pages", PInt 3);
            ("extraction_method", PStr "pypdf")]
           (match fst (@Main.upload_protocol Fixture.quiet
                         {| upload_filename := "pcr.pdf";
                            upload_file := Samples.pdf_bytes |} empty_world) with
            | Returns d => d
            | Raises _ => []
            end)
           (analysis_failed (Exn APIError "Connection error."))).
  - vm_compute. reflexivity.
  - vm_compute. reflexivity.
  - vm_compute. reflexivity.
  - vm_compute. reflexivity.
  - vm_compute. reflexivity.
Defined.

(** A name of 300 bytes: the save fails, the clean-up raises, and the
    error leaves both endpoints as it is.  With a folder in front of the
    name the analysis ends with status 500 and nothing is sent to the
    provider. *)
Example analyze_name_too_long :
  let name := (text (repeat "a"%char 296) ++ ".pdf")%string in
  let file := {| upload_filename := name; upload_file := Samples.pdf_bytes |} in
  let run := @Main.analyze_protocol Samples.quoting file empty_world in
  fst run
  = Raises (Exn OSError
              (fstring ["[Errno 36] File name too long: '../uploads/20240517_103000_";
                        name; "'"]))
  /\ fst (@Main.upload_protocol Samples.quoting file empty_world) = fst run
  /\ upload_folder (snd run) = [].
Proof. vm_compute. repeat split. Qed.

Example analyze_into_a_missing_folder :
  let file := {| upload_filename := "sub/pcr.pdf"; upload_file := Samples.pdf_bytes |} in
  let run := @Main.analyze_protocol Samples.quoting file empty_world in
  fst run
  = Raises
      (HTTPException 500
         (PStr "Error processing file: [Errno 2] No such file or directory: '../uploads/20240517_103000_sub/pcr.pdf'"))
  /\ model_calls (snd run) = [] /\ upload_folder (snd run) = [].
Proof. vm_compute. repeat split. Qed.

(** The path of a revision leads to a name of the output folder only
    when it has no slash, and then to the name itself. *)
Lemma output_name_chars original_filename t :
  output_name original_filename t
  = text (chars "improved_"
          ++ (chars original_filename ++ "_"%char :: chars (strftime_Ymd_HMS t))
          ++ chars ".txt").
Proof.
  apply chars_inj. rewrite chars_text. unfold output_name, fstring.
  cbn [String.concat]. rewrite !chars_app.
  change (chars EmptyString) with (@nil ascii). change (chars "_") with ["_"%char].
  cbn [app]. now rewrite <- !app_assoc.
Qed.

Lemma output_name_entry original_filename t existing saved_as :
  Posix.resolve existing settings.OUTPUT_FOLDER (output_name original_filename t)
  = Posix.Entry saved_as ->
  Posix.has_slash (output_name original_filename t) = false
  /\ saved_as = output_name original_filename t.
Proof.
  intros Hr. apply resolve_entry_parts in Hr. rewrite output_name_chars in *.
  apply single_part_no_slash; try reflexivity; try assumption.
  intros y. apply kept_long. rewrite length_text, length_app.
  change (List.length (chars ".txt")) with 4%nat. lia.
Qed.

Lemma output_name_nonempty original_filename t :
  String.eqb (output_name original_filename t) EmptyString = false.
Proof.
  apply String.eqb_neq. intros E. apply (f_equal String.length) in E.
  rewrite output_name_chars, length_text, length_app in E.
  change (List.length (chars "improved_")) with 9%nat in E. cbn [String.length] in E.
  lia.
Qed.

Section ImproveEndpoint.
Context `{Externals}.

Lemma generate_improved_protocol_unrenderable original accepted w :
  forallb renderable accepted = false ->
  exists e, ProtocolAnalyzer.generate_improved_protocol original accepted w = (Raises e, w).
Proof.
  intros Hl. destruct accepted as [|x accepted]; [discriminate|].
  destruct (suggestion_lines_unrenderable _ Hl) as (e & msg & Hm & _).
  exists e. unfold ProtocolAnalyzer.generate_improved_protocol, bind, lift.
  now rewrite Hm.
Qed.

(** The revision leaves cache, folders and clock alone. *)
Lemma generate_improved_protocol_frame original accepted w :
  let w' := snd (ProtocolAnalyzer.generate_improved_protocol original accepted w) in
  analysis_cache w' = analysis_cache w /\ upload_folder w' = upload_folder w
  /\ output_folder w' = output_folder w /\ clock_reads w' = clock_reads w.
Proof.
  cbv zeta. destruct (forallb renderable accepted) eqn:Hl.
  - destruct accepted as [|x accepted]; [repeat split|].
    rewrite (generate_improved_protocol_run original x accepted w Hl).
    destruct (messages_create _) as [resp|e]; [destruct (content resp)|]; repeat split.
  - destruct (generate_improved_protocol_unrenderable original accepted w Hl) as [e ->].
    repeat split.
Qed.

(** The three ways [/api/improve] ends: without a trace; with a revision
    that could not be written; with a revision written to the output
    folder. *)
Lemma improve_endpoint_cases body w :
  let run := Main.generate_improved_protocol body w in
  (snd run = w
   /\ forall d, fst run = Returns d -> dict_get d "output_filename" = None)
  \/ (exists detail w1,
        run = (Raises (HTTPException 500 detail), ticked w1)
        /\ analysis_cache w1 = analysis_cache w
        /\ upload_folder w1 = upload_folder w
        /\ output_folder w1 = output_folder w
        /\ clock_reads w1 = clock_reads w)
  \/ (exists improved name applied w1,
        run = (Returns (improve_response improved name applied),
               written name improved (ticked w1))
        /\ Posix.has_slash name = false
        /\ String.eqb name EmptyString = false
        /\ output_resolution name w = Posix.Entry name
        /\ analysis_cache w1 = analysis_cache w
        /\ upload_folder w1 = upload_folder w
        /\ output_folder w1 = output_folder w
        /\ clock_reads w1 = clock_reads w).
Proof.
  cbv zeta. unfold Main.generate_improved_protocol.
  destruct (Main.analysis_id body) as [id|];
    [destruct (String.eqb id EmptyString)|];
    try (left; split; [reflexivity|intros d; discriminate]).
  unfold Main.http_error, bind, get_world, lift, raise, ret. cbv beta.
  destruct (dict_get (analysis_cache w) id) as [cached|];
    [|left; split; [reflexivity|intros d; discriminate]].
  destruct (Main.cached_suggestions cached) as [all_suggestions|e];
    [|left; split; [reflexivity|intros d; discriminate]].
  destruct (Main.select_accepted all_suggestions _) as [[|x accepted]|e].
  - left. split; [reflexivity|]. intros d [= <-]. reflexivity.
  - unfold try_except, now, Main.write_output.
    unfold bind, get_world, lift, modify. cbv beta.
    pose proof (generate_improved_protocol_frame (original_text cached) (x :: accepted) w)
      as Hf. cbv zeta in Hf.
    destruct (ProtocolAnalyzer.generate_improved_protocol (original_text cached)
                (x :: accepted) w) as [[improved|e] w1] eqn:Hg.
    + cbn [snd] in Hf. destruct Hf as (Hc & Hu & Ho & Hk).
      fold (output_name (filename cached) (clock (clock_reads w1))).
      set (name := output_name (filename cached) (clock (clock_reads w1))).
      fold (ticked w1). unfold Posix.create.
      change (output_folder (ticked w1)) with (output_folder w1).
      destruct (Posix.resolve (dict_keys (output_folder w1)) settings.OUTPUT_FOLDER name)
        as [| | | | | |saved_as] eqn:Hr.
      7: { destruct (output_name_entry _ _ _ _ Hr) as [Hs ->]. fold name.
           right. right. exists improved, name, (List.length (x :: accepted)), w1.
           split; [reflexivity|]. split; [exact Hs|].
           split; [apply output_name_nonempty|].
           split; [unfold output_resolution; rewrite <- Ho; exact Hr|].
           repeat split; assumption. }
      all: right; left; eexists; exists w1; split; [reflexivity|];
        repeat split; assumption.
    + left. destruct (forallb renderable (x :: accepted)) eqn:Hl.
      * rewrite (generate_improved_protocol_run _ x accepted w Hl) in Hg.
        destruct (messages_create _) as [resp|e']; [destruct (content resp)|];
          discriminate.
      * destruct (generate_improved_protocol_unrenderable (original_text cached)
                    (x :: accepted) w Hl) as [e' He'].
        rewrite He' in Hg. injection Hg as _ <-.
        split; [reflexivity|intros d; discriminate].
  - left. split; [reflexivity|intros d; discriminate].
Qed.

End ImproveEndpoint.

Section ImproveClaims.
Context `{Externals}.

(** X21.  [/api/improve] refuses a request without an id, or with the
    empty id, with status 400, and an id that is not in the cache with
    status 404; either way nothing has happened. *)
Theorem improve_rejects_unknown_ids (body : Main.improve_request) (w : world) :
  (Main.analysis_id body = None \/ Main.analysis_id body = Some EmptyString ->
   Main.generate_improved_protocol body w
   = (Raises (HTTPException 400 (PStr "analysis_id is required")), w))
  /\ (forall id,
        Main.analysis_id body = Some id -> id <> EmptyString ->
        dict_get (analysis_cache w) id = None ->
        Main.generate_improved_protocol body w
        = (Raises (HTTPException 404
                     (PStr "Analysis not found. Please analyze the protocol again.")),
           w)).
Proof.
  split.
  - intros [Hid|Hid]; unfold Main.generate_improved_protocol; rewrite Hid; reflexivity.
  - intros id Hid Hne Hc. unfold Main.generate_improved_protocol. rewrite Hid.
    apply String.eqb_neq in Hne. rewrite Hne.
    unfold bind, get_world. now rewrite Hc.
Qed.

(** X22.  [/api/improve] never changes the cache or the upload folder,
    and reads the clock once at most.  It changes the output folder only
    when it answers with an [output_filename], and then it has read the
    clock and written exactly the text it answers with, under that name,
    which has no slash.  When the revision cannot be written the clock has
    been read all the same and the answer is status 500. *)
Theorem improve_writes_only_its_output (body : Main.improve_request) (w : world) :
  let run := Main.generate_improved_protocol body w in
  analysis_cache (snd run) = analysis_cache w
  /\ upload_folder (snd run) = upload_folder w
  /\ ((output_folder (snd run) = output_folder w
       /\ response_field (fst run) "output_filename" = None
       /\ (clock_reads (snd run) = clock_reads w
           \/ (clock_reads (snd run) = S (clock_reads w)
               /\ exists detail, fst run = Raises (HTTPException 500 detail))))
      \/ exists name improved,
           response_field (fst run) "output_filename" = Some (PStr name)
           /\ response_field (fst run) "improved_protocol" = Some (PStr improved)
           /\ Posix.has_slash name = false
           /\ output_folder (snd run) = dict_set (output_folder w) name improved
           /\ clock_reads (snd run) = S (clock_reads w)).
Proof.
  cbv zeta.
  destruct (improve_endpoint_cases body w)
    as [[Hw Hd]
       |[(detail & w1 & -> & Hc & Hu & Ho & Hk)
        |(improved & name & n & w1 & -> & Hs & _ & _ & Hc & Hu & Ho & Hk)]].
  - rewrite Hw. split; [reflexivity|]. split; [reflexivity|]. left.
    split; [reflexivity|]. split; [|now left].
    destruct (fst (Main.generate_improved_protocol body w)) as [d|e];
      [now apply Hd|reflexivity].
  - cbn [fst snd]. split; [exact Hc|]. split; [exact Hu|]. left.
    split; [exact Ho|]. split; [reflexivity|]. right.
    split; [cbn [ticked clock_reads with_clock_reads]; now rewrite Hk|].
    now exists detail.
  - cbn [fst snd]. split; [exact Hc|]. split; [exact Hu|]. right.
    exists name, improved. split; [reflexivity|]. split; [reflexivity|].
    split; [exact Hs|]. unfold written, ticked.
    cbn [output_folder clock_reads with_output_folder with_clock_reads].
    now rewrite Ho, Hk.
Qed.

(** X23.  Round trip: the [output_filename] that [/api/improve] answers
    with is served by [/api/download], which returns the very text of
    [improved_protocol] and changes nothing. *)
Theorem improve_then_download (body : Main.improve_request) (w : world) (d : dict)
  (name : string) :
  fst (Main.generate_improved_protocol body w) = Returns d ->
  dict_get d "output_filename" = Some (PStr name) ->
  let after := snd (Main.generate_improved_protocol body w) in
  exists improved,
    dict_get d "improved_protocol" = Some (PStr improved)
    /\ Main.download_file name after = (Returns improved, after).
Proof.
  intros Hd Hn. cbv zeta.
  destruct (improve_endpoint_cases body w)
    as [[_ Hnone]
       |[(detail & w1 & Hrun & _)
        |(improved & name' & n & w1 & Hrun & Hs & He & Hr & _)]].
  - rewrite (Hnone d Hd) in Hn. discriminate.
  - rewrite Hrun in Hd. discriminate.
  - rewrite Hrun in Hd |- *. cbn [fst snd] in Hd |- *. injection Hd as <-.
    injection Hn as <-. exists improved. split; [reflexivity|].
    unfold Main.download_file. rewrite He, Hs. cbn [orb].
    unfold bind, get_world, lift, Posix.path_exists. cbv zeta beta.
    unfold written. cbn [output_folder with_output_folder].
    rewrite (resolve_entry_existing _
               (dict_keys (dict_set (output_folder (ticked w1)) name' improved))
               _ _ _ Hr).
    rewrite existsb_key_set. cbn [negb]. now rewrite dict_get_set_same.
Qed.

End ImproveClaims.

Lemma improve_then_download_witness :
  let E := Fixture.answering "Improved text" in
  let after :=
    snd (@Main.generate_improved_protocol E (Fixture.improve_with [0])
           Fixture.world_with_analysis) in
  exists improved,
    response_field
      (fst (@Main.generate_improved_protocol E (Fixture.improve_with [0])
              Fixture.world_with_analysis)) "improved_protocol"
    = Some (PStr improved)
    /\ @Main.download_file E "improved_pcr.pdf_20240517_103000.txt" after
       = (Returns improved, after).
Proof.
  cbv zeta.
  apply (@improve_then_download (Fixture.answering "Improved text")
           (Fixture.improve_with [0]) Fixture.world_with_analysis
           (match fst (@Main.generate_improved_protocol
                         (Fixture.answering "Improved text")
                         (Fixture.improve_with [0]) Fixture.world_with_analysis) with
            | Returns d => d
            | Raises _ => []
            end)).
  - vm_compute. reflexivity.
  - vm_compute. reflexivity.
Defined.

(** A cached name with a slash, as the upload of [pcr.pdf/] leaves it: the
    revision is made, the clock is read, and the file cannot be written. *)
Example improve_cannot_write :
  let cached :=
    {| original_text := "1. Mix all reagents";
       analysis := analysis Fixture.cached_analysis;
       filename := "pcr.pdf/"; timestamp := "2024-05-17T10:29:00" |} in
  let run :=
    @Main.generate_improved_protocol
      (Fixture.externals (Fixture.provider_replies "Improved text")
         Fixture.clock_within_one_second)
      (Fixture.improve_with [0]) (with_analysis_cache [("a1", cached)] empty_world) in
  exists detail,
    fst run = Raises (HTTPException 500 detail)
    /\ clock_reads (snd run) = 1%nat
    /\ List.length (model_calls (snd run)) = 1%nat
    /\ output_folder (snd run) = [].
Proof. eexists. vm_compute. repeat split. Qed.

Section CacheSteps.
Context `{Externals}.

Lemma health_check_keeps_cache : keeps_cache Main.health_check.
Proof.
  intros w.
  unfold Main.health_check, ProtocolAnalyzer.quick_check, bind, try_except,
    client_messages_create, print, modify, now, ret.
  destruct (messages_create _) as [r|e]; reflexivity.
Qed.

Lemma upload_protocol_keeps_cache file : keeps_cache (Main.upload_protocol file).
Proof.
  intros w. rewrite upload_protocol_run. cbv zeta.
  destruct (negb _); [reflexivity|].
  destruct (_ >? _); [reflexivity|].
  destruct (upload_resolution _ _); try reflexivity.
  destruct (TextExtractor.extract _ _) as [[t md]|e]; reflexivity.
Qed.

Lemma improve_keeps_cache body : keeps_cache (Main.generate_improved_protocol body).
Proof.
  intros w.
  destruct (improve_endpoint_cases body w)
    as [[-> _]
       |[(detail & w1 & -> & Hc & _)
        |(improved & name & n & w1 & -> & _ & _ & _ & Hc & _)]];
    [reflexivity|exact Hc|exact Hc].
Qed.

Lemma download_file_keeps_world name w : snd (Main.download_file name w) = w.
Proof.
  unfold Main.download_file, Main.http_error.
  destruct (_ || _); [reflexivity|].
  unfold bind, get_world, lift. cbv zeta beta.
  destruct (Posix.path_exists _ _ _) as [[|]|e]; try reflexivity.
  cbn [negb]. destruct (Posix.resolve _ _ _); try reflexivity.
  destruct (dict_get _ _); reflexivity.
Qed.

Lemma analyze_cache_step file w :
  cache_step (analysis_cache w) (analysis_cache (snd (Main.analyze_protocol file w))).
Proof.
  destruct (analyze_endpoint_cases file w)
    as [(status_code & detail & _ & Hc & _)
       |[(_ & _ & Hc & _)
        |(k & t & md & d & id & ts & _ & _ & _ & Hl & He & _ & _ & Hc & _)]].
  - left. exact Hc.
  - left. exact Hc.
  - right. exists id, (analysis_entry t (upload_filename file) d ts).
    split; [exact Hc|]. split; assumption.
Qed.

(** X24.  Of the seven endpoints only [/api/analyze] writes to the cache,
    and all it ever does is set one entry whose analysis has a suggestion
    list and no error flag; no endpoint removes an entry. *)
Theorem cache_written_only_by_analyze :
  keeps_cache Main.root
  /\ keeps_cache Main.health_check
  /\ (forall file, keeps_cache (Main.upload_protocol file))
  /\ (forall body, keeps_cache (Main.generate_improved_protocol body))
  /\ (forall name, keeps_cache (Main.download_file name))
  /\ keeps_cache Main.get_stats
  /\ (forall file w,
        cache_step (analysis_cache w)
          (analysis_cache (snd (Main.analyze_protocol file w)))).
Proof.
  split; [intros w; reflexivity|].
  split; [exact health_check_keeps_cache|].
  split; [exact upload_protocol_keeps_cache|].
  split; [exact improve_keeps_cache|].
  split; [intros name w; now rewrite download_file_keeps_world|].
  split; [intros w; reflexivity|].
  exact analyze_cache_step.
Qed.

(** X25.  In every state the process reaches through its endpoints, each
    cached entry holds a text with a visible character and an analysis
    without error flag, and reading its suggestion list, as
    [/api/improve] does, succeeds. *)
Theorem reachable_entries_analysed (w : world) (id : string) (cached : cache_entry) :
  reachable w ->
  dict_get (analysis_cache w) id = Some cached ->
  entry_ok cached
  /\ has_text (original_text cached)
  /\ exists l, Main.cached_suggestions cached = Returns l.
Proof.
  intros Hr Hc.
  assert (Hall : Forall (fun kv : string * cache_entry =>
                           entry_ok (snd kv) /\ has_text (original_text (snd kv)))
                   (analysis_cache w)).
  { clear Hc.
    induction Hr as [|w _ IH|w _ IH|file w _ IH|file w _ IH|body w _ IH|name w _ IH
                    |w _ IH].
    - constructor.
    - exact IH.
    - now rewrite health_check_keeps_cache.
    - now rewrite upload_protocol_keeps_cache.
    - destruct (analyze_endpoint_cases file w)
        as [(status_code & detail & _ & -> & _)
           |[(_ & _ & -> & _)
            |(k & t & md & d & id' & ts & _ & _ & Ht & Hl & He & _ & _ & -> & _)]];
        [exact IH|exact IH|].
      apply dict_set_Forall; [|exact IH].
      intros k'. cbn [snd analysis_entry analysis original_text].
      split; [split; assumption|exact Ht].
    - now rewrite improve_keeps_cache.
    - now rewrite download_file_keeps_world.
    - exact IH. }
  rewrite Forall_forall in Hall.
  destruct (Hall _ (dict_get_In _ _ _ Hc)) as [[Hl He] Ht]. cbn [snd] in *.
  split; [split; assumption|]. split; [exact Ht|].
  destruct Hl as [l Hl]. exists l.
  unfold Main.cached_suggestions, dict_getitem. now rewrite Hl.
Qed.

End CacheSteps.

Lemma reachable_entries_analysed_witness :
  let E := Fixture.answering Fixture.raw_low_high_medium in
  let file := {| upload_filename := "pcr.pdf"; upload_file := Samples.pdf_bytes |} in
  let w := snd (@Main.analyze_protocol E file empty_world) in
  let cached :=
    match dict_get (analysis_cache w) "20240517_103000_pcr.pdf_20240517103000" with
    | Some c => c
    | None => Fixture.cached_analysis
    end in
  entry_ok cached /\ has_text (original_text cached)
  /\ exists l, Main.cached_suggestions cached = Returns l.
Proof.
  cbv zeta.
  apply (@reachable_entries_analysed (Fixture.answering Fixture.raw_low_high_medium)
           (snd (@Main.analyze_protocol (Fixture.answering Fixture.raw_low_high_medium)
                   {| upload_filename := "pcr.pdf"; upload_file := Samples.pdf_bytes |}
                   empty_world))
           "20240517_103000_pcr.pdf_20240517103000").
  - apply reach_analyze, reach_start.
  - vm_compute. reflexivity.
Defined.

(** X26.  For indices that are natural numbers the selection of
    [/api/improve] never raises: it returns the suggestions found at those
    positions, in the order and with the repetitions of the request, and
    skips the positions past the end. *)
Theorem select_accepted_at_positions (all_suggestions : list pyval)
  (positions : list nat) :
  Main.select_accepted all_suggestions (map Z.of_nat positions)
  = Returns (elements_at all_suggestions positions).
Proof.
  rewrite select_accepted_nonneg
    by (apply Forall_forall; intros i Hi; apply in_map_iff in Hi as (n & <- & _); lia).
  f_equal. unfold in_range_selection, elements_at.
  induction positions as [|i positions IH]; [reflexivity|].
  cbn [map flat_map]. rewrite IH. f_equal.
  unfold in_range. rewrite Nat2Z.id.
  replace (0 <=? Z.of_nat i) with true by (symmetry; apply Z.leb_le; lia).
  cbn [andb].
  destruct (Z.of_nat i <? Z.of_nat (List.length all_suggestions)) eqn:Hi;
    [reflexivity|].
  apply Z.ltb_ge in Hi.
  replace (nth_error all_suggestions i) with (@None pyval); [reflexivity|].
  symmetry. apply nth_error_None. lia.
Qed.

(** X27.  [Settings.validate] passes its two checks exactly for a key
    that begins with [sk-ant-].  Any other key is refused with a
    [ValueError], the empty key with the message that it was not found. *)
Theorem validate_accepts_iff_prefix (key : string) :
  (settings.validate key = Returns true
   <-> exists rest, key = ("sk-ant-" ++ rest)%string)
  /\ ((forall rest, key <> ("sk-ant-" ++ rest)%string)
      -> exists msg, settings.validate key = Raises (Exn ValueError msg))
  /\ settings.validate EmptyString
     = Raises (Exn ValueError
                 "ANTHROPIC_API_KEY not found. Please add it to your .env file").
Proof.
  split; [|split; [|reflexivity]].
  - unfold settings.validate. destruct (String.eqb key EmptyString) eqn:Ek.
    + apply String.eqb_eq in Ek. subst key.
      split; [discriminate|intros [rest Hr]; discriminate].
    + destruct (String.prefix "sk-ant-" key) eqn:Ep; cbn [negb].
      * split; [intros _; now apply prefix_iff_append|reflexivity].
      * split; [discriminate|].
        intros Hr. apply prefix_iff_append in Hr. congruence.
  - intros Hno. unfold settings.validate.
    destruct (String.eqb key EmptyString); [eexists; reflexivity|].
    destruct (String.prefix "sk-ant-" key) eqn:Ep; cbn [negb]; [|eexists; reflexivity].
    apply prefix_iff_append in Ep as [rest Hr]. now destruct (Hno rest).
Qed.

(* ================================================================== *)
(** * The suffix of a stamped name *)








(* ================================================================== *)
(** * Paths stay in the folders *)

Lemma resolve_segment existing folder name :
  Posix.has_slash name = false ->
  Posix.resolve existing folder name <> Posix.Elsewhere.
Proof.
  intros Hs. unfold Posix.resolve. destruct (Posix.has_nul name); [discriminate|].
  destruct (String.prefix "/" name) eqn:Ep.
  { exfalso. apply prefix_iff_append in Ep as [r ->]. unfold Posix.has_slash in Hs.
    change (chars ("/" ++ r)) with (Posix.slash :: chars r) in Hs.
    cbn [existsb] in Hs. rewrite Ascii.eqb_refl in Hs. discriminate. }
  destruct (_ <=? _); [discriminate|].
  unfold Posix.path_parts. rewrite (split_chars_no_sep _ _ Hs). cbn [map filter].
  destruct (Posix.kept _); [|discriminate].
  destruct (_ <? _); [discriminate|].
  destruct (String.eqb _ ".."); discriminate.
Qed.

(** X29.  No path the endpoints build leaves its folder, whatever the
    client sends as a name: the stamp in front of an upload's name, and
    the prefix in front of a revision's, make the first component a name
    that is neither the folder nor its parent; and the one segment the
    download route admits leads to a name of the folder, to the folder or
    to its parent, never further.  So a name made of [..] steps or
    beginning with a slash reaches no file outside. *)
Theorem paths_stay_in_folders (t : datetime) (name : string) (w : world) :
  (upload_resolution (saved_name t name) w <> Posix.Elsewhere
   /\ upload_resolution (saved_name t name) w <> Posix.Is_a_directory)
  /\ (output_resolution (output_name name t) w <> Posix.Elsewhere
      /\ output_resolution (output_name name t) w <> Posix.Is_a_directory)
  /\ (Posix.has_slash name = false -> output_resolution name w <> Posix.Elsewhere).
Proof.
  split; [|split].
  - destruct (upload_resolution_stamped t name w). now split.
  - rewrite output_name_chars. unfold output_resolution.
    change (chars "improved_") with ("i"%char :: chars "mproved_").
    cbn [app].
    destruct (resolve_prefixed (dict_keys (output_folder w)) settings.OUTPUT_FOLDER
                "i"%char (chars "mproved_")
                ((chars name ++ "_"%char :: chars (strftime_Ymd_HMS t)) ++ chars ".txt"))
      as [Hd He]; try discriminate; [reflexivity|].
    now split.
  - intros Hs. now apply resolve_segment.
Qed.
